(** * Android device operator: a shallow embedding of the tool wrappers

    The repository registers a flat table of tools (src/tools/*.py).  Each
    tool connects to a device through the uiautomator2 library, issues a few
    library calls and turns the outcome into a plain Python value.  The
    library, the adb bridge, [shutil], [subprocess] and [asyncio] are
    external: they are modelled by one handler [lib] over an abstract
    [World], and every theorem below holds for every such handler.

    Conventions of the embedding.
    - A Python [str] is a Rocq [string]; a character is a code point below
      256 (adb prints ASCII).
    - An exception is an instance of [Exception]: a class name and the text
      [str(e)] gives.  Interpreter exits and signals are outside the model.
    - [print] appends to a log and does not fail. *)

From Stdlib Require Import List String Ascii Bool Arith NArith ZArith QArith Lia.
Import ListNotations.

Local Open Scope string_scope.
Local Open Scope list_scope.

Set Implicit Arguments.
Set Warnings "-register-all".

(** ** Python string built-ins used by the device-list parser *)

Module PyStr.

(** [str.isspace] on one code point below 256. *)
Definition is_space (c : ascii) : bool :=
  let n := N_of_ascii c in
  ((9 <=? n) && (n <=? 13) || (28 <=? n) && (n <=? 32)
   || (n =? 133) || (n =? 160))%N.

(** The line boundaries [str.splitlines] recognises below 256:
    LF, VT, FF, CR, FS, GS, RS and NEL. *)
Definition is_linebreak (c : ascii) : bool :=
  let n := N_of_ascii c in
  ((10 <=? n) && (n <=? 13) || (28 <=? n) && (n <=? 30) || (n =? 133))%N.

Definition is_cr (c : ascii) : bool := (N_of_ascii c =? 13)%N.
Definition is_lf (c : ascii) : bool := (N_of_ascii c =? 10)%N.

Definition is_empty (s : string) : bool :=
  match s with EmptyString => true | String _ _ => false end.

(** [s.lstrip()] *)
Fixpoint lstrip (s : string) : string :=
  match s with
  | EmptyString => EmptyString
  | String c s' => if is_space c then lstrip s' else s
  end.

(** [s.rstrip()] *)
Fixpoint rstrip (s : string) : string :=
  match s with
  | EmptyString => EmptyString
  | String c s' =>
      let r := rstrip s' in
      if is_space c && is_empty r then EmptyString else String c r
  end.

(** [s.strip()] *)
Definition strip (s : string) : string := rstrip (lstrip s).

(** Put a character in front of the first line of a list of lines. *)
Definition push_char (c : ascii) (ls : list string) : list string :=
  match ls with
  | [] => [String c EmptyString]
  | l :: ls' => String c l :: ls'
  end.

(** [s.splitlines()]: the lines without their boundaries; CR LF is one
    boundary; a final boundary opens no empty last line. *)
Fixpoint splitlines (s : string) : list string :=
  match s with
  | EmptyString => []
  | String c s' =>
      if is_linebreak c then
        EmptyString ::
          (if is_cr c then
             match s' with
             | String c' s'' => if is_lf c' then splitlines s'' else splitlines s'
             | EmptyString => []
             end
           else splitlines s')
      else push_char c (splitlines s')
  end.

(** The token that starts at the head of [s] (empty when [s] starts with
    white space) and the tokens after it. *)
Definition push_token (t : string) (ts : list string) : list string :=
  if is_empty t then ts else t :: ts.

Fixpoint split_from (s : string) : string * list string :=
  match s with
  | EmptyString => (EmptyString, [])
  | String c s' =>
      let (t, ts) := split_from s' in
      if is_space c then (EmptyString, push_token t ts) else (String c t, ts)
  end.

(** [s.split()] with no separator: the maximal runs of non-space characters. *)
Definition split (s : string) : list string :=
  let (t, ts) := split_from s in push_token t ts.

End PyStr.

(** ** The device-list parser

    src/tools/device_tools.py has this loop three times, in
    [get_device_status] (lines 62-68), [connect_device] (177-183) and
    [check_adb_and_list_devices] (324-330):

      lines = result.stdout.strip().splitlines()
      devices = []
      for line in lines[1:]:
          if line.strip():
              parts = line.split()
              if len(parts) >= 2 and parts[1] == "device":
                  devices.append(parts[0])
*)

(** One iteration of the loop body, on the list built so far. *)
Definition parse_line (devices : list string) (line : string) : list string :=
  if negb (PyStr.is_empty (PyStr.strip line)) then
    let parts := PyStr.split line in
    if (2 <=? List.length parts)%nat && String.eqb (nth 1 parts EmptyString) "device"
    then devices ++ [nth 0 parts EmptyString]
    else devices
  else devices.

Definition parse_lines (lines : list string) : list string :=
  fold_left parse_line lines [].

Definition parse_devices (stdout : string) : list string :=
  parse_lines (tl (PyStr.splitlines (PyStr.strip stdout))).


(** ** Python values, exceptions and library calls *)

(** The values the tools handle.  [PList] stands for lists and tuples;
    [PObj] is a handle on an object of the library (a device, a selector, an
    element, a completed process): the tools only pass it back to the
    library. *)
Inductive pyval : Type :=
| PNone
| PBool (b : bool)
| PInt (z : Z)
| PFloat (q : Q)
| PStr (s : string)
| PList (l : list pyval)
| PDict (kv : list (string * pyval))
| PObj (id : N).

(** An instance of [Exception]: its class and what [str(e)] returns. *)
Record exn : Type := Exn { exn_class : string; exn_str : string }.

Inductive outcome (A : Type) : Type :=
| Returned (a : A)
| Raised (e : exn).
Arguments Returned {A} a.
Arguments Raised {A} e.

(** What a tool asks of the outside: a module-level function
    ([u2.connect], [shutil.which], [subprocess.run], [asyncio.sleep]), a
    method of a library object ([d.press(key)], [d(text=...)] as
    [__call__]) or one of its attributes ([d.info], [el.exists]). *)
Inductive call : Type :=
| CallFn (f : string) (args : list pyval) (kwargs : list (string * pyval))
| CallMethod (recv : pyval) (m : string) (args : list pyval)
    (kwargs : list (string * pyval))
| GetAttr (recv : pyval) (a : string).

Definition type_name (v : pyval) : string :=
  match v with
  | PNone => "NoneType"
  | PBool _ => "bool"
  | PInt _ => "int"
  | PFloat _ => "float"
  | PStr _ => "str"
  | PList _ => "list"
  | PDict _ => "dict"
  | PObj _ => "object"
  end.

Definition of_option (o : option string) : pyval :=
  match o with Some s => PStr s | None => PNone end.

Definition is_none (v : pyval) : bool :=
  match v with PNone => true | _ => false end.

(** Association lists as dicts: [lookup] is [k in d] with [d[k]], and
    [dict_set] is [d[k] = v], which keeps the place of a key already there. *)
Fixpoint lookup (k : string) (kv : list (string * pyval)) : option pyval :=
  match kv with
  | [] => None
  | (k', v) :: kv' => if String.eqb k k' then Some v else lookup k kv'
  end.

Fixpoint dict_set (k : string) (v : pyval) (kv : list (string * pyval))
  : list (string * pyval) :=
  match kv with
  | [] => [(k, v)]
  | (k', v') :: kv' =>
      if String.eqb k k' then (k', v) :: kv' else (k', v') :: dict_set k v kv'
  end.

Definition AttributeError (v : pyval) (a : string) : exn :=
  Exn "AttributeError"
      ("'" ++ type_name v ++ "' object has no attribute '" ++ a ++ "'").

Definition KeyError (k : string) : exn := Exn "KeyError" ("'" ++ k ++ "'").

Definition ValueError (msg : string) : exn := Exn "ValueError" msg.

Definition TypeError (msg : string) : exn := Exn "TypeError" msg.

Definition IndexError : exn := Exn "IndexError" "list index out of range".

(** ** The monad of a tool: the world, a log of calls, what was printed *)

Record state (World : Type) : Type := State {
  world : World;                     (* the device, the bridge, the host *)
  trace : list (call * outcome pyval);
                                     (* library calls and their outcomes, oldest first *)
  printed : list string;             (* lines written by [print] *)
  status : list (string * pyval)     (* the local dict [status] of get_device_status *)
}.

Section Tools.

Variable World : Type.

(** The outside world: each call returns a value or raises, and moves the
    world. *)
Variable lib : call -> World -> outcome pyval * World.

(** [str(v)] as an f-string formats a library value. *)
Variable py_str : pyval -> string.

Definition M (A : Type) : Type := state World -> outcome A * state World.

Definition ret {A} (a : A) : M A := fun st => (Returned a, st).

Definition bind {A B} (m : M A) (k : A -> M B) : M B :=
  fun st =>
    match m st with
    | (Returned a, st') => k a st'
    | (Raised e, st') => (Raised e, st')
    end.

Definition raise {A} (e : exn) : M A := fun st => (Raised e, st).

(** [try: body  except Exception as e: handler e].  What the body changed
    before it raised stays changed. *)
Definition try_except {A} (body : M A) (handler : exn -> M A) : M A :=
  fun st =>
    match body st with
    | (Returned a, st') => (Returned a, st')
    | (Raised e, st') => handler e st'
    end.

Definition lib_call (c : call) : M pyval :=
  fun st =>
    let (r, w) := lib c (world st) in
    (r, State w (trace st ++ [(c, r)]) (printed st) (status st)).

Definition print (line : string) : M unit :=
  fun st =>
    (Returned tt, State (world st) (trace st) (printed st ++ [line]) (status st)).

Definition get_status : M (list (string * pyval)) :=
  fun st => (Returned (status st), st).

Definition put_status (d : list (string * pyval)) : M unit :=
  fun st => (Returned tt, State (world st) (trace st) (printed st) d).

(** [status[k] = v] *)
Definition status_setitem (k : string) (v : pyval) : M unit :=
  fun st =>
    (Returned tt,
     State (world st) (trace st) (printed st) (dict_set k v (status st))).

Notation "x <- m ;; k" := (bind m (fun x => k))
  (at level 61, m at next level, right associativity).
Notation "m ;;; k" := (bind m (fun _ => k))
  (at level 61, right associativity).

(** *** Python operations on values *)

(** Truth of a value that is not a library object. *)
Definition plain_truth (v : pyval) : M bool :=
  match v with
  | PNone => ret false
  | PBool b => ret b
  | PInt z => ret (negb (z =? 0)%Z)
  | PFloat q => ret (negb (Qeq_bool q 0))
  | PStr s => ret (negb (PyStr.is_empty s))
  | PList l => ret (match l with [] => false | _ => true end)
  | PDict kv => ret (match kv with [] => false | _ => true end)
  | PObj _ => raise (TypeError "__bool__ should return bool")
  end.

(** [bool(v)]: a library object answers through its class ([__bool__] or
    [__len__]). *)
Definition truthy (v : pyval) : M bool :=
  match v with
  | PObj _ => r <- lib_call (CallMethod v "__bool__" [] []) ;; plain_truth r
  | _ => plain_truth v
  end.

(** [v.a] *)
Definition py_getattr (v : pyval) (a : string) : M pyval :=
  match v with
  | PObj _ => lib_call (GetAttr v a)
  | _ => raise (AttributeError v a)
  end.

(** [v.m(args, kwargs)] for a method of the library *)
Definition py_method (v : pyval) (m : string) (args : list pyval)
  (kwargs : list (string * pyval)) : M pyval :=
  match v with
  | PObj _ => lib_call (CallMethod v m args kwargs)
  | _ => raise (AttributeError v m)
  end.

(** [v(k1=x1, ...)]: calling a library object with keyword arguments *)
Definition py_call (v : pyval) (kwargs : list (string * pyval)) : M pyval :=
  match v with
  | PObj _ => lib_call (CallMethod v "__call__" [] kwargs)
  | _ => raise (TypeError ("'" ++ type_name v ++ "' object is not callable"))
  end.

(** [v.get(k, dflt)] *)
Definition py_get (v : pyval) (k : string) (dflt : pyval) : M pyval :=
  match v with
  | PDict kv => ret (match lookup k kv with Some x => x | None => dflt end)
  | PObj _ => lib_call (CallMethod v "get" [PStr k; dflt] [])
  | _ => raise (AttributeError v "get")
  end.

(** [v[k]] with a string key *)
Definition py_getitem (v : pyval) (k : string) : M pyval :=
  match v with
  | PDict kv =>
      match lookup k kv with Some x => ret x | None => raise (KeyError k) end
  | PObj _ => lib_call (CallMethod v "__getitem__" [PStr k] [])
  | PStr _ => raise (TypeError "string indices must be integers")
  | PList _ => raise (TypeError "list indices must be integers or slices, not str")
  | _ => raise (TypeError ("'" ++ type_name v ++ "' object is not subscriptable"))
  end.

(** [v[i]] with a literal index [i >= 0] *)
Definition py_index (v : pyval) (i : nat) : M pyval :=
  match v with
  | PList l =>
      match nth_error l i with Some x => ret x | None => raise IndexError end
  | PStr s =>
      match String.get i s with
      | Some c => ret (PStr (String c EmptyString))
      | None => raise (Exn "IndexError" "string index out of range")
      end
  | PDict _ => raise (Exn "KeyError" (py_str (PInt (Z.of_nat i))))
  | PObj _ => lib_call (CallMethod v "__getitem__" [PInt (Z.of_nat i)] [])
  | _ => raise (TypeError ("'" ++ type_name v ++ "' object is not subscriptable"))
  end.

(** [len(v)] *)
Definition py_len (v : pyval) : M pyval :=
  match v with
  | PStr s => ret (PInt (Z.of_nat (String.length s)))
  | PList l => ret (PInt (Z.of_nat (List.length l)))
  | PDict kv => ret (PInt (Z.of_nat (List.length kv)))
  | PObj _ => lib_call (CallMethod v "__len__" [] [])
  | _ => raise (TypeError ("object of type '" ++ type_name v ++ "' has no len()"))
  end.

(** [a or b] *)
Definition py_or (a b : pyval) : M pyval :=
  t <- truthy a ;; ret (if t then a else b).

(** The receiver of [.strip()]: a [str], or the call raises. *)
Definition as_str (v : pyval) : M string :=
  match v with
  | PStr s => ret s
  | _ => raise (AttributeError v "strip")
  end.

(** *** The library entry points the tools use *)

Definition u2_connect (device_id : option string) : M pyval :=
  lib_call (CallFn "u2.connect" [of_option device_id] []).

(** [u2.connect()] *)
Definition u2_connect_default : M pyval :=
  lib_call (CallFn "u2.connect" [] []).

Definition shutil_which (cmd : string) : M pyval :=
  lib_call (CallFn "shutil.which" [PStr cmd] []).

(** [subprocess.run([adb_path, "devices"], capture_output=True, text=True,
    check=True)] *)
Definition run_adb_devices (adb_path : pyval) : M pyval :=
  lib_call (CallFn "subprocess.run" [PList [adb_path; PStr "devices"]]
              [("capture_output", PBool true); ("text", PBool true);
               ("check", PBool true)]).

Definition asyncio_sleep (seconds : Z) : M pyval :=
  lib_call (CallFn "asyncio.sleep" [PInt seconds] []).

(** The three selector kinds, as every selector-consuming tool spells them
    out: [d(text=selector)], [d(resourceId=selector)],
    [d(description=selector)], or [ValueError]. *)
Definition select_by (d : pyval) (selector selector_type : string) : M pyval :=
  if String.eqb selector_type "text" then py_call d [("text", PStr selector)]
  else if String.eqb selector_type "resourceId" then
    py_call d [("resourceId", PStr selector)]
  else if String.eqb selector_type "description" then
    py_call d [("description", PStr selector)]
  else raise (ValueError ("Invalid selector_type: " ++ selector_type)).

(** [d(kind=selector).wait(timeout=timeout)], the lookup of click and
    get_element_info *)
Definition wait_for_selector (d : pyval) (selector selector_type : string)
  (timeout : Q) : M pyval :=
  sel <- select_by d selector selector_type ;;
  py_method sel "wait" [] [("timeout", PFloat timeout)].

(** [el and el.exists] as the test of an [if] *)
Definition el_and_exists (el : pyval) : M bool :=
  t <- truthy el ;;
  if t then (x <- py_getattr el "exists" ;; truthy x) else ret false.

(** *** src/tools/device_tools.py *)

Definition mcp_health : M pyval :=
  ret (PStr "Hello, world! MCP Android Device Operator server is running.").

(** The block [result = subprocess.run(...)] ... [devices.append(parts[0])]
    shared by the three tools that list devices. *)
Definition list_devices (adb_path : pyval) : M (list string) :=
  result <- run_adb_devices adb_path ;;
  out <- py_getattr result "stdout" ;;
  s <- as_str out ;;
  ret (parse_devices s).

Definition list_is_empty {A} (l : list A) : bool :=
  match l with [] => true | _ => false end.

(** The five fields both device tools read from [d.info]. *)
Definition basic_device_info (info : pyval) : M (list (string * pyval)) :=
  manufacturer <- py_get info "manufacturer" (PStr EmptyString) ;;
  model <- py_get info "model" (PStr EmptyString) ;;
  serial <- py_get info "serial" (PStr EmptyString) ;;
  v1 <- py_get info "version" (PDict []) ;;
  release <- py_get v1 "release" (PStr EmptyString) ;;
  v2 <- py_get info "version" (PDict []) ;;
  sdk <- py_get v2 "sdk" (PInt 0) ;;
  ret [("manufacturer", manufacturer); ("model", model); ("serial", serial);
       ("version", release); ("sdk", sdk)].

Definition status_response (adb_available : bool) (error : string) : pyval :=
  PDict [("adb_available", PBool adb_available);
         ("connected_devices", PList []);
         ("device_connected", PBool false);
         ("device_info", PDict []);
         ("screen_on", PBool false);
         ("error", PStr error);
         ("ready_for_automation", PBool false)].

(** The dict [status] as get_device_status first builds it (lines 80-88). *)
Definition initial_status (devices : list string) : list (string * pyval) :=
  [("adb_available", PBool true);
   ("connected_devices", PList (map PStr devices));
   ("device_connected", PBool false);
   ("device_info", PDict []);
   ("screen_on", PBool false);
   ("error", PNone);
   ("ready_for_automation", PBool false)].

(** The [try] block that connects and fills [status] (lines 95-111). *)
Definition probe_device_try : M unit :=
  d <- u2_connect_default ;;
  info <- py_getattr d "info" ;;
  device_info <- basic_device_info info ;;
  status_setitem "device_connected" (PBool true) ;;;
  status_setitem "device_info" (PDict device_info) ;;;
  on <- py_method d "screen_on" [] [] ;;
  status_setitem "screen_on" on ;;;
  status_setitem "ready_for_automation" (PBool true).

(** That block with its handler (lines 113-114). *)
Definition probe_device : M unit :=
  try_except probe_device_try
    (fun e =>
       status_setitem "error" (PStr ("Device connection failed: " ++ exn_str e))).

(** From [status = {...}] to [return status] (lines 80-116). *)
Definition report_status (devices : list string) : M pyval :=
  put_status (initial_status devices) ;;;
  if list_is_empty devices then
    status_setitem "error"
      (PStr "No devices connected. Please connect device and enable USB debugging.") ;;;
    s <- get_status ;; ret (PDict s)
  else
    probe_device ;;;
    s <- get_status ;; ret (PDict s).

Definition get_device_status : M pyval :=
  try_except
    (adb_path <- shutil_which "adb" ;;
     found <- truthy adb_path ;;
     if negb found then
       ret (status_response false
              "ADB not available in PATH. Please install Android SDK platform-tools.")
     else
       r <- try_except
              (devices <- list_devices adb_path ;; ret (inr devices))
              (fun e =>
                 ret (inl (status_response true
                             ("Failed to check connected devices: " ++ exn_str e)))) ;;
       match r with
       | inl response => ret response
       | inr devices => report_status devices
       end)
    (fun e => ret (status_response false ("Status check failed: " ++ exn_str e))).

Definition device_response (success : bool) (device_info : list (string * pyval))
  (error device_id : pyval) : pyval :=
  PDict [("success", PBool success); ("device_info", PDict device_info);
         ("error", error); ("device_id", device_id)].

Definition connect_device (device_id : option string) : M pyval :=
  try_except
    (adb_path <- shutil_which "adb" ;;
     found <- truthy adb_path ;;
     if negb found then
       ret (device_response false [] (PStr "ADB is not available in PATH")
              (of_option device_id))
     else
       r <- try_except
              (devices <- list_devices adb_path ;;
               if list_is_empty devices then
                 ret (Some (device_response false []
                              (PStr "No Android devices connected. Please connect a device and ensure USB debugging is enabled.")
                              (of_option device_id)))
               else ret None)
              (fun _ =>
                 ret (Some (device_response false []
                              (PStr "Failed to check connected devices via ADB")
                              (of_option device_id)))) ;;
       match r with
       | Some response => ret response
       | None =>
           d <- u2_connect device_id ;;
           info <- py_getattr d "info" ;;
           basic <- basic_device_info info ;;
           disp <- py_get info "display" (PDict []) ;;
           density <- py_get disp "density" (PStr EmptyString) ;;
           product <- py_get info "productName" (PStr EmptyString) ;;
           serial <- py_getattr d "serial" ;;
           id <- py_or serial (of_option device_id) ;;
           ret (device_response true
                  (basic ++ [("display", density); ("product", product)])
                  PNone id)
       end)
    (fun e =>
       ret (device_response false []
              (PStr ("Failed to connect to device: " ++ exn_str e))
              (of_option device_id))).

Definition get_device_info (device_id : option string) : M pyval :=
  try_except
    (d <- u2_connect device_id ;;
     info <- py_getattr d "info" ;;
     display <- py_method d "window_size" [] [] ;;
     serial <- py_getattr d "serial" ;;
     w <- py_index display 0 ;;
     h <- py_index display 1 ;;
     v1 <- py_get info "version" (PDict []) ;;
     release <- py_get v1 "release" (PStr EmptyString) ;;
     v2 <- py_get info "version" (PDict []) ;;
     sdk <- py_get v2 "sdk" (PInt 0) ;;
     battery <- py_getattr d "battery_info" ;;
     wifi_ip <- py_getattr d "wlan_ip" ;;
     manufacturer <- py_get info "manufacturer" (PStr EmptyString) ;;
     model <- py_get info "model" (PStr EmptyString) ;;
     is_screen_on <- py_method d "screen_on" [] [] ;;
     product <- py_get info "productName" (PStr EmptyString) ;;
     serial' <- py_getattr d "serial" ;;
     id <- py_or serial' (of_option device_id) ;;
     ret (device_response true
            [("serial", serial);
             ("resolution", PStr (py_str w ++ "x" ++ py_str h));
             ("version", release); ("sdk", sdk); ("battery", battery);
             ("wifi_ip", wifi_ip); ("manufacturer", manufacturer);
             ("model", model); ("is_screen_on", is_screen_on);
             ("product", product)]
            PNone id))
    (fun e =>
       ret (device_response false []
              (PStr ("Failed to get device info: " ++ exn_str e))
              (of_option device_id))).

Definition adb_response (adb_exists : bool) (devices : list string)
  (error : pyval) : pyval :=
  PDict [("adb_exists", PBool adb_exists); ("devices", PList (map PStr devices));
         ("error", error)].

(** The lookup of adb on PATH comes before the [try]. *)
Definition check_adb_and_list_devices : M pyval :=
  adb_path <- shutil_which "adb" ;;
  found <- truthy adb_path ;;
  if negb found then
    ret (adb_response false [] (PStr "adb command not found in PATH"))
  else
    try_except
      (devices <- list_devices adb_path ;; ret (adb_response true devices PNone))
      (fun e => ret (adb_response true [] (PStr (exn_str e)))).

(** *** src/tools/app_tools.py *)

Definition apps_response (success : bool) (apps count error device_id : pyval)
  : pyval :=
  PDict [("success", PBool success); ("apps", apps); ("count", count);
         ("error", error); ("device_id", device_id)].

Definition get_installed_apps (device_id : option string) : M pyval :=
  try_except
    (adb_path <- shutil_which "adb" ;;
     found <- truthy adb_path ;;
     if negb found then
       ret (apps_response false (PList []) (PInt 0)
              (PStr "ADB is not available in PATH") (of_option device_id))
     else
       d <- u2_connect device_id ;;
       apps <- py_method d "app_list" [] [] ;;
       count <- py_len apps ;;
       serial <- py_getattr d "serial" ;;
       id <- py_or serial (of_option device_id) ;;
       ret (apps_response true apps count PNone id))
    (fun e =>
       ret (apps_response false (PList []) (PInt 0)
              (PStr ("Failed to get installed apps: " ++ exn_str e))
              (of_option device_id))).

(** No [try] here. *)
Definition get_current_app (device_id : option string) : M pyval :=
  d <- u2_connect device_id ;;
  py_method d "app_current" [] [].

(** The handler of every boolean tool: print the cause, return [False]. *)
Definition print_false (msg : string) (e : exn) : M pyval :=
  print (msg ++ ": " ++ exn_str e) ;;; ret (PBool false).

Definition start_app (package_name : string) (device_id : option string)
  (wait : bool) : M pyval :=
  try_except
    (d <- u2_connect device_id ;;
     py_method d "app_start" [PStr package_name] [] ;;;
     if wait then
       pid <- py_method d "app_wait" [PStr package_name] [("front", PBool true)] ;;
       ret (PBool (negb (is_none pid)))
     else ret (PBool true))
    (print_false ("Failed to start app " ++ package_name)).

Definition stop_app (package_name : string) (device_id : option string)
  : M pyval :=
  try_except
    (d <- u2_connect device_id ;;
     py_method d "app_stop" [PStr package_name] [] ;;;
     ret (PBool true))
    (print_false ("Failed to stop app " ++ package_name)).

Definition stop_all_apps (device_id : option string) : M pyval :=
  try_except
    (d <- u2_connect device_id ;;
     py_method d "app_stop_all" [] [] ;;;
     ret (PBool true))
    (print_false "Failed to stop all apps").

Definition clear_app_data (package_name : string) (device_id : option string)
  : M pyval :=
  try_except
    (d <- u2_connect device_id ;;
     py_method d "app_clear" [PStr package_name] [] ;;;
     ret (PBool true))
    (print_false ("Failed to clear app data for " ++ package_name)).

(** *** src/tools/screen_tools.py *)

Definition screen_on (device_id : option string) : M pyval :=
  try_except
    (d <- u2_connect device_id ;;
     py_method d "screen_on" [] [] ;;;
     ret (PBool true))
    (print_false "Failed to turn screen on").

Definition screen_off (device_id : option string) : M pyval :=
  try_except
    (d <- u2_connect device_id ;;
     py_method d "screen_off" [] [] ;;;
     ret (PBool true))
    (print_false "Failed to turn screen off").

Definition unlock_screen (device_id : option string) : M pyval :=
  try_except
    (d <- u2_connect device_id ;;
     info <- py_getattr d "info" ;;
     on <- py_getitem info "screenOn" ;;
     lit <- truthy on ;;
     (if negb lit then py_method d "screen_on" [] [] ;;; ret tt else ret tt) ;;;
     py_method d "unlock" [] [] ;;;
     ret (PBool true))
    (print_false "Failed to unlock screen").

(** One poll of [while not d.screen_on()]. *)
Definition poll_screen (d : pyval) : M bool :=
  v <- py_method d "screen_on" [] [] ;; truthy v.

(** The [while] loop of wait_for_screen_on, unrolled at most [fuel] times;
    [None] when the loop is still running after [fuel] polls. *)
Fixpoint wait_loop (fuel : nat) (d : pyval) (st : state World)
  : option (outcome pyval * state World) :=
  match fuel with
  | O => None
  | S fuel' =>
      match poll_screen d st with
      | (Raised e, st1) => Some (Raised e, st1)
      | (Returned true, st1) => Some (Returned (PStr "Screen is now on"), st1)
      | (Returned false, st1) =>
          match asyncio_sleep 1 st1 with
          | (Raised e, st2) => Some (Raised e, st2)
          | (Returned _, st2) => wait_loop fuel' d st2
          end
      end
  end.

(** No [try] here either. *)
Definition wait_for_screen_on (fuel : nat) (device_id : string)
  (st : state World) : option (outcome pyval * state World) :=
  match u2_connect (Some device_id) st with
  | (Raised e, st0) => Some (Raised e, st0)
  | (Returned d, st0) => wait_loop fuel d st0
  end.

(** *** src/tools/input_tools.py *)

Definition press_key (key : string) (device_id : option string) : M pyval :=
  try_except
    (d <- u2_connect device_id ;;
     py_method d "press" [PStr key] [] ;;;
     ret (PBool true))
    (print_false ("Failed to press key " ++ key)).

Definition click (selector selector_type : string) (timeout : Q)
  (device_id : option string) : M pyval :=
  try_except
    (d <- u2_connect device_id ;;
     el <- wait_for_selector d selector selector_type timeout ;;
     found <- el_and_exists el ;;
     if found then py_method el "click" [] [] ;;; ret (PBool true)
     else ret (PBool false))
    (print_false ("Failed to click element " ++ selector)).

Definition long_click (selector selector_type : string) (duration : Q)
  (device_id : option string) : M pyval :=
  try_except
    (d <- u2_connect device_id ;;
     el <- select_by d selector selector_type ;;
     found <- el_and_exists el ;;
     if found then
       py_method el "long_click" [] [("duration", PFloat duration)] ;;;
       ret (PBool true)
     else ret (PBool false))
    (print_false ("Failed to long click element " ++ selector)).

Definition swipe (start_x start_y end_x end_y duration : Q)
  (device_id : option string) : M pyval :=
  try_except
    (d <- u2_connect device_id ;;
     py_method d "swipe"
       [PFloat start_x; PFloat start_y; PFloat end_x; PFloat end_y]
       [("duration", PFloat duration)] ;;;
     ret (PBool true))
    (print_false "Failed to perform swipe").

Definition drag (selector selector_type : string) (to_x to_y : Z)
  (device_id : option string) : M pyval :=
  try_except
    (d <- u2_connect device_id ;;
     el <- select_by d selector selector_type ;;
     found <- el_and_exists el ;;
     if found then
       py_method el "drag_to" [PInt to_x; PInt to_y] [] ;;; ret (PBool true)
     else ret (PBool false))
    (print_false ("Failed to drag element " ++ selector)).

Definition send_text (text : string) (clear : bool) (device_id : option string)
  : M pyval :=
  try_except
    (d <- u2_connect device_id ;;
     py_method d "send_keys" [PStr text] [("clear", PBool clear)] ;;;
     ret (PBool true))
    (print_false "Failed to send text").

(** *** src/tools/inspection_tools.py *)

(** The keys of [ElementInfo], in the order of the class. *)
Definition ElementInfo_keys : list string :=
  ["text"; "resourceId"; "description"; "className"; "enabled"; "clickable";
   "bounds"; "selected"; "focused"].

(** The [try] block of get_element_info. *)
Definition get_element_info_try (selector selector_type : string) (timeout : Q)
  (device_id : option string) : M pyval :=
  d <- u2_connect device_id ;;
  el <- wait_for_selector d selector selector_type timeout ;;
  found <- el_and_exists el ;;
  if found then
    info <- py_getattr el "info" ;;
    text <- py_get info "text" (PStr EmptyString) ;;
    resourceId <- py_get info "resourceId" (PStr EmptyString) ;;
    description <- py_get info "contentDescription" (PStr EmptyString) ;;
    className <- py_get info "className" (PStr EmptyString) ;;
    enabled <- py_get info "enabled" (PBool false) ;;
    clickable <- py_get info "clickable" (PBool false) ;;
    bounds <- py_get info "bounds" (PDict []) ;;
    selected <- py_get info "selected" (PBool false) ;;
    focused <- py_get info "focused" (PBool false) ;;
    ret (PDict [("text", text); ("resourceId", resourceId);
                ("description", description); ("className", className);
                ("enabled", enabled); ("clickable", clickable);
                ("bounds", bounds); ("selected", selected);
                ("focused", focused)])
  else ret (PDict []).

Definition get_element_info (selector selector_type : string) (timeout : Q)
  (device_id : option string) : M pyval :=
  try_except
    (get_element_info_try selector selector_type timeout device_id)
    (fun e =>
       print ("Failed to get element info for " ++ selector ++ ": " ++ exn_str e) ;;;
       ret (PDict [])).

(** [el is not None and el.exists] as a returned value *)
Definition not_none_and_exists (el : pyval) : M pyval :=
  if negb (is_none el) then py_getattr el "exists" else ret (PBool false).

Definition wait_for_element (selector selector_type : string) (timeout : Q)
  (device_id : option string) : M pyval :=
  try_except
    (d <- u2_connect device_id ;;
     if String.eqb selector_type "text" then
       sel <- py_call d [("text", PStr selector)] ;;
       py_method sel "wait" [] [("timeout", PFloat timeout)]
     else if String.eqb selector_type "resourceId" then
       sel <- py_call d [("resourceId", PStr selector)] ;;
       py_method sel "wait" [] [("timeout", PFloat timeout)]
     else if String.eqb selector_type "description" then
       sel <- py_call d [("description", PStr selector)] ;;
       el <- py_method sel "wait" [] [("timeout", PFloat timeout)] ;;
       not_none_and_exists el
     else raise (ValueError ("Invalid selector_type: " ++ selector_type)))
    (print_false ("Failed to wait for element " ++ selector)).

(** [d(scrollable=True).scroll.to(k=selector)] *)
Definition scroll_search (d : pyval) (kind selector : string) : M pyval :=
  scrollable <- py_call d [("scrollable", PBool true)] ;;
  scroll <- py_getattr scrollable "scroll" ;;
  py_method scroll "to" [] [(kind, PStr selector)].

Definition scroll_to (selector selector_type : string)
  (device_id : option string) : M pyval :=
  try_except
    (d <- u2_connect device_id ;;
     if String.eqb selector_type "text" then scroll_search d "text" selector
     else if String.eqb selector_type "resourceId" then
       scroll_search d "resourceId" selector
     else if String.eqb selector_type "description" then
       el <- scroll_search d "description" selector ;;
       not_none_and_exists el
     else raise (ValueError ("Invalid selector_type: " ++ selector_type)))
    (print_false ("Failed to scroll to element " ++ selector)).

Definition screenshot (filename : string) (device_id : option string)
  : M pyval :=
  try_except
    (d <- u2_connect device_id ;;
     py_method d "screenshot" [PStr filename] [] ;;;
     ret (PBool true))
    (print_false "Failed to take screenshot").

Definition dump_hierarchy (compressed pretty : bool) (max_depth : Z)
  (device_id : option string) : M pyval :=
  try_except
    (d <- u2_connect device_id ;;
     xml <- py_method d "dump_hierarchy" []
              [("compressed", PBool compressed); ("pretty", PBool pretty);
               ("max_depth", PInt max_depth)] ;;
     ret xml)
    (fun e =>
       print ("Failed to dump UI hierarchy: " ++ exn_str e) ;;;
       ret (PStr EmptyString)).

(** *** src/tools/advanced_tools.py *)

Definition get_toast (device_id : option string) : M pyval :=
  try_except
    (d <- u2_connect device_id ;;
     toast <- py_getattr d "toast" ;;
     msg <- py_method toast "get_message" [PFloat 10] [] ;;
     py_or msg (PStr EmptyString))
    (fun e =>
       print ("Failed to get toast message: " ++ exn_str e) ;;;
       ret (PStr EmptyString)).

Definition wait_activity (activity : string) (timeout : Q)
  (device_id : option string) : M pyval :=
  try_except
    (d <- u2_connect device_id ;;
     py_method d "wait_activity" [PStr activity] [("timeout", PFloat timeout)])
    (print_false ("Failed to wait for activity " ++ activity)).

End Tools.

(** ** The table of tools

    [register_all_tools] (src/tools/__init__.py) registers the tools below
    with the server; a request names one and gives its arguments. *)

Inductive invocation : Type :=
| Mcp_health
| Get_device_status
| Connect_device (device_id : option string)
| Get_device_info (device_id : option string)
| Check_adb_and_list_devices
| Get_installed_apps (device_id : option string)
| Get_current_app (device_id : option string)
| Start_app (package_name : string) (device_id : option string) (wait : bool)
| Stop_app (package_name : string) (device_id : option string)
| Stop_all_apps (device_id : option string)
| Clear_app_data (package_name : string) (device_id : option string)
| Screen_on (device_id : option string)
| Screen_off (device_id : option string)
| Unlock_screen (device_id : option string)
| Wait_for_screen_on (device_id : string)
| Press_key (key : string) (device_id : option string)
| Click (selector selector_type : string) (timeout : Q) (device_id : option string)
| Long_click (selector selector_type : string) (duration : Q)
    (device_id : option string)
| Swipe (start_x start_y end_x end_y duration : Q) (device_id : option string)
| Drag (selector selector_type : string) (to_x to_y : Z) (device_id : option string)
| Send_text (text : string) (clear : bool) (device_id : option string)
| Get_element_info (selector selector_type : string) (timeout : Q)
    (device_id : option string)
| Wait_for_element (selector selector_type : string) (timeout : Q)
    (device_id : option string)
| Scroll_to (selector selector_type : string) (device_id : option string)
| Screenshot (filename : string) (device_id : option string)
| Dump_hierarchy (compressed pretty : bool) (max_depth : Z)
    (device_id : option string)
| Get_toast (device_id : option string)
| Wait_activity (activity : string) (timeout : Q) (device_id : option string).

Section Server.

Variable World : Type.
Variable lib : call -> World -> outcome pyval * World.
Variable py_str : pyval -> string.

(** Serving one request.  [fuel] bounds the polls of wait_for_screen_on, the
    one tool with a loop of its own; [None] means that it is still polling. *)
Definition run (fuel : nat) (inv : invocation) (st : state World)
  : option (outcome pyval * state World) :=
  match inv with
  | Mcp_health => Some (mcp_health st)
  | Get_device_status => Some (get_device_status lib st)
  | Connect_device d => Some (connect_device lib d st)
  | Get_device_info d => Some (get_device_info lib py_str d st)
  | Check_adb_and_list_devices => Some (check_adb_and_list_devices lib st)
  | Get_installed_apps d => Some (get_installed_apps lib d st)
  | Get_current_app d => Some (get_current_app lib d st)
  | Start_app p d w => Some (start_app lib p d w st)
  | Stop_app p d => Some (stop_app lib p d st)
  | Stop_all_apps d => Some (stop_all_apps lib d st)
  | Clear_app_data p d => Some (clear_app_data lib p d st)
  | Screen_on d => Some (screen_on lib d st)
  | Screen_off d => Some (screen_off lib d st)
  | Unlock_screen d => Some (unlock_screen lib d st)
  | Wait_for_screen_on d => wait_for_screen_on lib fuel d st
  | Press_key k d => Some (press_key lib k d st)
  | Click s k t d => Some (click lib s k t d st)
  | Long_click s k t d => Some (long_click lib s k t d st)
  | Swipe x1 y1 x2 y2 t d => Some (swipe lib x1 y1 x2 y2 t d st)
  | Drag s k x y d => Some (drag lib s k x y d st)
  | Send_text t c d => Some (send_text lib t c d st)
  | Get_element_info s k t d => Some (get_element_info lib s k t d st)
  | Wait_for_element s k t d => Some (wait_for_element lib s k t d st)
  | Scroll_to s k d => Some (scroll_to lib s k d st)
  | Screenshot f d => Some (screenshot lib f d st)
  | Dump_hierarchy c p m d => Some (dump_hierarchy lib c p m d st)
  | Get_toast d => Some (get_toast lib d st)
  | Wait_activity a t d => Some (wait_activity lib a t d st)
  end.

End Server.

(** ** Vocabulary of the statements *)

(** No call of the log raised. *)
Definition quiet (evs : list (call * outcome pyval)) : Prop :=
  forall c e, ~ In (c, Raised e) evs.

(** Some call of the log raised. *)
Definition faulty (evs : list (call * outcome pyval)) : Prop :=
  exists c e, In (c, Raised e) evs.

(** A computation with no handler of its own: it only adds to the log, and
    when it returns no call it made has raised. *)
Definition straight {World A} (m : M World A) : Prop :=
  forall st, exists evs,
    trace (snd (m st)) = trace st ++ evs /\
    (forall a, fst (m st) = Returned a -> quiet evs).

(** What a computation returns, when it returns. *)
Definition post {World A} (m : M World A) (P : A -> Prop) : Prop :=
  forall st a, fst (m st) = Returned a -> P a.

(** A computation that returns whatever the library does. *)
Definition total {World A} (m : M World A) : Prop :=
  forall st, exists a, fst (m st) = Returned a.

Definition valid_selector_type (selector_type : string) : Prop :=
  selector_type = "text" \/ selector_type = "resourceId" \/
  selector_type = "description".

(** A line with no visible character. *)
Definition is_blank (line : string) : bool := PyStr.is_empty (PyStr.strip line).

(** The rule of the specification for one row: a non-blank row, split on
    white space, gives its first token when its second token is "device". *)
Definition ready_serial (row : string) : list string :=
  if is_blank row then []
  else match PyStr.split row with
       | serial :: status :: _ =>
           if String.eqb status "device" then [serial] else []
       | _ => []
       end.

Definition ready_serials (rows : list string) : list string :=
  flat_map ready_serial rows.

(** Only white space. *)
Fixpoint all_space (s : string) : bool :=
  match s with
  | EmptyString => true
  | String c s' => PyStr.is_space c && all_space s'
  end.

(** A line holds no line boundary. *)
Fixpoint one_line (s : string) : bool :=
  match s with
  | EmptyString => true
  | String c s' => negb (PyStr.is_linebreak c) && one_line s'
  end.

(** The lines of an output after [rstrip]: blank lines at the end go, and
    the last line left loses its trailing white space. *)
Fixpoint rstrip_lines (ls : list string) : list string :=
  match ls with
  | [] => []
  | l :: ls' =>
      match rstrip_lines ls' with
      | [] => if PyStr.is_empty (PyStr.rstrip l) then [] else [PyStr.rstrip l]
      | r => l :: r
      end
  end.

(** A boundary that is not the CR of a CR LF pair. *)
Definition lone_break (c : ascii) (t : string) : Prop :=
  PyStr.is_linebreak c = true /\
  (PyStr.is_cr c = false \/
   match t with String c' _ => PyStr.is_lf c' = false | EmptyString => True end).

(** What a tool does with a request it refuses after connecting: it
    returns [failure] and the connection is the only call it made. *)
Definition rejects {World} (r : outcome pyval * state World)
  (st : state World) (failure : pyval) (device_id : option string) : Prop :=
  fst r = Returned failure /\
  map fst (trace (snd r))
  = map fst (trace st) ++ [CallFn "u2.connect" [of_option device_id] []].

(** The check unlock_screen starts with: [d.info["screenOn"]] as a truth
    value. *)
Definition screen_state {World} (lib : call -> World -> outcome pyval * World)
  (d : pyval) : M World bool :=
  bind (py_getattr lib d "info")
    (fun info => bind (py_getitem lib info "screenOn") (truthy lib)).

Definition wake_call (d : pyval) : call := CallMethod d "screen_on" [] [].
Definition unlock_call (d : pyval) : call := CallMethod d "unlock" [] [].

(** The descriptor has the nine keys of [ElementInfo], or none. *)
Definition descriptor_shape (v : pyval) : Prop :=
  exists kv, v = PDict kv /\ (kv = [] \/ map fst kv = ElementInfo_keys).

(** The state in which poll number [n] (from 0) of wait_for_screen_on
    starts: the [n] polls before it saw the screen off and each was followed
    by a sleep that returned. *)
Fixpoint before_poll {World} (lib : call -> World -> outcome pyval * World)
  (d : pyval) (n : nat) (st : state World) : option (state World) :=
  match n with
  | O => Some st
  | S n' =>
      match poll_screen lib d st with
      | (Returned false, st1) =>
          match asyncio_sleep lib 1 st1 with
          | (Returned _, st2) => before_poll lib d n' st2
          | (Raised _, _) => None
          end
      | _ => None
      end
  end.

(** Poll number [n] takes place and sees the screen on; it ends in [st']. *)
Definition poll_sees_on {World} (lib : call -> World -> outcome pyval * World)
  (d : pyval) (st : state World) (n : nat) (st' : state World) : Prop :=
  exists stn, before_poll lib d n st = Some stn /\
              poll_screen lib d stn = (Returned true, st').

(** Every poll takes place and sees the screen off. *)
Definition polls_see_off {World} (lib : call -> World -> outcome pyval * World)
  (d : pyval) (st : state World) : Prop :=
  forall n, exists stn st',
    before_poll lib d n st = Some stn /\
    poll_screen lib d stn = (Returned false, st').

Definition is_sleep (c : call) : bool :=
  match c with
  | CallFn f _ _ => String.eqb f "asyncio.sleep"
  | _ => false
  end.

(** The sleeps of a log, in order. *)
Definition sleeps (evs : list (call * outcome pyval)) : list call :=
  filter is_sleep (map fst evs).

Definition sleep_one_second : call := CallFn "asyncio.sleep" [PInt 1] [].

Definition screen_is_now_on : pyval := PStr "Screen is now on".

(** The tools whose body is a [try] statement from its first line on. *)
Definition guarded (inv : invocation) : Prop :=
  match inv with
  | Get_current_app _ | Wait_for_screen_on _ | Check_adb_and_list_devices => False
  | _ => True
  end.

(** A computation that may handle exceptions itself: when it returns,
    either no call it made has raised or what it returns satisfies [P]. *)
Definition careful {World A} (m : M World A) (P : A -> Prop) : Prop :=
  forall st, exists evs,
    trace (snd (m st)) = trace st ++ evs /\
    (forall a, fst (m st) = Returned a -> quiet evs \/ P a).

(** A computation that leaves the local dict [status] alone. *)
Definition keeps_status {World A} (m : M World A) : Prop :=
  forall st, status (snd (m st)) = status st.

(** The failed responses of the dictionary-returning tools. *)
Definition device_failure (device_id : option string) (resp : pyval) : Prop :=
  exists msg, msg <> EmptyString /\
    resp = device_response false [] (PStr msg) (of_option device_id).

Definition apps_failure (device_id : option string) (resp : pyval) : Prop :=
  exists msg, msg <> EmptyString /\
    resp = apps_response false (PList []) (PInt 0) (PStr msg)
             (of_option device_id).

Definition not_ready (kv : list (string * pyval)) : Prop :=
  lookup "ready_for_automation" kv = Some (PBool false) /\
  exists msg, msg <> EmptyString /\ lookup "error" kv = Some (PStr msg).





Definition TAB : string := String (ascii_of_nat 9) EmptyString.
Definition LF : string := String (ascii_of_nat 10) EmptyString.
Definition CR : string := String (ascii_of_nat 13) EmptyString.

(** Lines as the bridge prints them, each ended by a line feed. *)
Fixpoint unlines (ls : list string) : string :=
  match ls with
  | [] => EmptyString
  | l :: ls' => (l ++ LF ++ unlines ls')%string
  end.

(** ** A small phone, to run the tools on

    The bridge may be missing or fail, the phone may be unreachable, and its
    screen lights up after a number of seconds. *)

Record phone : Type := Phone {
  adb_on_path : bool;
  adb_output : option string;   (* what [adb devices] prints; [None]: it fails *)
  reachable : bool;
  dark_for : nat                (* seconds until the screen is on *)
}.

Definition device : pyval := PObj 1.
Definition completed_process : pyval := PObj 2.

Definition tick (w : phone) : phone :=
  Phone (adb_on_path w) (adb_output w) (reachable w) (pred (dark_for w)).

Definition lit (w : phone) : bool := Nat.eqb (dark_for w) 0.

Definition phone_lib (c : call) (w : phone) : outcome pyval * phone :=
  match c with
  | CallFn f _ _ =>
      if String.eqb f "shutil.which" then
        (Returned (if adb_on_path w then PStr "/usr/bin/adb" else PNone), w)
      else if String.eqb f "subprocess.run" then
        match adb_output w with
        | Some _ => (Returned completed_process, w)
        | None =>
            (Raised (Exn "CalledProcessError"
                       "Command returned non-zero exit status 1."), w)
        end
      else if String.eqb f "u2.connect" then
        if reachable w then (Returned device, w)
        else (Raised (Exn "ConnectError"
                        "Can't find any android device/emulator"), w)
      else if String.eqb f "asyncio.sleep" then (Returned PNone, tick w)
      else (Raised (Exn "NameError" f), w)
  | GetAttr _ a =>
      if String.eqb a "stdout" then
        (Returned (match adb_output w with Some s => PStr s | None => PNone end), w)
      else if String.eqb a "info" then
        (Returned (PDict [("screenOn", PBool (lit w));
                          ("manufacturer", PStr "Google");
                          ("model", PStr "Pixel 7")]), w)
      else if String.eqb a "serial" then (Returned (PStr "emulator-5554"), w)
      else if String.eqb a "exists" then (Returned (PBool true), w)
      else (Returned PNone, w)
  | CallMethod _ m _ _ =>
      if String.eqb m "screen_on" then (Returned (PBool (lit w)), w)
      else if String.eqb m "__call__" then (Returned (PObj 3), w)
      else if String.eqb m "wait" then (Returned (PObj 4), w)
      else if String.eqb m "__bool__" then (Returned (PBool true), w)
      else (Returned PNone, w)
  end.

Definition phone_str (v : pyval) : string :=
  match v with PStr s => s | _ => type_name v end.


Definition boot (w : phone) : state phone := State w [] [] [].

(** The small phone after the connection of a tool. *)
Definition connected (w : phone) : state phone :=
  snd (u2_connect phone_lib (Some "emulator-5554") (boot w)).

(** The small phone after [n] polls that saw a dark screen, each followed
    by a sleep of one second. *)
Fixpoint after_polls (n : nat) (st : state phone) : state phone :=
  match n with
  | O => st
  | S n' =>
      after_polls n'
        (snd (asyncio_sleep phone_lib 1 (snd (poll_screen phone_lib device st))))
  end.

Definition adb_listing : string :=
  "List of devices attached" ++ LF ++ "SERIAL1" ++ TAB ++ "device" ++ LF
  ++ "SERIAL2" ++ TAB ++ "unauthorized" ++ LF ++ LF.

(** A phone on the desk, screen on. *)
Definition ready_phone : phone := Phone true (Some adb_listing) true 0.

(** Nothing plugged in: adb is installed and lists no device. *)
Definition unplugged : phone :=
  Phone true (Some ("List of devices attached" ++ LF)%string) false 0.


(** The screen comes on after three seconds. *)
Definition waking_phone : phone := Phone true (Some adb_listing) true 3.

(** Listed by the bridge, and out of reach of the library. *)
Definition unreachable_phone : phone := Phone true (Some adb_listing) false 0.

(** ** Vocabulary of the further properties *)

(** The lines left once the blank lines in front are gone. *)
Fixpoint drop_blank (ls : list string) : list string :=
  match ls with
  | [] => []
  | l :: ls' => if is_blank l then drop_blank ls' else ls
  end.

(** No white space inside. *)
Fixpoint no_space (s : string) : bool :=
  match s with
  | EmptyString => true
  | String c s' => negb (PyStr.is_space c) && no_space s'
  end.

(** A token of [split]: not empty, no white space. *)
Definition is_token (s : string) : bool :=
  negb (PyStr.is_empty s) && no_space s.

(** A row of the table of the bridge: identifier, tab, state. *)
Definition adb_row (p : string * string) : string :=
  (fst p ++ TAB ++ snd p)%string.

(** The identifiers of a table whose state is "device". *)
Definition ready_of_table (table : list (string * string)) : list string :=
  map fst (filter (fun p => String.eqb (snd p) "device") table).

(** Lines ended by CR LF, as the bridge prints them on Windows. *)
Fixpoint unlines_crlf (ls : list string) : string :=
  match ls with
  | [] => EmptyString
  | l :: ls' => (l ++ CR ++ LF ++ unlines_crlf ls')%string
  end.

(** The connection every tool starts with. *)
Definition connect_call (device_id : option string) : call :=
  CallFn "u2.connect" [of_option device_id] [].

(** A tool that connects and then asks one thing of the device.  It
    returns [True] with nothing printed when both calls return, whatever
    the second one returns; otherwise it returns [False] after printing one
    line with the text of the exception, and it has asked for [action] only
    if the connection gave it a device object. *)
Definition acts_once {World} (tool : M World pyval) (device_id : option string)
  (action : pyval -> call) (msg : string) : Prop :=
  forall st, exists evs,
    trace (snd (tool st)) = trace st ++ evs /\
    ((fst (tool st) = Returned (PBool true) /\
      printed (snd (tool st)) = printed st /\
      exists d v,
        evs = [(connect_call device_id, Returned d); (action d, Returned v)])
     \/
     (fst (tool st) = Returned (PBool false) /\
      exists e,
        printed (snd (tool st))
        = printed st ++ [(msg ++ ": " ++ exn_str e)%string] /\
        (evs = [(connect_call device_id, Raised e)] \/
         (exists d, evs = [(connect_call device_id, Returned d)] /\
                    forall id, d <> PObj id) \/
         exists d,
           evs = [(connect_call device_id, Returned d); (action d, Raised e)]))).

(** A computation all of whose library calls pass the test [P]. *)
Definition asks_only {World A} (P : call -> bool) (m : M World A) : Prop :=
  forall st, exists evs,
    trace (snd (m st)) = trace st ++ evs /\
    forallb (fun ev => P (fst ev)) evs = true.

(** Calls that look for the bridge or run it. *)
Definition is_adb (c : call) : bool :=
  match c with
  | CallFn f _ _ => String.eqb f "shutil.which" || String.eqb f "subprocess.run"
  | _ => false
  end.

(** Calls of the method [wait] of a selector. *)
Definition is_wait (c : call) : bool :=
  match c with
  | CallMethod _ m _ _ => String.eqb m "wait"
  | _ => false
  end.

Definition not_adb (c : call) : bool := negb (is_adb c).
Definition not_sleep (c : call) : bool := negb (is_sleep c).
Definition not_wait (c : call) : bool := negb (is_wait c).

(** The tools that look for the bridge. *)
Definition looks_for_adb (inv : invocation) : bool :=
  match inv with
  | Get_device_status | Connect_device _ | Check_adb_and_list_devices
  | Get_installed_apps _ => true
  | _ => false
  end.

Definition is_wait_for_screen_on (inv : invocation) : bool :=
  match inv with Wait_for_screen_on _ => true | _ => false end.

(** The tools that wait for an element to appear. *)
Definition waits_for_element (inv : invocation) : bool :=
  match inv with
  | Click _ _ _ _ | Get_element_info _ _ _ _ | Wait_for_element _ _ _ _ => true
  | _ => false
  end.

(** A library whose [wait] answers with a plain [True], on the small
    phone. *)
Definition plain_wait_lib (c : call) (w : phone) : outcome pyval * phone :=
  match c with
  | CallMethod _ m _ _ =>
      if String.eqb m "wait" then (Returned (PBool true), w) else phone_lib c w
  | _ => phone_lib c w
  end.

(** The keys of [device_info] in a response of connect_device and of
    get_device_info. *)
Definition connect_info_keys : list string :=
  ["manufacturer"; "model"; "serial"; "version"; "sdk"; "display"; "product"].

Definition device_info_keys : list string :=
  ["serial"; "resolution"; "version"; "sdk"; "battery"; "wifi_ip";
   "manufacturer"; "model"; "is_screen_on"; "product"].

(** A response of success of the two tools, with the given keys under
    [device_info]. *)
Definition device_success (keys : list string) (resp : pyval) : Prop :=
  exists device_info id,
    resp = device_response true device_info PNone id /\
    map fst device_info = keys.

(** A response of success of get_installed_apps: when [apps] is a list,
    [count] is its length. *)
Definition apps_success (resp : pyval) : Prop :=
  exists apps count id,
    resp = apps_response true apps count PNone id /\
    forall l, apps = PList l -> count = PInt (Z.of_nat (List.length l)).

(** The three responses of check_adb_and_list_devices. *)
Definition adb_listing_response (resp : pyval) : Prop :=
  resp = adb_response false [] (PStr "adb command not found in PATH") \/
  (exists devices,
     resp = adb_response true devices PNone /\
     Forall (fun serial => is_token serial = true) devices) \/
  (exists msg, resp = adb_response true [] (PStr msg)).

(** The keys of a response of get_device_status, in order. *)
Definition status_keys : list string :=
  ["adb_available"; "connected_devices"; "device_connected"; "device_info";
   "screen_on"; "error"; "ready_for_automation"].

(** A response of get_device_status: the seven keys, and either the device
    is ready (the bridge was found and lists a device, the connection went
    through, no error), or it is not ready and the error says why. *)
Definition status_shape (kv : list (string * pyval)) : Prop :=
  map fst kv = status_keys /\
  ((lookup "ready_for_automation" kv = Some (PBool true) /\
    lookup "device_connected" kv = Some (PBool true) /\
    lookup "error" kv = Some PNone /\
    lookup "adb_available" kv = Some (PBool true) /\
    exists serial serials,
      lookup "connected_devices" kv = Some (PList (PStr serial :: serials)))
   \/ not_ready kv).

(** A library that loses the device when its screen comes on: from then
    on [screen_on] raises. *)
Definition device_offline : exn := Exn "ConnectionError" "device offline".

Definition dropping_lib (c : call) (w : phone) : outcome pyval * phone :=
  match c with
  | CallMethod _ m _ _ =>
      if String.eqb m "screen_on" && lit w then (Raised device_offline, w)
      else phone_lib c w
  | _ => phone_lib c w
  end.

(** The waking phone on that library after the connection and [n] polls,
    each followed by a sleep. *)
Definition dropping_polls (n : nat) : state phone :=
  Nat.iter n
    (fun st =>
       snd (asyncio_sleep dropping_lib 1 (snd (poll_screen dropping_lib device st))))
    (snd (u2_connect dropping_lib (Some "emulator-5554") (boot waking_phone))).

(** * Properties *)

Unset Implicit Arguments.

(** ** Strings *)

Example parse_devices_adb : parse_devices adb_listing = ["SERIAL1"].
Proof. reflexivity. Qed.

Example splitlines_crlf :
  PyStr.splitlines ("a" ++ CR ++ LF ++ "b" ++ CR ++ "c" ++ LF ++ LF ++ " d" ++ LF)
  = ["a"; "b"; "c"; EmptyString; " d"].
Proof. reflexivity. Qed.

Example split_ws :
  PyStr.split ("  emulator-5554" ++ TAB ++ TAB ++ "device  usb:1 ")
  = ["emulator-5554"; "device"; "usb:1"].
Proof. reflexivity. Qed.

Example strip_both : PyStr.strip (LF ++ " a b " ++ TAB ++ LF) = "a b".
Proof. reflexivity. Qed.

Section StringFacts.

Import PyStr.

Lemma is_empty_true (s : string) : is_empty s = true -> s = EmptyString.
Proof. destruct s; [reflexivity | discriminate]. Qed.

Lemma linebreak_is_space (c : ascii) : is_linebreak c = true -> is_space c = true.
Proof.
  unfold is_linebreak, is_space.
  repeat rewrite ?orb_true_iff, ?andb_true_iff, ?N.leb_le, ?N.eqb_eq. lia.
Qed.

Lemma cr_is_linebreak (c : ascii) : is_cr c = true -> is_linebreak c = true.
Proof.
  unfold is_linebreak, is_cr.
  repeat rewrite ?orb_true_iff, ?andb_true_iff, ?N.leb_le, ?N.eqb_eq. lia.
Qed.

Lemma lf_is_linebreak (c : ascii) : is_lf c = true -> is_linebreak c = true.
Proof.
  unfold is_linebreak, is_lf.
  repeat rewrite ?orb_true_iff, ?andb_true_iff, ?N.leb_le, ?N.eqb_eq. lia.
Qed.

Lemma rstrip_empty (s : string) : is_empty (rstrip s) = all_space s.
Proof.
  induction s as [|c s IH]; simpl; [reflexivity|].
  rewrite IH. destruct (is_space c), (all_space s); reflexivity.
Qed.

Lemma lstrip_empty (s : string) : is_empty (lstrip s) = all_space s.
Proof.
  induction s as [|c s IH]; simpl; [reflexivity|].
  destruct (is_space c); [exact IH | reflexivity].
Qed.

Lemma all_space_lstrip (s : string) : all_space (lstrip s) = all_space s.
Proof.
  induction s as [|c s IH]; simpl; [reflexivity|].
  destruct (is_space c) eqn:E; [exact IH | simpl; rewrite E; reflexivity].
Qed.

Lemma all_space_rstrip (s : string) : all_space (rstrip s) = all_space s.
Proof.
  induction s as [|c s IH]; simpl; [reflexivity|].
  rewrite rstrip_empty.
  destruct (is_space c) eqn:E, (all_space s) eqn:F; simpl;
    rewrite ?E, ?IH, ?F; reflexivity.
Qed.

Lemma is_blank_all_space (s : string) : is_blank s = all_space s.
Proof. unfold is_blank, strip. now rewrite rstrip_empty, all_space_lstrip. Qed.

Lemma is_blank_rstrip (s : string) : is_blank (rstrip s) = is_blank s.
Proof. now rewrite !is_blank_all_space, all_space_rstrip. Qed.

Lemma is_blank_lstrip (s : string) : is_blank (lstrip s) = is_blank s.
Proof. now rewrite !is_blank_all_space, all_space_lstrip. Qed.

Lemma split_from_rstrip (s : string) : split_from (rstrip s) = split_from s.
Proof.
  induction s as [|c s IH]; simpl; [reflexivity|].
  destruct (is_space c) eqn:E; simpl.
  - destruct (is_empty (rstrip s)) eqn:F.
    + apply is_empty_true in F. rewrite F in IH. simpl in IH.
      rewrite <- IH. reflexivity.
    + simpl. rewrite E, IH. reflexivity.
  - simpl. rewrite E, IH. reflexivity.
Qed.

Lemma split_rstrip (s : string) : split (rstrip s) = split s.
Proof. unfold split. now rewrite split_from_rstrip. Qed.

Lemma ready_serial_rstrip (l : string) : ready_serial (rstrip l) = ready_serial l.
Proof. unfold ready_serial. now rewrite is_blank_rstrip, split_rstrip. Qed.

Lemma ready_serial_blank (l : string) : is_blank l = true -> ready_serial l = [].
Proof. unfold ready_serial. now intros ->. Qed.

(** The loop body adds to the list what the rule gives for the line. *)
Lemma parse_line_ready (devices : list string) (line : string) :
  parse_line devices line = devices ++ ready_serial line.
Proof.
  unfold parse_line, ready_serial, is_blank.
  destruct (is_empty (strip line)); simpl; [now rewrite app_nil_r|].
  destruct (split line) as [|a [|b rest]]; simpl; try now rewrite app_nil_r.
  destruct (String.eqb b "device"); [reflexivity | now rewrite app_nil_r].
Qed.

Lemma parse_lines_from (lines : list string) (devices : list string) :
  fold_left parse_line lines devices = devices ++ ready_serials lines.
Proof.
  revert devices. induction lines as [|l ls IH]; intros devices; simpl.
  - now rewrite app_nil_r.
  - rewrite IH, parse_line_ready, <- app_assoc. reflexivity.
Qed.

(** The loop computes the rule of the specification on its lines. *)
Lemma parse_lines_ready (lines : list string) :
  parse_lines lines = ready_serials lines.
Proof. unfold parse_lines. now rewrite parse_lines_from. Qed.

Lemma ready_serials_rstrip_lines (rows : list string) :
  ready_serials (rstrip_lines rows) = ready_serials rows.
Proof.
  induction rows as [|l ls IH]; simpl; [reflexivity|].
  destruct (rstrip_lines ls) as [|r rs] eqn:E.
  - simpl in IH. rewrite <- IH, app_nil_r.
    destruct (is_empty (rstrip l)) eqn:F.
    + simpl. symmetry. apply ready_serial_blank.
      now rewrite is_blank_all_space, <- rstrip_empty.
    + simpl. now rewrite app_nil_r, ready_serial_rstrip.
  - change (ready_serials (l :: r :: rs)) with (ready_serial l ++ ready_serials (r :: rs)).
    now rewrite IH.
Qed.

Lemma splitlines_nil (s : string) : splitlines s = [] -> s = EmptyString.
Proof.
  destruct s as [|c s]; [reflexivity|]. simpl.
  destruct (is_linebreak c); [discriminate|].
  destruct (splitlines s); discriminate.
Qed.

Lemma rstrip_lines_blank_push (c : ascii) (ls : list string) :
  is_space c = true -> rstrip_lines ls = [] -> rstrip_lines (push_char c ls) = [].
Proof.
  intros Hc H. destruct ls as [|l ls]; simpl in *.
  - now rewrite Hc.
  - destruct (rstrip_lines ls); [|discriminate].
    destruct (is_empty (rstrip l)) eqn:F; [|discriminate].
    now rewrite Hc.
Qed.

Lemma rstrip_lines_push (c : ascii) (ls : list string) :
  is_space c = false \/ rstrip_lines ls <> [] ->
  rstrip_lines (push_char c ls) = push_char c (rstrip_lines ls).
Proof.
  intros H. destruct ls as [|l ls]; simpl in *.
  - destruct H as [Hc|H]; [now rewrite Hc | congruence].
  - destruct (rstrip_lines ls) as [|r rs]; [|reflexivity].
    destruct (is_empty (rstrip l)) eqn:F.
    + destruct H as [Hc|H]; [|congruence].
      rewrite Hc. simpl. apply is_empty_true in F. now rewrite F.
    + rewrite andb_false_r. reflexivity.
Qed.

Lemma splitlines_lone_break (c : ascii) (t : string) :
  lone_break c t -> splitlines (String c t) = EmptyString :: splitlines t.
Proof.
  intros [Hlb H]. simpl. rewrite Hlb.
  destruct (is_cr c); [|reflexivity].
  destruct H as [H|H]; [discriminate|].
  destruct t as [|c' t']; [reflexivity | now rewrite H].
Qed.

Lemma splitlines_plain (c : ascii) (t : string) :
  is_linebreak c = false ->
  splitlines (String c t) = push_char c (splitlines t).
Proof. intros H. simpl. now rewrite H. Qed.

Lemma splitlines_crlf_pair (c c' : ascii) (t : string) :
  is_cr c = true -> is_lf c' = true ->
  splitlines (String c (String c' t)) = EmptyString :: splitlines t.
Proof.
  intros Hcr Hlf. simpl. now rewrite (cr_is_linebreak c Hcr), Hcr, Hlf.
Qed.

Lemma rstrip_cons (c : ascii) (t : string) :
  rstrip (String c t)
  = if is_space c && is_empty (rstrip t) then EmptyString
    else String c (rstrip t).
Proof. reflexivity. Qed.

Lemma lone_break_rstrip (c : ascii) (t : string) :
  lone_break c t -> is_empty (rstrip t) = false -> lone_break c (rstrip t).
Proof.
  intros [Hlb H] F. split; [exact Hlb|].
  destruct H as [H|H]; [now left | right].
  destruct t as [|c' t']; [exact I|].
  rewrite rstrip_cons in F |- *.
  destruct (is_space c' && is_empty (rstrip t')); [discriminate | exact H].
Qed.

Lemma rstrip_lines_cons (l : string) (ls : list string) :
  rstrip_lines (l :: ls)
  = match rstrip_lines ls with
    | [] => if is_empty (rstrip l) then [] else [rstrip l]
    | r => l :: r
    end.
Proof. reflexivity. Qed.

(** A boundary in front of [t]: one more line, the empty one. *)
Lemma splitlines_rstrip_break (c : ascii) (t : string) :
  is_space c = true ->
  splitlines (rstrip t) = rstrip_lines (splitlines t) ->
  (is_empty (rstrip t) = false ->
   splitlines (String c (rstrip t)) = EmptyString :: splitlines (rstrip t)) ->
  splitlines (rstrip (String c t))
  = rstrip_lines (EmptyString :: splitlines t).
Proof.
  intros Hsp IHt Hbreak.
  rewrite rstrip_cons, rstrip_lines_cons, Hsp, <- IHt. simpl andb.
  destruct (is_empty (rstrip t)) eqn:F.
  - apply is_empty_true in F. now rewrite F.
  - rewrite (Hbreak eq_refl).
    destruct (splitlines (rstrip t)) eqn:G; [|reflexivity].
    apply splitlines_nil in G. rewrite G in F. discriminate.
Qed.

(** [rstrip] seen on the lines. *)
Lemma splitlines_rstrip (s : string) :
  splitlines (rstrip s) = rstrip_lines (splitlines s).
Proof.
  remember (String.length s) as n eqn:Hn.
  assert (Hle : (String.length s <= n)%nat) by lia. clear Hn.
  revert s Hle. induction n as [|n IH]; intros s Hle.
  - destruct s; [reflexivity | simpl in Hle; lia].
  - destruct s as [|c s]; [reflexivity|]. simpl in Hle.
    assert (IHs : splitlines (rstrip s) = rstrip_lines (splitlines s))
      by (apply IH; lia).
    destruct (is_linebreak c) eqn:Hlb.
    + pose proof (linebreak_is_space c Hlb) as Hsp.
      assert (Hcase : lone_break c s \/
                      exists c' s', s = String c' s' /\ is_cr c = true /\
                                    is_lf c' = true).
      { unfold lone_break. destruct (is_cr c) eqn:Hcr; [|now left; auto].
        destruct s as [|c' s']; [left; auto|].
        destruct (is_lf c') eqn:Hlf; [right; eauto | left; auto]. }
      destruct Hcase as [Hlone | (c' & s' & -> & Hcr & Hlf)].
      * rewrite (splitlines_lone_break _ _ Hlone).
        apply splitlines_rstrip_break; [exact Hsp | exact IHs |].
        intros F. apply splitlines_lone_break. now apply lone_break_rstrip.
      * assert (IHs' : splitlines (rstrip s') = rstrip_lines (splitlines s'))
          by (apply IH; simpl in Hle; lia).
        pose proof (linebreak_is_space c' (lf_is_linebreak c' Hlf)) as Hsp'.
        rewrite (splitlines_crlf_pair _ _ s' Hcr Hlf).
        rewrite rstrip_cons, (rstrip_cons c' s'), Hsp, Hsp', rstrip_lines_cons,
          <- IHs'. simpl andb.
        destruct (is_empty (rstrip s')) eqn:F.
        -- apply is_empty_true in F. now rewrite F.
        -- cbn [is_empty]. rewrite (splitlines_crlf_pair _ _ _ Hcr Hlf).
           destruct (splitlines (rstrip s')) eqn:G; [|reflexivity].
           apply splitlines_nil in G. rewrite G in F. discriminate.
    + assert (Hpush : splitlines (String c s) = push_char c (splitlines s))
        by (simpl; now rewrite Hlb).
      rewrite Hpush, rstrip_cons.
      destruct (is_space c && is_empty (rstrip s)) eqn:F.
      * apply andb_true_iff in F as [Hsp F]. apply is_empty_true in F.
        rewrite F in IHs. symmetry. now apply rstrip_lines_blank_push.
      * assert (Hpush' : splitlines (String c (rstrip s))
                         = push_char c (splitlines (rstrip s)))
          by (simpl; now rewrite Hlb).
        rewrite Hpush', IHs. symmetry. apply rstrip_lines_push.
        apply andb_false_iff in F as [F|F]; [now left | right].
        intros G. assert (G' : splitlines (rstrip s) = []) by congruence.
        apply splitlines_nil in G'. rewrite G' in F. discriminate.
Qed.

(** [lstrip] seen on the lines, when the first line is not blank. *)
Lemma splitlines_lstrip (s h : string) (rows : list string) :
  splitlines s = h :: rows -> is_blank h = false ->
  splitlines (lstrip s) = lstrip h :: rows.
Proof.
  revert h. induction s as [|c s IH]; intros h Hs Hh; [discriminate|].
  destruct (is_space c) eqn:Hsp.
  - destruct (is_linebreak c) eqn:Hlb.
    + simpl in Hs. rewrite Hlb in Hs. injection Hs as <- _. discriminate.
    + simpl in Hs. rewrite Hlb in Hs. simpl. rewrite Hsp.
      destruct (splitlines s) as [|l ls] eqn:E; simpl in Hs.
      * injection Hs as <- _. rewrite is_blank_all_space in Hh. simpl in Hh.
        rewrite Hsp in Hh. discriminate.
      * injection Hs as <- <-. simpl. rewrite Hsp. apply IH; [reflexivity|].
        rewrite is_blank_all_space in Hh |- *. simpl in Hh.
        now rewrite Hsp in Hh.
  - assert (Hlb : is_linebreak c = false).
    { destruct (is_linebreak c) eqn:Hlb; [|reflexivity].
      apply linebreak_is_space in Hlb. congruence. }
    assert (E : lstrip (String c s) = String c s) by (simpl; now rewrite Hsp).
    rewrite E, Hs. f_equal.
    simpl in Hs. rewrite Hlb in Hs.
    destruct (splitlines s); simpl in Hs; injection Hs as <- _;
      simpl; now rewrite Hsp.
Qed.

(** A header that is one line, then a line feed. *)
Lemma splitlines_header (h rest : string) :
  one_line h = true ->
  splitlines (h ++ LF ++ rest) = h :: splitlines rest.
Proof.
  induction h as [|c h IH]; intros Hh.
  - reflexivity.
  - simpl in Hh. apply andb_true_iff in Hh as [Hc Hh].
    apply negb_true_iff in Hc.
    change (splitlines (String c (h ++ LF ++ rest)) = String c h :: splitlines rest).
    rewrite (splitlines_plain _ _ Hc), (IH Hh). reflexivity.
Qed.

(** The parser on an output whose first line is not blank. *)
Lemma parse_devices_lines (stdout header : string) (rows : list string) :
  splitlines stdout = header :: rows -> is_blank header = false ->
  parse_devices stdout = ready_serials rows.
Proof.
  intros Hs Hh. unfold parse_devices, strip.
  rewrite parse_lines_ready, splitlines_rstrip, (splitlines_lstrip _ _ _ Hs Hh),
    rstrip_lines_cons.
  destruct (rstrip_lines rows) as [|r rs] eqn:E.
  - rewrite <- (ready_serials_rstrip_lines rows), E.
    destruct (is_empty (rstrip (lstrip header))); reflexivity.
  - simpl tl. rewrite <- E. apply ready_serials_rstrip_lines.
Qed.

End StringFacts.

(** C2: on a bridge output whose first line is a header and whose other
    lines are device rows, the parser skips the header, splits each
    non-blank row on white space and returns exactly the first tokens of the
    rows whose second token is "device".  The header of the bridge is a line
    with visible text. *)
Theorem parse_devices_header_then_rows (stdout header : string)
  (rows : list string) :
  PyStr.splitlines stdout = header :: rows ->
  is_blank header = false ->
  parse_devices stdout = ready_serials rows.
Proof. apply parse_devices_lines. Qed.

(** The listing of the specification: SERIAL1 is ready, SERIAL2 is not. *)
Lemma parse_devices_header_then_rows_witness :
  PyStr.splitlines adb_listing
  = "List of devices attached"
      :: [("SERIAL1" ++ TAB ++ "device")%string;
          ("SERIAL2" ++ TAB ++ "unauthorized")%string; EmptyString] /\
  is_blank "List of devices attached" = false /\
  parse_devices adb_listing = ["SERIAL1"].
Proof.
  split; [reflexivity | split; [reflexivity|]].
  rewrite (parse_devices_header_then_rows adb_listing
             "List of devices attached"
             [("SERIAL1" ++ TAB ++ "device")%string;
              ("SERIAL2" ++ TAB ++ "unauthorized")%string; EmptyString]
             eq_refl eq_refl).
  reflexivity.
Defined.

(** The same two rows under any one-line header with visible text. *)
Corollary parse_devices_two_rows (header : string) :
  one_line header = true -> is_blank header = false ->
  parse_devices (header ++ LF ++ "SERIAL1" ++ TAB ++ "device" ++ LF
                 ++ "SERIAL2" ++ TAB ++ "unauthorized")
  = ["SERIAL1"].
Proof.
  intros H1 Hb.
  apply (parse_devices_lines _ header
           [("SERIAL1" ++ TAB ++ "device")%string;
            ("SERIAL2" ++ TAB ++ "unauthorized")%string]); [|exact Hb].
  now rewrite (splitlines_header _ _ H1).
Qed.

Lemma splitlines_unlines (ls : list string) :
  Forall (fun l => one_line l = true) ls ->
  PyStr.splitlines (unlines ls) = ls.
Proof.
  induction 1 as [|l ls Hl _ IH]; [reflexivity|].
  change (unlines (l :: ls)) with (l ++ LF ++ unlines ls)%string.
  now rewrite (splitlines_header _ _ Hl), IH.
Qed.

(** The output written out: a header, then rows, one per line. *)
Corollary parse_devices_unlines (header : string) (rows : list string) :
  one_line header = true -> is_blank header = false ->
  Forall (fun r => one_line r = true) rows ->
  parse_devices (unlines (header :: rows)) = ready_serials rows.
Proof.
  intros H1 Hb Hrows.
  apply (parse_devices_lines _ header rows); [|exact Hb].
  apply splitlines_unlines. now constructor.
Qed.

(** [strip] runs on the whole output before the first line is dropped: under
    a blank first line the row after it is taken for the header. *)
Remark parse_devices_blank_first_line :
  parse_devices (LF ++ "SERIAL1" ++ TAB ++ "device" ++ LF) = [].
Proof. reflexivity. Qed.

(** ** The monad *)

Section MonadFacts.

Variable World : Type.
Variable lib : call -> World -> outcome pyval * World.

Lemma bind_returned {A B} (m : M World A) (k : A -> M World B) st a st1 :
  m st = (Returned a, st1) -> bind m k st = k a st1.
Proof. unfold bind. now intros ->. Qed.

Lemma bind_raised {A B} (m : M World A) (k : A -> M World B) st e st1 :
  m st = (Raised e, st1) -> bind m k st = (Raised e, st1).
Proof. unfold bind. now intros ->. Qed.

Lemma try_returned {A} (body : M World A) h st a st1 :
  body st = (Returned a, st1) -> try_except body h st = (Returned a, st1).
Proof. unfold try_except. now intros ->. Qed.

Lemma try_raised {A} (body : M World A) h st e st1 :
  body st = (Raised e, st1) -> try_except body h st = h e st1.
Proof. unfold try_except. now intros ->. Qed.

Lemma print_false_run (msg : string) (e : exn) (st : state World) :
  print_false msg e st
  = (Returned (PBool false),
     State (world st) (trace st)
       (printed st ++ [(msg ++ ": " ++ exn_str e)%string]) (status st)).
Proof. reflexivity. Qed.

Lemma lib_call_run (c : call) (st : state World) :
  lib_call lib c st
  = (fst (lib c (world st)),
     State (snd (lib c (world st)))
       (trace st ++ [(c, fst (lib c (world st)))]) (printed st) (status st)).
Proof. unfold lib_call. now destruct (lib c (world st)). Qed.

(** A handler that always returns makes the [try] statement total. *)
Lemma total_try {A} (body : M World A) (h : exn -> M World A) :
  (forall e, total (h e)) -> total (try_except body h).
Proof.
  intros Hh st. unfold try_except.
  destruct (body st) as [[a|e] st1]; [now exists a | apply Hh].
Qed.

Lemma total_print_false (msg : string) (e : exn) :
  total (print_false (World := World) msg e).
Proof. intros st. now exists (PBool false). Qed.

Lemma total_ret {A} (a : A) : total (ret (World := World) a).
Proof. intros st. now exists a. Qed.

Lemma total_bind {A B} (m : M World A) (k : A -> M World B) :
  total m -> (forall a, total (k a)) -> total (bind m k).
Proof.
  intros Hm Hk st. unfold bind. destruct (Hm st) as [a Ha].
  destruct (m st) as [[a'|e] st1]; simpl in Ha; [apply Hk | discriminate].
Qed.

Lemma total_print (line : string) : total (print (World := World) line).
Proof. intros st. now exists tt. Qed.

(** An unknown selector kind raises before any lookup. *)
Lemma select_by_invalid (d : pyval) (selector selector_type : string) :
  ~ valid_selector_type selector_type ->
  select_by lib d selector selector_type
  = raise (ValueError ("Invalid selector_type: " ++ selector_type)).
Proof.
  intros H. unfold select_by, valid_selector_type in *.
  destruct (String.eqb_spec selector_type "text"); [tauto|].
  destruct (String.eqb_spec selector_type "resourceId"); [tauto|].
  destruct (String.eqb_spec selector_type "description"); [tauto|].
  reflexivity.
Qed.

Lemma invalid_eqb (selector_type : string) :
  ~ valid_selector_type selector_type ->
  String.eqb selector_type "text" = false /\
  String.eqb selector_type "resourceId" = false /\
  String.eqb selector_type "description" = false.
Proof.
  unfold valid_selector_type. intros H.
  repeat split; apply String.eqb_neq; tauto.
Qed.

End MonadFacts.

(** ** Selector kinds *)

Section Selectors.

Variable World : Type.
Variable lib : call -> World -> outcome pyval * World.

Ltac reject_invalid H device_id st :=
  unfold rejects, try_except, get_element_info_try, wait_for_selector, bind,
    u2_connect;
  rewrite lib_call_run;
  destruct (lib (CallFn "u2.connect" [of_option device_id] []) (world st))
    as [[d|e] w]; cbn [fst snd];
  [ first [ rewrite (select_by_invalid World lib _ _ _ H)
          | destruct (invalid_eqb _ H) as (-> & -> & ->) ]
  | ];
  cbn; rewrite map_app; split; reflexivity.

(** C1: under a selector kind outside text, resourceId and description,
    click, long_click, drag, wait_for_element and scroll_to return [False]
    and get_element_info returns the empty dict; the [ValueError] is caught
    in each of them, and nothing but the connection was asked of the
    device. *)
Theorem invalid_selector_type_is_rejected (st : state World)
  (selector selector_type : string) (timeout duration : Q) (to_x to_y : Z)
  (device_id : option string) :
  ~ valid_selector_type selector_type ->
  rejects (click lib selector selector_type timeout device_id st)
    st (PBool false) device_id /\
  rejects (long_click lib selector selector_type duration device_id st)
    st (PBool false) device_id /\
  rejects (drag lib selector selector_type to_x to_y device_id st)
    st (PBool false) device_id /\
  rejects (get_element_info lib selector selector_type timeout device_id st)
    st (PDict []) device_id /\
  rejects (wait_for_element lib selector selector_type timeout device_id st)
    st (PBool false) device_id /\
  rejects (scroll_to lib selector selector_type device_id st)
    st (PBool false) device_id.
Proof.
  intros H.
  repeat match goal with |- rejects _ _ _ _ /\ _ => split end.
  - unfold click. reject_invalid H device_id st.
  - unfold long_click. reject_invalid H device_id st.
  - unfold drag. reject_invalid H device_id st.
  - unfold get_element_info. reject_invalid H device_id st.
  - unfold wait_for_element. reject_invalid H device_id st.
  - unfold scroll_to. reject_invalid H device_id st.
Qed.

End Selectors.

(** ** Logs of calls *)

Lemma quiet_nil : quiet [].
Proof. intros c e []. Qed.

Lemma quiet_app (a b : list (call * outcome pyval)) :
  quiet (a ++ b) <-> quiet a /\ quiet b.
Proof.
  unfold quiet. split.
  - intros H. split; intros c e Hin; apply (H c e), in_or_app; auto.
  - intros [Ha Hb] c e Hin. apply in_app_or in Hin as [Hin|Hin];
      [apply (Ha c e Hin) | apply (Hb c e Hin)].
Qed.

Lemma quiet_returned (c : call) (v : pyval) : quiet [(c, Returned v)].
Proof. intros c' e [H|[]]. discriminate. Qed.

Lemma faulty_not_quiet (evs : list (call * outcome pyval)) :
  faulty evs -> quiet evs -> False.
Proof. intros (c & e & Hin) Hq. exact (Hq c e Hin). Qed.

Lemma faulty_raised (c : call) (e : exn) : faulty [(c, Raised e)].
Proof. exists c, e. now left. Qed.

Create HintDb straight.

#[global] Hint Resolve quiet_nil quiet_returned : straight.

(** ** Computations without a handler *)

Section StraightPrimitives.

Variable World : Type.
Variable lib : call -> World -> outcome pyval * World.
Variable py_str : pyval -> string.

Lemma straight_ret {A} (a : A) : straight (ret (World := World) a).
Proof.
  intros st. exists []. simpl. rewrite app_nil_r. auto with straight.
Qed.

Lemma straight_raise {A} (e : exn) : straight (raise (World := World) (A := A) e).
Proof.
  intros st. exists []. simpl. rewrite app_nil_r. split; [reflexivity|].
  discriminate.
Qed.

Lemma straight_bind {A B} (m : M World A) (k : A -> M World B) :
  straight m -> (forall a, straight (k a)) -> straight (bind m k).
Proof.
  intros Hm Hk st. unfold bind.
  destruct (Hm st) as (evs1 & Ht1 & Hq1).
  destruct (m st) as [[a|e] st1]; simpl in *.
  - destruct (Hk a st1) as (evs2 & Ht2 & Hq2).
    exists (evs1 ++ evs2). rewrite Ht2, Ht1, app_assoc. split; [reflexivity|].
    intros b Hb. apply quiet_app. split; [now apply (Hq1 a) | now apply (Hq2 b)].
  - exists evs1. split; [exact Ht1 | discriminate].
Qed.

Lemma straight_lib_call (c : call) : straight (lib_call lib c).
Proof.
  intros st. rewrite lib_call_run. simpl.
  exists [(c, fst (lib c (world st)))]. split; [reflexivity|].
  intros a ->. auto with straight.
Qed.

Lemma straight_print (line : string) : straight (print (World := World) line).
Proof.
  intros st. exists []. simpl. rewrite app_nil_r. auto with straight.
Qed.

Lemma straight_get_status : straight (get_status (World := World)).
Proof.
  intros st. exists []. simpl. rewrite app_nil_r. auto with straight.
Qed.

Lemma straight_put_status d : straight (put_status (World := World) d).
Proof.
  intros st. exists []. simpl. rewrite app_nil_r. auto with straight.
Qed.

Lemma straight_status_setitem k v :
  straight (status_setitem (World := World) k v).
Proof.
  intros st. exists []. simpl. rewrite app_nil_r. auto with straight.
Qed.

Lemma straight_if {A} (b : bool) (m1 m2 : M World A) :
  straight m1 -> straight m2 -> straight (if b then m1 else m2).
Proof. now destruct b. Qed.

Lemma straight_plain_truth (v : pyval) : straight (plain_truth (World := World) v).
Proof. destruct v; simpl; auto using straight_ret, @straight_raise. Qed.

Lemma straight_truthy (v : pyval) : straight (truthy lib v).
Proof.
  destruct v; simpl; auto using straight_ret.
  apply straight_bind; [apply straight_lib_call|].
  intros a. apply straight_plain_truth.
Qed.

Lemma straight_py_getattr v a : straight (py_getattr lib v a).
Proof. destruct v; simpl; auto using @straight_raise, straight_lib_call. Qed.

Lemma straight_py_method v m args kwargs :
  straight (py_method lib v m args kwargs).
Proof. destruct v; simpl; auto using @straight_raise, straight_lib_call. Qed.

Lemma straight_py_call v kwargs : straight (py_call lib v kwargs).
Proof. destruct v; simpl; auto using @straight_raise, straight_lib_call. Qed.

Lemma straight_py_get v k dflt : straight (py_get lib v k dflt).
Proof.
  destruct v; simpl; auto using @straight_raise, straight_lib_call, straight_ret.
Qed.

Lemma straight_py_getitem v k : straight (py_getitem lib v k).
Proof.
  destruct v; simpl; auto using @straight_raise, straight_lib_call.
  destruct (lookup k kv); auto using @straight_raise, straight_ret.
Qed.

Lemma straight_py_index v i : straight (py_index lib py_str v i).
Proof.
  destruct v; simpl; auto using @straight_raise, straight_lib_call.
  - destruct (String.get i s); auto using @straight_raise, straight_ret.
  - destruct (nth_error l i); auto using @straight_raise, straight_ret.
Qed.

Lemma straight_py_len v : straight (py_len lib v).
Proof.
  destruct v; simpl; auto using @straight_raise, straight_lib_call, straight_ret.
Qed.

Lemma straight_as_str v : straight (as_str (World := World) v).
Proof. destruct v; simpl; auto using @straight_raise, straight_ret. Qed.

End StraightPrimitives.

#[global] Hint Resolve straight_ret straight_lib_call straight_print
  straight_get_status straight_put_status straight_status_setitem
  straight_plain_truth straight_truthy straight_py_getattr straight_py_method
  straight_py_call straight_py_get straight_py_getitem straight_py_index
  straight_py_len straight_as_str : straight.

(** Composite computations: binds, conditionals and the helpers above. *)
Ltac straight :=
  solve [ repeat first
    [ solve [auto with straight]
    | apply straight_lib_call
    | apply straight_bind; [|intros ?]
    | apply straight_if
    | apply @straight_raise
    | match goal with
      | |- straight (match ?x with _ => _ end) => destruct x
      end ] ].

Section Straight.

Variable World : Type.
Variable lib : call -> World -> outcome pyval * World.
Variable py_str : pyval -> string.

Lemma straight_py_or a b : straight (py_or lib a b).
Proof. unfold py_or. straight. Qed.

Lemma straight_u2_connect device_id : straight (u2_connect lib device_id).
Proof. apply straight_lib_call. Qed.

Lemma straight_select_by d selector selector_type :
  straight (select_by lib d selector selector_type).
Proof. unfold select_by. straight. Qed.

Lemma straight_wait_for_selector d selector selector_type timeout :
  straight (wait_for_selector lib d selector selector_type timeout).
Proof. unfold wait_for_selector. straight. Qed.

Lemma straight_el_and_exists el : straight (el_and_exists lib el).
Proof. unfold el_and_exists. straight. Qed.

Lemma straight_not_none_and_exists el : straight (not_none_and_exists lib el).
Proof. unfold not_none_and_exists. straight. Qed.

Lemma straight_scroll_search d kind selector :
  straight (scroll_search lib d kind selector).
Proof. unfold scroll_search. straight. Qed.

Lemma straight_basic_device_info info : straight (basic_device_info lib info).
Proof. unfold basic_device_info. straight. Qed.

Lemma straight_list_devices adb_path : straight (list_devices lib adb_path).
Proof. unfold list_devices, run_adb_devices. straight. Qed.

(** A [try] statement around a straight body, with a handler that asks
    nothing of the library: whenever a call raised, the handler answered. *)
Lemma guarded_by_try {A} (body : M World A) (h : exn -> M World A)
  (P : A -> Prop) :
  straight body ->
  (forall e st, exists a, fst (h e st) = Returned a /\ P a /\
                          trace (snd (h e st)) = trace st) ->
  forall st,
    exists evs,
      trace (snd (try_except body h st)) = trace st ++ evs /\
      (exists a, fst (try_except body h st) = Returned a) /\
      (faulty evs -> exists a, fst (try_except body h st) = Returned a /\ P a) /\
      (forall a, fst (body st) = Returned a ->
                 try_except body h st = body st /\ quiet evs) /\
      (forall e, fst (body st) = Raised e ->
                 exists a, fst (try_except body h st) = Returned a /\ P a).
Proof.
  intros Hb Hh st. unfold try_except.
  destruct (Hb st) as (evs & Ht & Hq).
  destruct (body st) as [[a|e] st1] eqn:E; simpl in *.
  - exists evs. split; [exact Ht|]. split; [eauto|]. split; [|split].
    + intros Hf. exfalso. exact (faulty_not_quiet _ Hf (Hq a eq_refl)).
    + intros a' [= <-]. split; [reflexivity | now apply (Hq a)].
    + discriminate.
  - destruct (Hh e st1) as (a & Ha & HP & Htr).
    exists evs. rewrite Htr. split; [exact Ht|]. split; [eauto|].
    split; [eauto | split; [discriminate | eauto]].
Qed.

End Straight.

#[global] Hint Resolve straight_py_or straight_u2_connect straight_select_by
  straight_wait_for_selector
  straight_el_and_exists straight_not_none_and_exists straight_scroll_search
  straight_basic_device_info straight_list_devices : straight.

(** Running a tool by hand: take the next library call and split on
    whether it returned or raised. *)
Ltac next_call :=
  match goal with
  | |- context [lib_call ?l ?c ?st] =>
      rewrite (lib_call_run _ l c st);
      let v := fresh "v" in
      let e := fresh "e" in
      let w := fresh "w" in
      let E := fresh "E" in
      destruct (l c (world st)) as [[v|e] w] eqn:E; cbn [fst snd]
  end.

(** A goal about a log that is known call by call. *)
Ltac log_facts :=
  cbn [app] in *;
  repeat match goal with
    | H : faulty _ |- _ => destruct H as (? & ? & H)
    | H : In _ (_ :: _) |- _ => destruct H as [H|H]
    | H : In _ [] |- _ => destruct H
    | H : (_, _) = (_, _) |- _ => injection H as ? ?; subst
    end;
  try discriminate; try congruence.

(** ** Hierarchy dump *)

Section Hierarchy.

Variable World : Type.
Variable lib : call -> World -> outcome pyval * World.

(** C10: dump_hierarchy returns under every behaviour of the library.  When
    the connection or the dump raises it returns the empty string, which is
    also what it returns for a dump that is the empty string: the value
    alone does not tell the two apart. *)
Theorem dump_hierarchy_fault_is_empty_string (st : state World)
  (compressed pretty : bool) (max_depth : Z) (device_id : option string) :
  exists evs,
    trace (snd (dump_hierarchy lib compressed pretty max_depth device_id st))
    = trace st ++ evs /\
    (exists xml,
       fst (dump_hierarchy lib compressed pretty max_depth device_id st)
       = Returned xml) /\
    (faulty evs ->
     fst (dump_hierarchy lib compressed pretty max_depth device_id st)
     = Returned (PStr EmptyString)) /\
    (forall d,
       In (CallMethod d "dump_hierarchy" []
             [("compressed", PBool compressed); ("pretty", PBool pretty);
              ("max_depth", PInt max_depth)],
           Returned (PStr EmptyString)) evs ->
       fst (dump_hierarchy lib compressed pretty max_depth device_id st)
       = Returned (PStr EmptyString)).
Proof.
  unfold dump_hierarchy, try_except, bind, u2_connect, ret.
  next_call.
  - destruct v; cbn;
      try (eexists; split; [reflexivity|];
           split; [eauto|]; split; [reflexivity|]; reflexivity).
    next_call; cbn; rewrite <- app_assoc;
      (eexists; split; [reflexivity|]; split; [eauto|]; split;
       [intros Hf | intros d Hin]; log_facts; reflexivity).
  - cbn. eexists; split; [reflexivity|].
    split; [eauto|]; split; reflexivity.
Qed.

End Hierarchy.

(** ** Starting an app *)

Section Apps.

Variable World : Type.
Variable lib : call -> World -> outcome pyval * World.



(** The test is [pid is not None]: any other value counts as a process
    identifier, 0 included. *)
Remark start_app_pid_not_none (st : state World) (package_name : string)
  (device_id : option string) (d r pid : pyval) (st1 st2 st3 : state World) :
  u2_connect lib device_id st = (Returned d, st1) ->
  py_method lib d "app_start" [PStr package_name] [] st1 = (Returned r, st2) ->
  py_method lib d "app_wait" [PStr package_name] [("front", PBool true)] st2
  = (Returned pid, st3) ->
  start_app lib package_name device_id true st
  = (Returned (PBool (negb (is_none pid))), st3).
Proof.
  intros Hc Hs Hw.
  unfold start_app, try_except, bind. now rewrite Hc, Hs, Hw.
Qed.

(** A wait that raises gives [False] as well. *)
Remark start_app_wait_raises (st : state World) (package_name : string)
  (device_id : option string) (d r : pyval) (e : exn)
  (st1 st2 st3 : state World) :
  u2_connect lib device_id st = (Returned d, st1) ->
  py_method lib d "app_start" [PStr package_name] [] st1 = (Returned r, st2) ->
  py_method lib d "app_wait" [PStr package_name] [("front", PBool true)] st2
  = (Raised e, st3) ->
  fst (start_app lib package_name device_id true st) = Returned (PBool false).
Proof.
  intros Hc Hs Hw.
  unfold start_app, try_except, bind. now rewrite Hc, Hs, Hw.
Qed.

End Apps.


(** ** Screen control *)

Section ScreenOnTwice.

Variable World : Type.
Variable lib : call -> World -> outcome pyval * World.

(** What the library does on a device whose screen is on: connecting gives
    a device object, waking it returns, and the screen stays on. *)
Variable screen_is_on : World -> Prop.

Hypothesis connect_when_on :
  forall device_id w, screen_is_on w ->
    exists id w',
      lib (CallFn "u2.connect" [of_option device_id] []) w
      = (Returned (PObj id), w') /\ screen_is_on w'.

Hypothesis wake_when_on :
  forall id w, screen_is_on w ->
    exists v w',
      lib (CallMethod (PObj id) "screen_on" [] []) w = (Returned v, w') /\
      screen_is_on w'.



End ScreenOnTwice.

Section Unlock.

Variable World : Type.
Variable lib : call -> World -> outcome pyval * World.

Lemma bind_assoc {A B C} (m : M World A) (f : A -> M World B)
  (g : B -> M World C) (st : state World) :
  bind (bind m f) g st = bind m (fun a => bind (f a) g) st.
Proof. unfold bind. destruct (m st) as [[a|e] st1]; reflexivity. Qed.

(** unlock_screen, with its check of the screen taken as one step. *)
Lemma unlock_screen_unfold (device_id : option string) (st : state World) :
  unlock_screen lib device_id st
  = try_except
      (bind (u2_connect lib device_id) (fun d =>
       bind (screen_state lib d) (fun lit =>
       bind (if negb lit then bind (py_method lib d "screen_on" [] [])
                                   (fun _ => ret tt)
             else ret tt) (fun _ =>
       bind (py_method lib d "unlock" [] []) (fun _ => ret (PBool true))))))
      (print_false "Failed to unlock screen") st.
Proof.
  unfold unlock_screen, try_except, screen_state, bind.
  destruct (u2_connect lib device_id st) as [[d|e] st0]; [|reflexivity].
  destruct (py_getattr lib d "info" st0) as [[info|e] st1]; [|reflexivity].
  destruct (py_getitem lib info "screenOn" st1) as [[on|e] st2]; reflexivity.
Qed.

Lemma screen_state_object (d : pyval) (st0 st1 : state World) (lit : bool) :
  screen_state lib d st0 = (Returned lit, st1) -> exists id, d = PObj id.
Proof.
  unfold screen_state, bind. destruct d; try discriminate. eauto.
Qed.

(** C6: unlock_screen checks the state of the screen first; after the
    check it asks the device to turn the screen on exactly when the screen
    is off, then asks for the unlock gesture; it returns [True] exactly when
    these calls return, and [False] when the connection, the check or one
    of the calls raises. *)
Theorem unlock_screen_steps (st : state World) (device_id : option string) :
  (fst (unlock_screen lib device_id st) = Returned (PBool true) \/
   fst (unlock_screen lib device_id st) = Returned (PBool false)) /\
  (forall e st0,
     u2_connect lib device_id st = (Raised e, st0) ->
     fst (unlock_screen lib device_id st) = Returned (PBool false)) /\
  (forall d st0 e st1,
     u2_connect lib device_id st = (Returned d, st0) ->
     screen_state lib d st0 = (Raised e, st1) ->
     fst (unlock_screen lib device_id st) = Returned (PBool false)) /\
  (forall d st0 lit st1,
     u2_connect lib device_id st = (Returned d, st0) ->
     screen_state lib d st0 = (Returned lit, st1) ->
     exists evs,
       trace (snd (unlock_screen lib device_id st)) = trace st1 ++ evs /\
       (In (wake_call d) (map fst evs) <-> lit = false) /\
       (map fst evs = (if lit then [] else [wake_call d]) ++ [unlock_call d] \/
        lit = false /\ exists e, evs = [(wake_call d, Raised e)]) /\
       (fst (unlock_screen lib device_id st) = Returned (PBool true)
        <-> quiet evs)).
Proof.
  rewrite unlock_screen_unfold. unfold try_except, bind.
  split; [|split; [|split]].
  - destruct (u2_connect lib device_id st) as [[d|e] st0]; [|now right].
    destruct (screen_state lib d st0) as [[lit|e] st1]; [|now right].
    destruct lit; cbn -[py_method print_false].
    + destruct (py_method lib d "unlock" [] [] st1) as [[v|e] st2];
        cbn; auto.
    + destruct (py_method lib d "screen_on" [] [] st1) as [[v|e] st2];
        cbn -[py_method]; auto.
      destruct (py_method lib d "unlock" [] [] st2) as [[v'|e] st3];
        cbn; auto.
  - intros e st0 ->. reflexivity.
  - intros d st0 e st1 -> ->. reflexivity.
  - intros d st0 lit st1 Hc Hs. rewrite Hc, Hs.
    destruct (screen_state_object _ _ _ _ Hs) as [id ->].
    unfold wake_call, unlock_call.
    destruct lit; cbn [negb py_method ret].
    + next_call; cbn; eexists; (split; [reflexivity|]); cbn.
      * split; [split; [intros [H|[]]; discriminate | discriminate]|].
        split; [now left|]. split; auto with straight.
      * split; [split; [intros [H|[]]; discriminate | discriminate]|].
        split; [now left|].
        split; [discriminate | intros Hq; exfalso].
        exact (Hq _ _ (or_introl eq_refl)).
    + next_call; cbn.
      * next_call; cbn; rewrite <- app_assoc;
          eexists; (split; [reflexivity|]); cbn.
        -- split; [split; auto|]. split; [now left|].
           split; [intros _ c e' Hin; log_facts | reflexivity].
        -- split; [split; auto|]. split; [now left|].
           split; [discriminate | intros Hq; exfalso].
           exact (Hq _ _ (or_intror (or_introl eq_refl))).
      * eexists; (split; [reflexivity|]); cbn.
        split; [split; auto|]. split; [right; eauto|].
        split; [discriminate | intros Hq; exfalso].
        exact (Hq _ _ (or_introl eq_refl)).
Qed.

End Unlock.

(** ** Element descriptors *)

Section Elements.

Variable World : Type.
Variable lib : call -> World -> outcome pyval * World.

Lemma post_ret {A} (a : A) (P : A -> Prop) : P a -> post (ret (World := World) a) P.
Proof. intros H st b [= <-]. exact H. Qed.

Lemma post_bind {A B} (m : M World A) (k : A -> M World B) (P : B -> Prop) :
  (forall a, post (k a) P) -> post (bind m k) P.
Proof.
  intros H st b Hb. unfold bind in Hb.
  destruct (m st) as [[a|e] st1]; [exact (H a st1 b Hb) | discriminate].
Qed.

Lemma post_if {A} (c : bool) (m1 m2 : M World A) (P : A -> Prop) :
  post m1 P -> post m2 P -> post (if c then m1 else m2) P.
Proof. now destruct c. Qed.

Lemma get_element_info_try_shape selector selector_type timeout device_id :
  post (get_element_info_try lib selector selector_type timeout device_id)
    descriptor_shape.
Proof.
  unfold get_element_info_try.
  repeat (apply post_bind; intros ?).
  apply post_if.
  - repeat (apply post_bind; intros ?).
    apply post_ret. eexists. split; [reflexivity | now right].
  - apply post_ret. exists []. auto.
Qed.

Lemma straight_get_element_info_try selector selector_type timeout device_id :
  straight (get_element_info_try lib selector selector_type timeout device_id).
Proof. unfold get_element_info_try. straight. Qed.

(** C8: get_element_info returns a dict that has either the nine keys of
    the descriptor or no key at all, and never raises.  The dict is empty
    when a call to the library raised, when the [try] block raised for any
    other reason, and when the element was not found. *)
Theorem get_element_info_all_or_nothing (st : state World)
  (selector selector_type : string) (timeout : Q) (device_id : option string) :
  exists evs,
    trace (snd (get_element_info lib selector selector_type timeout device_id st))
    = trace st ++ evs /\
    (exists kv,
       fst (get_element_info lib selector selector_type timeout device_id st)
       = Returned (PDict kv) /\
       (kv = [] \/ map fst kv = ElementInfo_keys)) /\
    (faulty evs ->
     fst (get_element_info lib selector selector_type timeout device_id st)
     = Returned (PDict [])) /\
    (forall e st',
       get_element_info_try lib selector selector_type timeout device_id st
       = (Raised e, st') ->
       fst (get_element_info lib selector selector_type timeout device_id st)
       = Returned (PDict [])) /\
    (forall d st0 el st1 st2,
       u2_connect lib device_id st = (Returned d, st0) ->
       wait_for_selector lib d selector selector_type timeout st0
       = (Returned el, st1) ->
       el_and_exists lib el st1 = (Returned false, st2) ->
       get_element_info lib selector selector_type timeout device_id st
       = (Returned (PDict []), st2)).
Proof.
  unfold get_element_info.
  destruct (guarded_by_try World
              (get_element_info_try lib selector selector_type timeout device_id)
              (fun e =>
                 bind (print ("Failed to get element info for " ++ selector
                              ++ ": " ++ exn_str e))
                   (fun _ => ret (PDict [])))
              (eq (PDict []))
              (straight_get_element_info_try _ _ _ _)
              (fun e st => ex_intro _ (PDict []) (conj eq_refl (conj eq_refl eq_refl)))
              st)
    as (evs & Ht & _ & Hf & Hret & Hraise).
  exists evs. split; [exact Ht|]. split; [|split; [|split]].
  - destruct (fst (get_element_info_try lib selector selector_type timeout
                     device_id st)) as [a|e] eqn:E.
    + destruct (Hret a eq_refl) as [-> _]. rewrite E.
      destruct (get_element_info_try_shape _ _ _ _ st a E) as (kv & -> & Hkv).
      eauto.
    + destruct (Hraise e eq_refl) as (a & -> & <-). exists []. auto.
  - intros H. destruct (Hf H) as (a & -> & <-). reflexivity.
  - intros e st' E. destruct (Hraise e) as (a & -> & <-); [now rewrite E|].
    reflexivity.
  - intros d st0 el st1 st2 Hc Hw He.
    unfold try_except, get_element_info_try, bind.
    now rewrite Hc, Hw, He.
Qed.

End Elements.

(** ** Waiting for the screen *)

Section WaitForScreen.

Variable World : Type.
Variable lib : call -> World -> outcome pyval * World.

Lemma sleeps_app (a b : list (call * outcome pyval)) :
  sleeps (a ++ b) = sleeps a ++ sleeps b.
Proof. unfold sleeps. now rewrite map_app, filter_app. Qed.

(** A poll asks the device, never the clock. *)
Lemma poll_screen_log (d : pyval) (st : state World) :
  exists evs,
    trace (snd (poll_screen lib d st)) = trace st ++ evs /\ sleeps evs = [].
Proof.
  unfold poll_screen, bind.
  destruct d; cbn -[lib_call]; try (exists []; now rewrite app_nil_r).
  next_call; [|eexists; split; reflexivity].
  destruct v; cbn -[lib_call]; try (eexists; split; reflexivity).
  unfold bind.
  next_call; cbn; rewrite <- ?app_assoc; [|eexists; split; reflexivity].
  destruct v; cbn; eexists; split; reflexivity.
Qed.

Lemma asyncio_sleep_log (st : state World) :
  exists o,
    trace (snd (asyncio_sleep lib 1 st)) = trace st ++ [(sleep_one_second, o)].
Proof.
  unfold asyncio_sleep. rewrite lib_call_run. cbn. eauto.
Qed.

(** Between two polls the loop sleeps once, for one second. *)
Lemma before_poll_log (d : pyval) (n : nat) (st stn : state World) :
  before_poll lib d n st = Some stn ->
  exists evs,
    trace stn = trace st ++ evs /\ sleeps evs = repeat sleep_one_second n.
Proof.
  revert st. induction n as [|n IH]; intros st H; simpl in H.
  - injection H as <-. exists []. now rewrite app_nil_r.
  - destruct (poll_screen_log d st) as (evs1 & Ht1 & Hs1).
    destruct (poll_screen lib d st) as [[[|]|e] st1]; try discriminate.
    destruct (asyncio_sleep_log st1) as (o & Ht2).
    destruct (asyncio_sleep lib 1 st1) as [[v|e] st2]; try discriminate.
    destruct (IH st2 H) as (evs3 & Ht3 & Hs3).
    simpl in Ht1, Ht2.
    exists (evs1 ++ [(sleep_one_second, o)] ++ evs3). split.
    + rewrite Ht3, Ht2, Ht1, <- !app_assoc. reflexivity.
    + rewrite !sleeps_app, Hs1, Hs3. reflexivity.
Qed.

Lemma wait_loop_sees_on (d : pyval) (n : nat) (st stn st' : state World) :
  before_poll lib d n st = Some stn ->
  poll_screen lib d stn = (Returned true, st') ->
  wait_loop lib (S n) d st = Some (Returned screen_is_now_on, st').
Proof.
  revert st. induction n as [|n IH]; intros st H Hp.
  - simpl in H. injection H as ->. simpl. now rewrite Hp.
  - simpl in H. remember (S n) as m. simpl.
    destruct (poll_screen lib d st) as [[[|]|e] st1]; try discriminate.
    destruct (asyncio_sleep lib 1 st1) as [[v|e] st2]; try discriminate.
    subst m. now apply IH.
Qed.

Lemma wait_loop_still_polling (d : pyval) (n fuel : nat) (st stn : state World) :
  before_poll lib d n st = Some stn -> (fuel <= n)%nat ->
  wait_loop lib fuel d st = None.
Proof.
  revert n st. induction fuel as [|fuel IH]; intros n st H Hle; [reflexivity|].
  destruct n as [|n]; [lia|]. simpl in H |- *.
  destruct (poll_screen lib d st) as [[[|]|e] st1]; try discriminate.
  destruct (asyncio_sleep lib 1 st1) as [[v|e] st2]; try discriminate.
  apply (IH n); [exact H | lia].
Qed.

Lemma wait_loop_returned (d : pyval) (fuel : nat) (st st' : state World)
  (v : pyval) :
  wait_loop lib fuel d st = Some (Returned v, st') ->
  v = screen_is_now_on /\
  exists n, (n < fuel)%nat /\ poll_sees_on lib d st n st'.
Proof.
  revert st. induction fuel as [|fuel IH]; intros st H; [discriminate|].
  simpl in H.
  destruct (poll_screen lib d st) as [[[|]|e] st1] eqn:Hp.
  - injection H as <- <-. split; [reflexivity|].
    exists 0%nat. split; [lia|]. exists st. split; [reflexivity | exact Hp].
  - destruct (asyncio_sleep lib 1 st1) as [[u|e] st2] eqn:Hs; [|discriminate].
    destruct (IH st2 H) as (-> & n & Hn & stn & Hb & Hpn).
    split; [reflexivity|]. exists (S n). split; [lia|].
    exists stn. split; [|exact Hpn]. simpl. now rewrite Hp, Hs.
  - discriminate.
Qed.

(** C7: after connecting, wait_for_screen_on polls the screen and sleeps one
    second between two polls.  It returns "Screen is now on" exactly when
    some poll sees the screen on, whatever the number of that poll; it has
    not returned before that poll; and while every poll sees the screen off
    it does not return, however long it runs. *)
Theorem wait_for_screen_on_polls_without_bound (st st0 : state World)
  (device_id : string) (d : pyval) :
  u2_connect lib (Some device_id) st = (Returned d, st0) ->
  (forall st',
     (exists fuel,
        wait_for_screen_on lib fuel device_id st
        = Some (Returned screen_is_now_on, st'))
     <-> (exists n, poll_sees_on lib d st0 n st')) /\
  (forall n st',
     poll_sees_on lib d st0 n st' ->
     wait_for_screen_on lib (S n) device_id st
     = Some (Returned screen_is_now_on, st') /\
     (forall fuel, (fuel <= n)%nat ->
                   wait_for_screen_on lib fuel device_id st = None) /\
     exists evs,
       trace st' = trace st0 ++ evs /\
       sleeps evs = repeat sleep_one_second n) /\
  (polls_see_off lib d st0 ->
   forall fuel, wait_for_screen_on lib fuel device_id st = None).
Proof.
  intros Hc. unfold wait_for_screen_on. rewrite Hc.
  split; [|split].
  - intros st'. split.
    + intros (fuel & H). apply wait_loop_returned in H as (_ & n & _ & Hn).
      eauto.
    + intros (n & stn & Hb & Hp). exists (S n).
      now apply (wait_loop_sees_on d n st0 stn).
  - intros n st' (stn & Hb & Hp). split; [|split].
    + now apply (wait_loop_sees_on d n st0 stn).
    + intros fuel Hle. now apply (wait_loop_still_polling d n fuel st0 stn).
    + destruct (before_poll_log d n st0 stn Hb) as (evs1 & Ht1 & Hs1).
      destruct (poll_screen_log d stn) as (evs2 & Ht2 & Hs2).
      rewrite Hp in Ht2. simpl in Ht2.
      exists (evs1 ++ evs2). split.
      * now rewrite Ht2, Ht1, app_assoc.
      * now rewrite sleeps_app, Hs1, Hs2, app_nil_r.
  - intros Hoff fuel. destruct (Hoff fuel) as (stn & st' & Hb & _).
    now apply (wait_loop_still_polling d fuel fuel st0 stn).
Qed.

End WaitForScreen.

(** ** Which tools let an exception through *)

Section Boundaries.

Variable World : Type.
Variable lib : call -> World -> outcome pyval * World.
Variable py_str : pyval -> string.

Lemma total_returns {A} (m : M World A) (st : state World) :
  total m -> exists a st', m st = (Returned a, st').
Proof.
  intros H. destruct (H st) as [a Ha].
  exists a, (snd (m st)). destruct (m st); simpl in *. now subst.
Qed.

Lemma guarded_tool_returns (fuel : nat) (inv : invocation) (st : state World) :
  guarded inv ->
  exists v st', run lib py_str fuel inv st = Some (Returned v, st').
Proof.
  intros G.
  destruct inv; try contradiction; cbn [run];
    match goal with
    | |- exists v st', Some (?m st) = _ =>
        destruct (total_returns m st) as (v & st' & ->);
        [| now exists v, st']
    end;
    try (apply total_try; intros e;
         first [ apply total_print_false
               | apply total_ret
               | apply total_bind; [apply total_print | intros; apply total_ret] ]).
  apply total_ret.
Qed.

(** C4, as the code has it: get_current_app and wait_for_screen_on have no
    handler, so what the connection or their own library call raises
    reaches the caller; every tool that starts with a [try] returns a value
    under every behaviour of the library, and so does
    check_adb_and_list_devices once its lookup of adb on PATH has
    returned. *)
Theorem two_tools_without_handler (st : state World) :
  (forall device_id e st',
     u2_connect lib device_id st = (Raised e, st') ->
     get_current_app lib device_id st = (Raised e, st')) /\
  (forall device_id d st0 e st',
     u2_connect lib device_id st = (Returned d, st0) ->
     py_method lib d "app_current" [] [] st0 = (Raised e, st') ->
     get_current_app lib device_id st = (Raised e, st')) /\
  (forall fuel device_id e st',
     u2_connect lib (Some device_id) st = (Raised e, st') ->
     wait_for_screen_on lib fuel device_id st = Some (Raised e, st')) /\
  (forall fuel device_id d st0 e st',
     u2_connect lib (Some device_id) st = (Returned d, st0) ->
     poll_screen lib d st0 = (Raised e, st') ->
     wait_for_screen_on lib (S fuel) device_id st = Some (Raised e, st')) /\
  (forall fuel inv,
     guarded inv ->
     exists v st', run lib py_str fuel inv st = Some (Returned v, st')) /\
  (forall adb_path st0 found st1,
     shutil_which lib "adb" st = (Returned adb_path, st0) ->
     truthy lib adb_path st0 = (Returned found, st1) ->
     exists v st', check_adb_and_list_devices lib st = (Returned v, st')).
Proof.
  repeat match goal with |- _ /\ _ => split end.
  - intros device_id e st' H. unfold get_current_app, bind. now rewrite H.
  - intros device_id d st0 e st' H1 H2.
    unfold get_current_app, bind. now rewrite H1.
  - intros fuel device_id e st' H. unfold wait_for_screen_on. now rewrite H.
  - intros fuel device_id d st0 e st' H1 H2.
    unfold wait_for_screen_on. rewrite H1. simpl. now rewrite H2.
  - intros fuel inv G. now apply guarded_tool_returns.
  - intros adb_path st0 found st1 H1 H2.
    unfold check_adb_and_list_devices, bind. rewrite H1, H2.
    destruct found; cbn [negb].
    + apply total_returns, total_try. intros e. apply total_ret.
    + eexists _, _. reflexivity.
Qed.

End Boundaries.

(** C4 as stated, that get_current_app alone lets an exception through,
    fails on wait_for_screen_on: with no device to connect to, the error of the
    connection reaches the caller. *)
Lemma wait_for_screen_on_is_unguarded :
  (forall d, Wait_for_screen_on "emulator-5554" <> Get_current_app d) /\
  run phone_lib phone_str 1 (Wait_for_screen_on "emulator-5554") (boot unplugged)
  = Some (Raised (Exn "ConnectError" "Can't find any android device/emulator"),
          State unplugged
            [(CallFn "u2.connect" [PStr "emulator-5554"] [],
              Raised (Exn "ConnectError"
                        "Can't find any android device/emulator"))]
            [] []).
Proof. split; [discriminate | reflexivity]. Qed.

(** ** Failed responses of the dictionary-returning tools *)

Section Careful.

Variable World : Type.
Variable lib : call -> World -> outcome pyval * World.

Lemma straight_careful {A} (m : M World A) (P : A -> Prop) :
  straight m -> careful m P.
Proof.
  intros H st. destruct (H st) as (evs & Ht & Hq).
  exists evs. split; [exact Ht|]. intros a Ha. left. exact (Hq a Ha).
Qed.

Lemma careful_ret {A} (a : A) (P : A -> Prop) : careful (ret (World := World) a) P.
Proof. apply straight_careful, straight_ret. Qed.




Lemma careful_fail {A} (a : A) (P : A -> Prop) :
  P a -> careful (ret (World := World) a) P.
Proof. intros H. apply careful_ret. Qed.



Lemma message_not_empty (c : ascii) (s t : string) :
  (String c s ++ t)%string <> EmptyString.
Proof. discriminate. Qed.

End Careful.

Section StatusDict.

Variable World : Type.
Variable lib : call -> World -> outcome pyval * World.






Lemma keeps_status_ret {A} (a : A) : keeps_status (ret (World := World) a).
Proof. intros st. reflexivity. Qed.

Lemma keeps_status_raise {A} (e : exn) :
  keeps_status (raise (World := World) (A := A) e).
Proof. intros st. reflexivity. Qed.

Lemma keeps_status_bind {A B} (m : M World A) (k : A -> M World B) :
  keeps_status m -> (forall a, keeps_status (k a)) -> keeps_status (bind m k).
Proof.
  intros Hm Hk st. unfold bind. specialize (Hm st).
  destruct (m st) as [[a|e] st1]; simpl in *; [|exact Hm].
  now rewrite Hk.
Qed.

Lemma keeps_status_lib_call (c : call) : keeps_status (lib_call lib c).
Proof. intros st. now rewrite lib_call_run. Qed.

Lemma keeps_status_py_getattr v a : keeps_status (py_getattr lib v a).
Proof.
  destruct v; simpl; auto using @keeps_status_raise, keeps_status_lib_call.
Qed.

Lemma keeps_status_py_method v m args kwargs :
  keeps_status (py_method lib v m args kwargs).
Proof.
  destruct v; simpl; auto using @keeps_status_raise, keeps_status_lib_call.
Qed.

Lemma keeps_status_py_get v k dflt : keeps_status (py_get lib v k dflt).
Proof.
  destruct v; simpl;
    auto using @keeps_status_raise, keeps_status_lib_call, @keeps_status_ret.
Qed.

Lemma keeps_status_basic_device_info info :
  keeps_status (basic_device_info lib info).
Proof.
  unfold basic_device_info.
  repeat (apply keeps_status_bind; [apply keeps_status_py_get | intros ?]).
  apply keeps_status_ret.
Qed.








End StatusDict.

Section DictionaryTools.

Variable World : Type.
Variable lib : call -> World -> outcome pyval * World.
Variable py_str : pyval -> string.








End DictionaryTools.


(** ** The parser inside the tools *)

Section Listing.

Variable World : Type.
Variable lib : call -> World -> outcome pyval * World.

(** The block shared by get_device_status, connect_device and
    check_adb_and_list_devices hands the text printed by the bridge to the
    parser. *)
Lemma list_devices_parses (adb_path result : pyval) (out : string)
  (st st1 st2 : state World) :
  run_adb_devices lib adb_path st = (Returned result, st1) ->
  py_getattr lib result "stdout" st1 = (Returned (PStr out), st2) ->
  list_devices lib adb_path st = (Returned (parse_devices out), st2).
Proof.
  intros H1 H2. unfold list_devices, bind. now rewrite H1, H2.
Qed.

Lemma check_adb_and_list_devices_lists (adb_path result : pyval)
  (out header : string) (rows : list string) (st st0 st1 st2 st3 : state World) :
  shutil_which lib "adb" st = (Returned adb_path, st0) ->
  truthy lib adb_path st0 = (Returned true, st1) ->
  run_adb_devices lib adb_path st1 = (Returned result, st2) ->
  py_getattr lib result "stdout" st2 = (Returned (PStr out), st3) ->
  PyStr.splitlines out = header :: rows -> is_blank header = false ->
  check_adb_and_list_devices lib st
  = (Returned (adb_response true (ready_serials rows) PNone), st3).
Proof.
  intros H1 H2 H3 H4 Hs Hb.
  unfold check_adb_and_list_devices, try_except, bind.
  rewrite H1, H2. cbn [negb].
  rewrite (list_devices_parses _ _ _ _ _ _ H3 H4).
  now rewrite (parse_devices_lines _ _ _ Hs Hb).
Qed.

End Listing.

(** ** The tools on the small phone *)

Lemma invalid_selector_type_is_rejected_witness :
  ~ valid_selector_type "xpath" /\
  rejects (click phone_lib "Login" "xpath" 10 None (boot ready_phone))
    (boot ready_phone) (PBool false) None /\
  rejects (get_element_info phone_lib "Login" "xpath" 10 None (boot ready_phone))
    (boot ready_phone) (PDict []) None.
Proof.
  assert (H : ~ valid_selector_type "xpath")
    by (intros [H|[H|H]]; discriminate).
  split; [exact H|].
  pose proof (invalid_selector_type_is_rejected phone phone_lib
                (boot ready_phone) "Login" "xpath" 10 1 0 0 None H)
    as (Hclick & _ & _ & Hinfo & _).
  split; [exact Hclick | exact Hinfo].
Defined.

Example click_invalid_selector_type_log :
  printed (snd (click phone_lib "Login" "xpath" 10 None (boot ready_phone)))
  = ["Failed to click element Login: Invalid selector_type: xpath"].
Proof. reflexivity. Qed.

Lemma wait_for_screen_on_polls_without_bound_witness :
  u2_connect phone_lib (Some "emulator-5554") (boot waking_phone)
  = (Returned device, connected waking_phone) /\
  wait_for_screen_on phone_lib 4 "emulator-5554" (boot waking_phone)
  = Some (Returned screen_is_now_on,
          snd (poll_screen phone_lib device (after_polls 3 (connected waking_phone)))) /\
  wait_for_screen_on phone_lib 3 "emulator-5554" (boot waking_phone) = None.
Proof.
  split; [reflexivity|].
  pose proof (wait_for_screen_on_polls_without_bound phone phone_lib
                (boot waking_phone) (connected waking_phone)
                "emulator-5554" device eq_refl) as H.
  pose proof (proj1 (proj2 H) 3%nat
                (snd (poll_screen phone_lib device
                        (after_polls 3 (connected waking_phone))))
                (ex_intro _ (after_polls 3 (connected waking_phone))
                   (conj eq_refl eq_refl))) as H3.
  split; [exact (proj1 H3) | exact (proj1 (proj2 H3) 3%nat (le_n 3))].
Defined.

Example wait_for_screen_on_four_polls :
  option_map (fun r => sleeps (trace (snd r)))
    (wait_for_screen_on phone_lib 4 "emulator-5554" (boot waking_phone))
  = Some [sleep_one_second; sleep_one_second; sleep_one_second].
Proof. reflexivity. Qed.




(** The three tools that list devices, on the listing of the
    specification. *)
Example check_adb_and_list_devices_ready :
  fst (check_adb_and_list_devices phone_lib (boot ready_phone))
  = Returned (PDict [("adb_exists", PBool true);
                     ("devices", PList [PStr "SERIAL1"]);
                     ("error", PNone)]).
Proof. reflexivity. Qed.

Example get_device_status_ready :
  fst (get_device_status phone_lib (boot ready_phone))
  = Returned
      (PDict [("adb_available", PBool true);
              ("connected_devices", PList [PStr "SERIAL1"]);
              ("device_connected", PBool true);
              ("device_info",
               PDict [("manufacturer", PStr "Google"); ("model", PStr "Pixel 7");
                      ("serial", PStr EmptyString);
                      ("version", PStr EmptyString); ("sdk", PInt 0)]);
              ("screen_on", PBool true);
              ("error", PNone);
              ("ready_for_automation", PBool true)]).
Proof. reflexivity. Qed.

Example connect_device_unplugged :
  fst (connect_device phone_lib None (boot unplugged))
  = Returned
      (PDict [("success", PBool false); ("device_info", PDict []);
              ("error",
               PStr "No Android devices connected. Please connect a device and ensure USB debugging is enabled.");
              ("device_id", PNone)]).
Proof. reflexivity. Qed.

(** A device that the bridge lists and the library cannot reach: the
    response keeps what the bridge said. *)
Example get_device_status_unreachable :
  fst (get_device_status phone_lib (boot unreachable_phone))
  = Returned
      (PDict [("adb_available", PBool true);
              ("connected_devices", PList [PStr "SERIAL1"]);
              ("device_connected", PBool false);
              ("device_info", PDict []);
              ("screen_on", PBool false);
              ("error",
               PStr "Device connection failed: Can't find any android device/emulator");
              ("ready_for_automation", PBool false)]).
Proof. reflexivity. Qed.

Example get_current_app_unreachable :
  fst (get_current_app phone_lib None (boot unreachable_phone))
  = Raised (Exn "ConnectError" "Can't find any android device/emulator").
Proof. reflexivity. Qed.

Example unlock_screen_dark :
  map fst (trace (snd (unlock_screen phone_lib None (boot waking_phone))))
  = [CallFn "u2.connect" [PNone] []; GetAttr device "info";
     wake_call device; unlock_call device].
Proof. reflexivity. Qed.

Example unlock_screen_lit :
  map fst (trace (snd (unlock_screen phone_lib None (boot ready_phone))))
  = [CallFn "u2.connect" [PNone] []; GetAttr device "info"; unlock_call device].
Proof. reflexivity. Qed.

(** * Further properties *)

(** ** The parser on any output *)

Section ParserFacts.

Import PyStr.

Lemma lstrip_idem (s : string) : lstrip (lstrip s) = lstrip s.
Proof.
  induction s as [|c s IH]; simpl; [reflexivity|].
  destruct (is_space c) eqn:E; [exact IH | simpl; now rewrite E].
Qed.

Lemma lstrip_all_space (s : string) : all_space s = true -> lstrip s = EmptyString.
Proof.
  intros H. apply is_empty_true. now rewrite lstrip_empty.
Qed.

Lemma rstrip_all_space (s : string) : all_space s = true -> rstrip s = EmptyString.
Proof.
  intros H. apply is_empty_true. now rewrite rstrip_empty.
Qed.

Lemma is_blank_cons (c : ascii) (l : string) :
  is_blank (String c l) = is_space c && is_blank l.
Proof. now rewrite !is_blank_all_space. Qed.

Lemma drop_blank_push (c : ascii) (ls : list string) :
  is_space c = true -> ls <> [] ->
  match drop_blank (push_char c ls) with
  | [] => []
  | l :: r => lstrip l :: r
  end
  = match drop_blank ls with
    | [] => []
    | l :: r => lstrip l :: r
    end.
Proof.
  intros Hc Hne. destruct ls as [|l ls]; [congruence|]. simpl.
  rewrite is_blank_cons, Hc. simpl.
  destruct (is_blank l); [reflexivity|]. simpl. now rewrite Hc.
Qed.

(** [lstrip] seen on the lines: the blank lines in front go, and the first
    line left loses its leading white space. *)
Lemma splitlines_lstrip_any (s : string) :
  splitlines (lstrip s)
  = match drop_blank (splitlines s) with
    | [] => []
    | l :: r => lstrip l :: r
    end.
Proof.
  remember (String.length s) as n eqn:Hn.
  assert (Hle : (String.length s <= n)%nat) by lia. clear Hn.
  revert s Hle. induction n as [|n IH]; intros s Hle.
  - destruct s; [reflexivity | simpl in Hle; lia].
  - destruct s as [|c s]; [reflexivity|]. simpl in Hle.
    assert (IHs : splitlines (lstrip s)
                  = match drop_blank (splitlines s) with
                    | [] => []
                    | l :: r => lstrip l :: r
                    end) by (apply IH; lia).
    destruct (is_space c) eqn:Hsp.
    + assert (El : lstrip (String c s) = lstrip s) by (simpl; now rewrite Hsp).
      rewrite El.
      destruct (is_linebreak c) eqn:Hlb.
      * assert (Hcase : lone_break c s \/
                        exists c' s', s = String c' s' /\ is_cr c = true /\
                                      is_lf c' = true).
        { unfold lone_break. destruct (is_cr c) eqn:Hcr; [|now left; auto].
          destruct s as [|c' s']; [left; auto|].
          destruct (is_lf c') eqn:Hlf; [right; eauto | left; auto]. }
        destruct Hcase as [Hlone | (c' & s' & -> & Hcr & Hlf)].
        -- rewrite (splitlines_lone_break _ _ Hlone). exact IHs.
        -- rewrite (splitlines_crlf_pair _ _ s' Hcr Hlf).
           pose proof (linebreak_is_space c' (lf_is_linebreak c' Hlf)) as Hsp'.
           assert (El' : lstrip (String c' s') = lstrip s')
             by (simpl; now rewrite Hsp').
           rewrite El'. change (drop_blank (EmptyString :: splitlines s'))
             with (drop_blank (splitlines s')).
           apply IH. simpl in Hle. lia.
      * rewrite (splitlines_plain _ _ Hlb).
        destruct (splitlines s) as [|l ls] eqn:E.
        -- apply splitlines_nil in E. subst s. simpl.
           rewrite is_blank_cons, Hsp. reflexivity.
        -- rewrite drop_blank_push; [exact IHs | exact Hsp | discriminate].
    + assert (Hlb : is_linebreak c = false).
      { destruct (is_linebreak c) eqn:Hlb; [|reflexivity].
        apply linebreak_is_space in Hlb. congruence. }
      assert (El : lstrip (String c s) = String c s) by (simpl; now rewrite Hsp).
      rewrite El, (splitlines_plain _ _ Hlb).
      destruct (splitlines s) as [|l ls]; simpl;
        rewrite is_blank_cons, Hsp; simpl; now rewrite Hsp.
Qed.

Lemma drop_blank_head (ls : list string) (l : string) (r : list string) :
  drop_blank ls = l :: r -> is_blank l = false.
Proof.
  induction ls as [|x ls IH]; simpl; [discriminate|].
  destruct (is_blank x) eqn:E; [exact IH | now intros [= <- _]].
Qed.

Lemma strip_lstrip (s : string) : strip (lstrip s) = strip s.
Proof. unfold strip. now rewrite lstrip_idem. Qed.

Lemma parse_devices_drop_blank (stdout : string) :
  parse_devices stdout
  = ready_serials (tl (drop_blank (splitlines stdout))).
Proof.
  pose proof (splitlines_lstrip_any stdout) as H.
  destruct (drop_blank (splitlines stdout)) as [|l r] eqn:E.
  - apply splitlines_nil in H. unfold parse_devices, strip. now rewrite H.
  - assert (Hb : is_blank (lstrip l) = false)
      by (rewrite is_blank_lstrip; exact (drop_blank_head _ _ _ E)).
    pose proof (parse_devices_lines (lstrip stdout) (lstrip l) r H Hb) as Hp.
    unfold parse_devices in Hp |- *. now rewrite strip_lstrip in Hp.
Qed.

(** X1: on every output the parser leaves out the blank lines in front,
    then one more line, and applies the rule of the rows to the lines that
    follow. *)
Theorem parse_devices_any_output (stdout : string) :
  parse_devices stdout
  = ready_serials (tl (drop_blank (splitlines stdout))).
Proof. apply parse_devices_drop_blank. Qed.

Lemma in_drop_blank (x : string) (ls : list string) :
  In x (drop_blank ls) -> In x ls.
Proof.
  induction ls as [|l ls IH]; simpl; [tauto|].
  destruct (is_blank l); [auto | now intros H].
Qed.

Lemma in_tl {A} (x : A) (ls : list A) : In x (tl ls) -> In x ls.
Proof. destruct ls; simpl; auto. Qed.

Lemma ready_serial_inv (serial row : string) :
  In serial (ready_serial row) ->
  exists rest, split row = serial :: "device" :: rest.
Proof.
  unfold ready_serial. destruct (is_blank row); [intros []|].
  destruct (split row) as [|a [|b rest]]; try (intros []).
  destruct (String.eqb_spec b "device"); [|intros []].
  intros [<-|[]]. subst b. eauto.
Qed.

Lemma split_from_tokens (s : string) :
  no_space (fst (split_from s)) = true /\
  Forall (fun t => is_token t = true) (snd (split_from s)).
Proof.
  induction s as [|c s [IH1 IH2]]; simpl; [auto|].
  destruct (split_from s) as [t ts]. simpl in *.
  destruct (is_space c) eqn:E; simpl.
  - split; [reflexivity|]. unfold push_token.
    destruct (is_empty t) eqn:F; [exact IH2|].
    constructor; [|exact IH2]. unfold is_token. now rewrite F, IH1.
  - rewrite E, IH1. auto.
Qed.

Lemma split_tokens (s : string) :
  Forall (fun t => is_token t = true) (split s).
Proof.
  unfold split. pose proof (split_from_tokens s) as [H1 H2].
  destruct (split_from s) as [t ts]. simpl in *. unfold push_token.
  destruct (is_empty t) eqn:F; [exact H2|].
  constructor; [|exact H2]. unfold is_token. now rewrite F, H1.
Qed.

Lemma parse_devices_from_row (stdout serial : string) :
  In serial (parse_devices stdout) ->
  exists line rest,
    In line (splitlines stdout) /\
    split line = serial :: "device" :: rest /\
    is_token serial = true.
Proof.
  rewrite parse_devices_drop_blank. unfold ready_serials.
  intros H. apply in_flat_map in H as (line & Hin & Hs).
  apply in_tl, in_drop_blank in Hin.
  destruct (ready_serial_inv _ _ Hs) as [rest Hrest].
  exists line, rest. split; [exact Hin|]. split; [exact Hrest|].
  pose proof (split_tokens line) as Ht. rewrite Hrest in Ht.
  now inversion Ht.
Qed.

(** X2: whatever the bridge prints, each identifier the parser returns is
    the first token of one line of the output, a line whose second token is
    exactly "device"; it is not empty and holds no white space. *)
Theorem parse_devices_sound (stdout serial : string) :
  In serial (parse_devices stdout) ->
  exists line rest,
    In line (splitlines stdout) /\
    split line = serial :: "device" :: rest /\
    is_token serial = true.
Proof. apply parse_devices_from_row. Qed.

Lemma split_from_token_then (tok : string) (c : ascii) (s : string) :
  no_space tok = true -> is_space c = true ->
  split_from (tok ++ String c s) = (tok, split s).
Proof.
  intros Ht Hc. induction tok as [|x tok IH]; simpl in *.
  - rewrite Hc. unfold split. now destruct (split_from s).
  - apply andb_true_iff in Ht as [Hx Ht]. apply negb_true_iff in Hx.
    rewrite (IH Ht), Hx. reflexivity.
Qed.

Lemma split_from_token (tok : string) :
  no_space tok = true -> split_from tok = (tok, []).
Proof.
  intros Ht. induction tok as [|x tok IH]; simpl in *; [reflexivity|].
  apply andb_true_iff in Ht as [Hx Ht]. apply negb_true_iff in Hx.
  now rewrite (IH Ht), Hx.
Qed.

Lemma is_token_parts (s : string) :
  is_token s = true -> is_empty s = false /\ no_space s = true.
Proof.
  unfold is_token. intros H. apply andb_true_iff in H as [H1 H2].
  now apply negb_true_iff in H1.
Qed.

Lemma tab_is_space : is_space (ascii_of_nat 9) = true.
Proof. reflexivity. Qed.

Lemma split_adb_row (serial status : string) :
  is_token serial = true -> is_token status = true ->
  split (adb_row (serial, status)) = [serial; status].
Proof.
  intros Hs Ht.
  apply is_token_parts in Hs as [Hs1 Hs2]. apply is_token_parts in Ht as [Ht1 Ht2].
  unfold split, adb_row. simpl fst. simpl snd.
  change (serial ++ TAB ++ status)%string
    with (serial ++ String (ascii_of_nat 9) status)%string.
  rewrite (split_from_token_then _ _ _ Hs2 tab_is_space).
  unfold split. rewrite (split_from_token _ Ht2).
  unfold push_token. now rewrite Hs1, Ht1.
Qed.

Lemma token_not_blank (tok rest : string) :
  is_token tok = true -> is_blank (tok ++ rest) = false.
Proof.
  intros H. apply is_token_parts in H as [H1 H2].
  rewrite is_blank_all_space. destruct tok as [|x tok]; [discriminate|].
  simpl in *. apply andb_true_iff in H2 as [Hx _].
  apply negb_true_iff in Hx. now rewrite Hx.
Qed.

Lemma no_space_one_line (s : string) : no_space s = true -> one_line s = true.
Proof.
  induction s as [|c s IH]; simpl; [reflexivity|].
  intros H. apply andb_true_iff in H as [Hc Hs]. rewrite (IH Hs), andb_true_r.
  apply negb_true_iff in Hc. apply negb_true_iff.
  destruct (is_linebreak c) eqn:E; [|reflexivity].
  apply linebreak_is_space in E. congruence.
Qed.

Lemma one_line_app (a b : string) :
  one_line (a ++ b) = one_line a && one_line b.
Proof.
  induction a as [|c a IH]; simpl; [reflexivity|].
  now rewrite IH, andb_assoc.
Qed.

Lemma one_line_adb_row (serial status : string) :
  is_token serial = true -> is_token status = true ->
  one_line (adb_row (serial, status)) = true.
Proof.
  intros Hs Ht.
  apply is_token_parts in Hs as [_ Hs]. apply is_token_parts in Ht as [_ Ht].
  unfold adb_row. simpl fst. simpl snd. rewrite !one_line_app.
  now rewrite (no_space_one_line _ Hs), (no_space_one_line _ Ht).
Qed.

Lemma ready_serial_adb_row (serial status : string) :
  is_token serial = true -> is_token status = true ->
  ready_serial (adb_row (serial, status))
  = if String.eqb status "device" then [serial] else [].
Proof.
  intros Hs Ht. unfold ready_serial.
  rewrite (split_adb_row _ _ Hs Ht).
  unfold adb_row. simpl fst. simpl snd.
  now rewrite (token_not_blank _ _ Hs).
Qed.

Lemma ready_serials_table (table : list (string * string)) :
  Forall (fun p => is_token (fst p) = true /\ is_token (snd p) = true) table ->
  ready_serials (map adb_row table) = ready_of_table table.
Proof.
  unfold ready_serials, ready_of_table.
  induction 1 as [|[serial status] table [Hs Ht] _ IH]; [reflexivity|].
  simpl in Hs, Ht. simpl map. simpl flat_map. simpl filter.
  rewrite IH, (ready_serial_adb_row _ _ Hs Ht).
  now destruct (String.eqb status "device").
Qed.

Lemma parse_devices_of_table (header : string) (table : list (string * string)) :
  one_line header = true -> is_blank header = false ->
  Forall (fun p => is_token (fst p) = true /\ is_token (snd p) = true) table ->
  parse_devices (unlines (header :: map adb_row table)) = ready_of_table table.
Proof.
  intros H1 Hb Ht.
  rewrite <- (ready_serials_table _ Ht).
  apply (parse_devices_lines _ header); [|exact Hb].
  apply splitlines_unlines. constructor; [exact H1|].
  apply Forall_forall. intros row Hin. apply in_map_iff in Hin as ([a b] & <- & Hp).
  rewrite Forall_forall in Ht. destruct (Ht _ Hp) as [Ha Hb'].
  now apply one_line_adb_row.
Qed.

(** X3: print a table of identifiers and states under a header, one row per
    line with a tab between the two, and parse it: the result is the
    identifiers whose state is "device", in the order of the table,
    repeated as often as they are listed. *)
Theorem parse_devices_table (header : string) (table : list (string * string)) :
  one_line header = true -> is_blank header = false ->
  Forall (fun p => is_token (fst p) = true /\ is_token (snd p) = true) table ->
  parse_devices (unlines (header :: map adb_row table)) = ready_of_table table.
Proof. apply parse_devices_of_table. Qed.

Lemma splitlines_header_crlf (h rest : string) :
  one_line h = true ->
  splitlines (h ++ CR ++ LF ++ rest) = h :: splitlines rest.
Proof.
  induction h as [|c h IH]; intros Hh.
  - reflexivity.
  - simpl in Hh. apply andb_true_iff in Hh as [Hc Hh].
    apply negb_true_iff in Hc.
    change (splitlines (String c (h ++ CR ++ LF ++ rest))
            = String c h :: splitlines rest).
    rewrite (splitlines_plain _ _ Hc), (IH Hh). reflexivity.
Qed.

Lemma splitlines_unlines_crlf (ls : list string) :
  Forall (fun l => one_line l = true) ls ->
  splitlines (unlines_crlf ls) = ls.
Proof.
  induction 1 as [|l ls Hl _ IH]; [reflexivity|].
  change (unlines_crlf (l :: ls)) with (l ++ CR ++ LF ++ unlines_crlf ls)%string.
  now rewrite (splitlines_header_crlf _ _ Hl), IH.
Qed.

(** X4: the same lines ended by CR LF instead of LF give the same list of
    devices. *)
Theorem parse_devices_crlf (ls : list string) :
  Forall (fun l => one_line l = true) ls ->
  parse_devices (unlines_crlf ls) = parse_devices (unlines ls).
Proof.
  intros H. rewrite !parse_devices_drop_blank.
  now rewrite (splitlines_unlines_crlf _ H), (splitlines_unlines _ H).
Qed.

Lemma lstrip_app_space (pre s : string) :
  all_space pre = true -> lstrip (pre ++ s) = lstrip s.
Proof.
  induction pre as [|c pre IH]; simpl; [reflexivity|].
  intros H. apply andb_true_iff in H as [Hc Hp]. rewrite Hc. now apply IH.
Qed.

Lemma lstrip_app_visible (s t : string) :
  all_space s = false -> lstrip (s ++ t) = (lstrip s ++ t)%string.
Proof.
  induction s as [|c s IH]; simpl; [discriminate|].
  destruct (is_space c); simpl; [exact IH | reflexivity].
Qed.

Lemma all_space_app (a b : string) :
  all_space (a ++ b) = all_space a && all_space b.
Proof.
  induction a as [|c a IH]; simpl; [reflexivity|].
  now rewrite IH, andb_assoc.
Qed.

Lemma rstrip_app_space (s post : string) :
  all_space post = true -> rstrip (s ++ post) = rstrip s.
Proof.
  intros Hp. induction s as [|c s IH]; simpl.
  - now apply rstrip_all_space.
  - now rewrite IH.
Qed.

Lemma strip_surrounded (pre s post : string) :
  all_space pre = true -> all_space post = true ->
  strip (pre ++ s ++ post) = strip s.
Proof.
  intros Hpre Hpost. unfold strip. rewrite (lstrip_app_space _ _ Hpre).
  destruct (all_space s) eqn:E.
  - rewrite (lstrip_all_space s E), lstrip_all_space; [reflexivity|].
    now rewrite all_space_app, E, Hpost.
  - now rewrite (lstrip_app_visible _ _ E), (rstrip_app_space _ _ Hpost).
Qed.

(** X5: white space and blank lines before and after the output of the
    bridge do not change the list of devices. *)
Theorem parse_devices_surrounded (pre stdout post : string) :
  all_space pre = true -> all_space post = true ->
  parse_devices (pre ++ stdout ++ post) = parse_devices stdout.
Proof.
  intros Hpre Hpost. unfold parse_devices.
  now rewrite (strip_surrounded _ _ _ Hpre Hpost).
Qed.

End ParserFacts.

(** ** Tools that ask one thing of the device *)

Section OneCall.

Variable World : Type.
Variable lib : call -> World -> outcome pyval * World.

Lemma acts_once_pattern (device_id : option string) (m : string)
  (args : list pyval) (kwargs : list (string * pyval)) (msg : string) :
  acts_once
    (try_except
       (bind (u2_connect lib device_id) (fun d =>
        bind (py_method lib d m args kwargs) (fun _ => ret (PBool true))))
       (print_false msg))
    device_id (fun d => CallMethod d m args kwargs) msg.
Proof.
  intros st. unfold try_except, bind, u2_connect, connect_call.
  next_call.
  - destruct v; cbn -[lib_call AttributeError String.append];
      try (eexists; split; [reflexivity|]; right; split; [reflexivity|];
           eexists; split; [reflexivity|]; right; left;
           eexists; split; [reflexivity | discriminate]).
    next_call; cbn; rewrite <- app_assoc; eexists; (split; [reflexivity|]).
    + left. split; [reflexivity|]. split; [reflexivity|].
      eexists _, _. reflexivity.
    + right. split; [reflexivity|]. eexists. split; [reflexivity|].
      right. right. eexists. reflexivity.
  - cbn. eexists. split; [reflexivity|]. right. split; [reflexivity|].
    eexists. split; [reflexivity|]. now left.
Qed.

(** X6: press_key, swipe and send_text connect, then make one call.  Each
    returns [True] exactly when both calls return, whatever the second one
    returns, and prints nothing; otherwise it returns [False] after one
    printed line that ends with the text of the exception, and the device
    was asked for nothing once the connection had failed. *)
Theorem input_tools_act_once (device_id : option string) :
  (forall key,
     acts_once (press_key lib key device_id) device_id
       (fun d => CallMethod d "press" [PStr key] [])
       ("Failed to press key " ++ key)) /\
  (forall start_x start_y end_x end_y duration,
     acts_once (swipe lib start_x start_y end_x end_y duration device_id)
       device_id
       (fun d => CallMethod d "swipe"
                   [PFloat start_x; PFloat start_y; PFloat end_x; PFloat end_y]
                   [("duration", PFloat duration)])
       "Failed to perform swipe") /\
  (forall text clear,
     acts_once (send_text lib text clear device_id) device_id
       (fun d => CallMethod d "send_keys" [PStr text] [("clear", PBool clear)])
       "Failed to send text").
Proof.
  split; [|split]; intros; apply acts_once_pattern.
Qed.

(** X7: stop_app, stop_all_apps, clear_app_data, and start_app called with
    wait=False, connect, then make one call, in the same way: [True] exactly
    when both calls return, [False] with one printed line otherwise; with
    wait=False start_app does not ask the device to wait for the app. *)
Theorem app_tools_act_once (device_id : option string) :
  (forall package_name,
     acts_once (stop_app lib package_name device_id) device_id
       (fun d => CallMethod d "app_stop" [PStr package_name] [])
       ("Failed to stop app " ++ package_name)) /\
  acts_once (stop_all_apps lib device_id) device_id
    (fun d => CallMethod d "app_stop_all" [] []) "Failed to stop all apps" /\
  (forall package_name,
     acts_once (clear_app_data lib package_name device_id) device_id
       (fun d => CallMethod d "app_clear" [PStr package_name] [])
       ("Failed to clear app data for " ++ package_name)) /\
  (forall package_name,
     acts_once (start_app lib package_name device_id false) device_id
       (fun d => CallMethod d "app_start" [PStr package_name] [])
       ("Failed to start app " ++ package_name)).
Proof.
  split; [|split; [|split]]; intros; apply acts_once_pattern.
Qed.

(** X8: screen_on, screen_off and screenshot connect, then make one call:
    [True] exactly when both calls return, [False] with one printed line
    otherwise.  screen_on does not look at what [d.screen_on()] returns. *)
Theorem screen_tools_act_once (device_id : option string) :
  acts_once (screen_on lib device_id) device_id
    (fun d => CallMethod d "screen_on" [] []) "Failed to turn screen on" /\
  acts_once (screen_off lib device_id) device_id
    (fun d => CallMethod d "screen_off" [] []) "Failed to turn screen off" /\
  (forall filename,
     acts_once (screenshot lib filename device_id) device_id
       (fun d => CallMethod d "screenshot" [PStr filename] [])
       "Failed to take screenshot").
Proof.
  split; [|split]; intros; apply acts_once_pattern.
Qed.

End OneCall.

(** ** Gestures on an element *)

Section Gestures.

Variable World : Type.
Variable lib : call -> World -> outcome pyval * World.

(** X9: once click has connected, looked the element up and tested
    [el and el.exists], it either returns [False] at once, with no call and
    no printed line (test false), or asks for the click, and then returns
    [True] exactly when that call returns. *)
Theorem click_only_when_found (st st0 st1 st2 : state World)
  (selector selector_type : string) (timeout : Q) (device_id : option string)
  (d el : pyval) (found : bool) :
  u2_connect lib device_id st = (Returned d, st0) ->
  wait_for_selector lib d selector selector_type timeout st0
  = (Returned el, st1) ->
  el_and_exists lib el st1 = (Returned found, st2) ->
  (found = false ->
   click lib selector selector_type timeout device_id st
   = (Returned (PBool false), st2)) /\
  (found = true ->
   trace (snd (click lib selector selector_type timeout device_id st))
   = trace (snd (py_method lib el "click" [] [] st2)) /\
   (fst (click lib selector selector_type timeout device_id st)
    = Returned (PBool true)
    <-> exists v, fst (py_method lib el "click" [] [] st2) = Returned v)).
Proof.
  intros Hc Hw He. unfold click, try_except, bind. rewrite Hc, Hw, He.
  split; intros ->; [reflexivity|].
  destruct (py_method lib el "click" [] [] st2) as [[v|e] st3]; cbn.
  - split; [reflexivity|]. split; eauto.
  - split; [reflexivity|]. split; [discriminate | intros [v Hv]; discriminate].
Qed.

(** X10: long_click and drag look the element up without waiting for it;
    after the test [el and el.exists] each either returns [False] at once,
    with no call and no printed line, or asks for its gesture and returns
    [True] exactly when that call returns. *)
Theorem long_click_and_drag_only_when_found (st st0 st1 st2 : state World)
  (selector selector_type : string) (duration : Q) (to_x to_y : Z)
  (device_id : option string) (d el : pyval) (found : bool) :
  u2_connect lib device_id st = (Returned d, st0) ->
  select_by lib d selector selector_type st0 = (Returned el, st1) ->
  el_and_exists lib el st1 = (Returned found, st2) ->
  (found = false ->
   long_click lib selector selector_type duration device_id st
   = (Returned (PBool false), st2) /\
   drag lib selector selector_type to_x to_y device_id st
   = (Returned (PBool false), st2)) /\
  (found = true ->
   (fst (long_click lib selector selector_type duration device_id st)
    = Returned (PBool true)
    <-> exists v,
          fst (py_method lib el "long_click" []
                 [("duration", PFloat duration)] st2) = Returned v) /\
   (fst (drag lib selector selector_type to_x to_y device_id st)
    = Returned (PBool true)
    <-> exists v,
          fst (py_method lib el "drag_to" [PInt to_x; PInt to_y] [] st2)
          = Returned v)).
Proof.
  intros Hc Hs He. unfold long_click, drag, try_except, bind.
  rewrite Hc, Hs, He.
  split; intros ->; [split; reflexivity|].
  split.
  - destruct (py_method lib el "long_click" [] [("duration", PFloat duration)] st2)
      as [[v|e] st3]; cbn;
      split; eauto; try discriminate. intros [v Hv]; discriminate.
  - destruct (py_method lib el "drag_to" [PInt to_x; PInt to_y] [] st2)
      as [[v|e] st3]; cbn;
      split; eauto; try discriminate. intros [v Hv]; discriminate.
Qed.

(** X11: when the [wait] of the library answers with the plain value
    [True], click and get_element_info take it for the element: reading
    [exists] on it raises, so click returns [False] without clicking and
    get_element_info returns the empty dict; wait_for_element returns
    [True] under the kinds text and resourceId and [False] under the kind
    description. *)
Theorem lookup_answering_plain_true (st st0 st1 st2 : state World)
  (selector selector_type : string) (timeout : Q) (device_id : option string)
  (d sel : pyval) :
  valid_selector_type selector_type ->
  u2_connect lib device_id st = (Returned d, st0) ->
  py_call lib d [(selector_type, PStr selector)] st0 = (Returned sel, st1) ->
  py_method lib sel "wait" [] [("timeout", PFloat timeout)] st1
  = (Returned (PBool true), st2) ->
  fst (click lib selector selector_type timeout device_id st)
  = Returned (PBool false) /\
  trace (snd (click lib selector selector_type timeout device_id st))
  = trace st2 /\
  fst (get_element_info lib selector selector_type timeout device_id st)
  = Returned (PDict []) /\
  fst (wait_for_element lib selector selector_type timeout device_id st)
  = Returned (PBool (negb (String.eqb selector_type "description"))).
Proof.
  intros Hv Hc Hs Hw.
  unfold click, get_element_info, get_element_info_try, wait_for_element,
    wait_for_selector, select_by, try_except, bind.
  rewrite Hc.
  destruct Hv as [ -> | [ -> | -> ] ]; cbn [String.eqb Ascii.eqb Bool.eqb];
    rewrite Hs, Hw; cbn; auto.
Qed.

End Gestures.

(** ** What the tools ask of the outside *)

Section Footprint.

Variable World : Type.
Variable lib : call -> World -> outcome pyval * World.
Variable py_str : pyval -> string.
Variable P : call -> bool.

Lemma asks_ret {A} (a : A) : asks_only P (ret (World := World) a).
Proof. intros st. exists []. simpl. now rewrite app_nil_r. Qed.

Lemma asks_raise {A} (e : exn) : asks_only P (raise (World := World) (A := A) e).
Proof. intros st. exists []. simpl. now rewrite app_nil_r. Qed.

Lemma asks_print (line : string) : asks_only P (print (World := World) line).
Proof. intros st. exists []. simpl. now rewrite app_nil_r. Qed.

Lemma asks_get_status : asks_only P (get_status (World := World)).
Proof. intros st. exists []. simpl. now rewrite app_nil_r. Qed.

Lemma asks_put_status d : asks_only P (put_status (World := World) d).
Proof. intros st. exists []. simpl. now rewrite app_nil_r. Qed.

Lemma asks_status_setitem k v : asks_only P (status_setitem (World := World) k v).
Proof. intros st. exists []. simpl. now rewrite app_nil_r. Qed.

Lemma asks_bind {A B} (m : M World A) (k : A -> M World B) :
  asks_only P m -> (forall a, asks_only P (k a)) -> asks_only P (bind m k).
Proof.
  intros Hm Hk st. unfold bind. destruct (Hm st) as (evs1 & Ht1 & Hp1).
  destruct (m st) as [[a|e] st1]; simpl in *.
  - destruct (Hk a st1) as (evs2 & Ht2 & Hp2).
    exists (evs1 ++ evs2). rewrite Ht2, Ht1, app_assoc. split; [reflexivity|].
    now rewrite forallb_app, Hp1, Hp2.
  - now exists evs1.
Qed.

Lemma asks_try {A} (body : M World A) (h : exn -> M World A) :
  asks_only P body -> (forall e, asks_only P (h e)) ->
  asks_only P (try_except body h).
Proof.
  intros Hb Hh st. unfold try_except. destruct (Hb st) as (evs1 & Ht1 & Hp1).
  destruct (body st) as [[a|e] st1]; simpl in *.
  - now exists evs1.
  - destruct (Hh e st1) as (evs2 & Ht2 & Hp2).
    exists (evs1 ++ evs2). rewrite Ht2, Ht1, app_assoc. split; [reflexivity|].
    now rewrite forallb_app, Hp1, Hp2.
Qed.

Lemma asks_if {A} (c : bool) (m1 m2 : M World A) :
  asks_only P m1 -> asks_only P m2 -> asks_only P (if c then m1 else m2).
Proof. now destruct c. Qed.

Lemma asks_lib_call (c : call) : P c = true -> asks_only P (lib_call lib c).
Proof.
  intros H st. rewrite lib_call_run. simpl. eexists. split; [reflexivity|].
  simpl. now rewrite H.
Qed.

Lemma asks_plain_truth v : asks_only P (plain_truth (World := World) v).
Proof. destruct v; simpl; auto using @asks_ret, @asks_raise. Qed.

Lemma asks_truthy v :
  P (CallMethod v "__bool__" [] []) = true -> asks_only P (truthy lib v).
Proof.
  intros H. destruct v; simpl; auto using @asks_ret.
  apply asks_bind; [now apply asks_lib_call | intros; apply asks_plain_truth].
Qed.

Lemma asks_py_getattr v a : P (GetAttr v a) = true -> asks_only P (py_getattr lib v a).
Proof. intros H. destruct v; simpl; auto using @asks_raise, asks_lib_call. Qed.

Lemma asks_py_method v m args kwargs :
  P (CallMethod v m args kwargs) = true ->
  asks_only P (py_method lib v m args kwargs).
Proof. intros H. destruct v; simpl; auto using @asks_raise, asks_lib_call. Qed.

Lemma asks_py_call v kwargs :
  P (CallMethod v "__call__" [] kwargs) = true ->
  asks_only P (py_call lib v kwargs).
Proof. intros H. destruct v; simpl; auto using @asks_raise, asks_lib_call. Qed.

Lemma asks_py_get v k dflt :
  P (CallMethod v "get" [PStr k; dflt] []) = true ->
  asks_only P (py_get lib v k dflt).
Proof.
  intros H. destruct v; simpl; auto using @asks_raise, @asks_ret, asks_lib_call.
Qed.

Lemma asks_py_getitem v k :
  P (CallMethod v "__getitem__" [PStr k] []) = true ->
  asks_only P (py_getitem lib v k).
Proof.
  intros H. destruct v; simpl; auto using @asks_raise, asks_lib_call.
  destruct (lookup k kv); auto using @asks_raise, @asks_ret.
Qed.

Lemma asks_py_index v i :
  P (CallMethod v "__getitem__" [PInt (Z.of_nat i)] []) = true ->
  asks_only P (py_index lib py_str v i).
Proof.
  intros H. destruct v; simpl; auto using @asks_raise, asks_lib_call.
  - destruct (String.get i s); auto using @asks_raise, @asks_ret.
  - destruct (nth_error l i); auto using @asks_raise, @asks_ret.
Qed.

Lemma asks_py_len v :
  P (CallMethod v "__len__" [] []) = true -> asks_only P (py_len lib v).
Proof.
  intros H. destruct v; simpl; auto using @asks_raise, @asks_ret, asks_lib_call.
Qed.

Lemma asks_as_str v : asks_only P (as_str (World := World) v).
Proof. destruct v; simpl; auto using @asks_raise, @asks_ret. Qed.

(** While it polls, the loop of wait_for_screen_on asks what a poll and a
    sleep ask. *)
Lemma asks_wait_loop (fuel : nat) (d : pyval) (st : state World)
  (r : outcome pyval * state World) :
  asks_only P (poll_screen lib d) -> asks_only P (asyncio_sleep lib 1) ->
  wait_loop lib fuel d st = Some r ->
  exists evs,
    trace (snd r) = trace st ++ evs /\
    forallb (fun ev => P (fst ev)) evs = true.
Proof.
  intros Hpoll Hsleep. revert st.
  induction fuel as [|fuel IH]; intros st H; [discriminate|].
  simpl in H. destruct (Hpoll st) as (evs1 & Ht1 & Hp1).
  destruct (poll_screen lib d st) as [[[|]|e] st1]; simpl in *.
  - injection H as <-. now exists evs1.
  - destruct (Hsleep st1) as (evs2 & Ht2 & Hp2).
    destruct (asyncio_sleep lib 1 st1) as [[v|e] st2]; simpl in *.
    + destruct (IH st2 H) as (evs3 & Ht3 & Hp3).
      exists (evs1 ++ evs2 ++ evs3).
      rewrite Ht3, Ht2, Ht1, <- !app_assoc. split; [reflexivity|].
      now rewrite !forallb_app, Hp1, Hp2, Hp3.
    + injection H as <-. exists (evs1 ++ evs2). simpl.
      rewrite Ht2, Ht1, <- app_assoc. split; [reflexivity|].
      now rewrite forallb_app, Hp1, Hp2.
  - injection H as <-. now exists evs1.
Qed.

End Footprint.

Ltac head_of t :=
  match t with
  | ?f _ => head_of f
  | _ => t
  end.

(** The calls of a computation, read off its text. *)
Ltac footprint :=
  repeat match goal with
    | |- asks_only _ (ret _) => apply asks_ret
    | |- asks_only _ (raise _) => apply asks_raise
    | |- asks_only _ (print _) => apply asks_print
    | |- asks_only _ (@get_status _) => apply asks_get_status
    | |- asks_only _ (put_status _) => apply asks_put_status
    | |- asks_only _ (status_setitem _ _) => apply asks_status_setitem
    | |- asks_only _ (lib_call _ _) => apply asks_lib_call; reflexivity
    | |- asks_only _ (plain_truth _) => apply asks_plain_truth
    | |- asks_only _ (truthy _ _) => apply asks_truthy; reflexivity
    | |- asks_only _ (py_getattr _ _ _) => apply asks_py_getattr; reflexivity
    | |- asks_only _ (py_method _ _ _ _ _) => apply asks_py_method; reflexivity
    | |- asks_only _ (py_call _ _ _) => apply asks_py_call; reflexivity
    | |- asks_only _ (py_get _ _ _ _) => apply asks_py_get; reflexivity
    | |- asks_only _ (py_getitem _ _ _) => apply asks_py_getitem; reflexivity
    | |- asks_only _ (py_index _ _ _ _) => apply asks_py_index; reflexivity
    | |- asks_only _ (py_len _ _) => apply asks_py_len; reflexivity
    | |- asks_only _ (as_str _) => apply asks_as_str
    | |- asks_only _ (bind _ _) => apply asks_bind; [|intros ?]
    | |- asks_only _ (try_except _ _) => apply asks_try; [|intros ?]
    | |- asks_only _ (if _ then _ else _) => apply asks_if
    | |- asks_only _ (match ?x with _ => _ end) => destruct x
    | |- asks_only _ ?m => let h := head_of m in progress unfold h
    end.

Section ToolFootprints.

Variable World : Type.
Variable lib : call -> World -> outcome pyval * World.
Variable py_str : pyval -> string.

Lemma asks_run (P : call -> bool) (m : M World pyval) (st : state World)
  (r : outcome pyval * state World) :
  asks_only P m -> Some (m st) = Some r ->
  exists evs,
    trace (snd r) = trace st ++ evs /\
    forallb (fun ev => P (fst ev)) evs = true.
Proof. intros H [= <-]. apply H. Qed.

Lemma run_never_sleeps (fuel : nat) (inv : invocation) (st : state World)
  (r : outcome pyval * state World) :
  is_wait_for_screen_on inv = false ->
  run lib py_str fuel inv st = Some r ->
  exists evs,
    trace (snd r) = trace st ++ evs /\
    forallb (fun ev => not_sleep (fst ev)) evs = true.
Proof.
  intros Hinv. destruct inv; try discriminate; cbn [run];
    apply asks_run; footprint.
Qed.

Lemma run_without_adb (fuel : nat) (inv : invocation) (st : state World)
  (r : outcome pyval * state World) :
  looks_for_adb inv = false ->
  run lib py_str fuel inv st = Some r ->
  exists evs,
    trace (snd r) = trace st ++ evs /\
    forallb (fun ev => not_adb (fst ev)) evs = true.
Proof.
  intros Hinv. destruct inv; try discriminate; cbn [run];
    try (apply asks_run; footprint).
  unfold wait_for_screen_on.
  pose proof (asks_lib_call World lib not_adb
                (CallFn "u2.connect" [PStr device_id] []) eq_refl st)
    as (evs0 & Ht0 & Hp0).
  change (lib_call lib (CallFn "u2.connect" [PStr device_id] []) st)
    with (u2_connect lib (Some device_id) st) in Ht0.
  destruct (u2_connect lib (Some device_id) st) as [[d|e] st0]; simpl in Ht0.
  - intros H.
    destruct (asks_wait_loop World lib not_adb fuel d st0 r) as (evs & Ht & Hp);
      [unfold poll_screen; footprint | unfold asyncio_sleep; footprint | exact H |].
    exists (evs0 ++ evs). rewrite Ht, Ht0, app_assoc. split; [reflexivity|].
    now rewrite forallb_app, Hp0, Hp.
  - intros [= <-]. now exists evs0.
Qed.

Lemma run_without_wait (fuel : nat) (inv : invocation) (st : state World)
  (r : outcome pyval * state World) :
  waits_for_element inv = false ->
  run lib py_str fuel inv st = Some r ->
  exists evs,
    trace (snd r) = trace st ++ evs /\
    forallb (fun ev => not_wait (fst ev)) evs = true.
Proof.
  intros Hinv. destruct inv; try discriminate; cbn [run];
    try (apply asks_run; footprint).
  unfold wait_for_screen_on.
  pose proof (asks_lib_call World lib not_wait
                (CallFn "u2.connect" [PStr device_id] []) eq_refl st)
    as (evs0 & Ht0 & Hp0).
  change (lib_call lib (CallFn "u2.connect" [PStr device_id] []) st)
    with (u2_connect lib (Some device_id) st) in Ht0.
  destruct (u2_connect lib (Some device_id) st) as [[d|e] st0]; simpl in Ht0.
  - intros H.
    destruct (asks_wait_loop World lib not_wait fuel d st0 r) as (evs & Ht & Hp);
      [unfold poll_screen; footprint | unfold asyncio_sleep; footprint | exact H |].
    exists (evs0 ++ evs). rewrite Ht, Ht0, app_assoc. split; [reflexivity|].
    now rewrite forallb_app, Hp0, Hp.
  - intros [= <-]. now exists evs0.
Qed.

(** X12: only get_device_status, connect_device, check_adb_and_list_devices
    and get_installed_apps look for the bridge on PATH or run it; every other
    tool goes to the library without a look at the bridge.  And only
    wait_for_screen_on sleeps: every other tool leaves any waiting to the
    library. *)
Theorem bridge_and_sleep_footprint (fuel : nat) (inv : invocation)
  (st : state World) (r : outcome pyval * state World) :
  run lib py_str fuel inv st = Some r ->
  exists evs,
    trace (snd r) = trace st ++ evs /\
    (looks_for_adb inv = false ->
     forallb (fun ev => not_adb (fst ev)) evs = true) /\
    (is_wait_for_screen_on inv = false ->
     forallb (fun ev => not_sleep (fst ev)) evs = true).
Proof.
  intros H.
  assert (Hevs : exists evs, trace (snd r) = trace st ++ evs).
  { destruct (looks_for_adb inv) eqn:E.
    - destruct (run_never_sleeps fuel inv st r) as (evs & Ht & _);
        [now destruct inv | exact H | eauto].
    - destruct (run_without_adb fuel inv st r E H) as (evs & Ht & _). eauto. }
  destruct Hevs as (evs & Ht). exists evs. split; [exact Ht|]. split.
  - intros E. destruct (run_without_adb fuel inv st r E H) as (evs' & Ht' & Hp).
    rewrite Ht in Ht'. apply app_inv_head in Ht'. now subst.
  - intros E. destruct (run_never_sleeps fuel inv st r E H) as (evs' & Ht' & Hp).
    rewrite Ht in Ht'. apply app_inv_head in Ht'. now subst.
Qed.

(** X13: click, get_element_info and wait_for_element are the tools that
    call [wait] on a selector; no other tool does: long_click, drag and
    scroll_to act on the screen as it is. *)
Theorem only_three_tools_wait (fuel : nat) (inv : invocation)
  (st : state World) (r : outcome pyval * state World) :
  waits_for_element inv = false ->
  run lib py_str fuel inv st = Some r ->
  exists evs,
    trace (snd r) = trace st ++ evs /\
    forallb (fun ev => not_wait (fst ev)) evs = true.
Proof. apply run_without_wait. Qed.

End ToolFootprints.

(** ** Shapes of the responses *)

Section Responses.

Variable World : Type.
Variable lib : call -> World -> outcome pyval * World.
Variable py_str : pyval -> string.

Lemma post_raise {A} (e : exn) (P : A -> Prop) :
  post (raise (World := World) e) P.
Proof. intros st a H. discriminate. Qed.

Lemma post_try {A} (body : M World A) (h : exn -> M World A) (P : A -> Prop) :
  post body P -> (forall e, post (h e) P) -> post (try_except body h) P.
Proof.
  intros Hb Hh st a. unfold try_except.
  pose proof (Hb st) as Hb'. destruct (body st) as [[b|e] st1]; simpl in *.
  - intros [= <-]. now apply Hb'.
  - apply Hh.
Qed.

(** The value of a step carries what is known of it to the next steps. *)
Lemma post_then {A B} (m : M World A) (k : A -> M World B)
  (Q : A -> Prop) (P : B -> Prop) :
  post m Q -> (forall a, Q a -> post (k a) P) -> post (bind m k) P.
Proof.
  intros Hm Hk st b. unfold bind.
  pose proof (Hm st) as Hm'. destruct (m st) as [[a|e] st1]; simpl in *.
  - apply Hk. now apply Hm'.
  - discriminate.
Qed.

Lemma total_post {A} (m : M World A) (P : A -> Prop) (st : state World) :
  total m -> post m P -> exists a, fst (m st) = Returned a /\ P a.
Proof.
  intros Ht Hp. destruct (Ht st) as [a Ha]. exists a. split; [exact Ha|].
  exact (Hp st a Ha).
Qed.




Lemma post_py_len (apps : pyval) :
  post (py_len lib apps)
    (fun count => forall l, apps = PList l ->
                            count = PInt (Z.of_nat (List.length l))).
Proof.
  destruct apps; intros st c H l' E; try discriminate.
  injection E as <-. simpl in H. now injection H as <-.
Qed.

(** X15: get_installed_apps answers in one of two shapes.  With success =
    True, error is None and, when the library gave the apps as a list, count
    is the length of that list; with success = False, apps is empty, count
    is 0, error is a non-empty string and device_id is the one it was
    given. *)
Theorem get_installed_apps_shapes (st : state World) (device_id : option string) :
  exists resp,
    fst (get_installed_apps lib device_id st) = Returned resp /\
    (apps_success resp \/ apps_failure device_id resp).
Proof.
  apply total_post; [apply total_try; intros e; apply total_ret|].
  unfold get_installed_apps. apply post_try.
  - apply post_bind. intros adb_path. apply post_bind. intros found.
    apply post_if.
    + apply post_ret. right. eexists. split; [|reflexivity]. discriminate.
    + apply post_bind. intros d. apply post_bind. intros apps.
      apply post_then with (1 := post_py_len apps). intros count Hcount.
      apply post_bind. intros serial. apply post_bind. intros id.
      apply post_ret. left. exists apps, count, id. auto.
  - intros e. apply post_ret. right. eexists. split; [|reflexivity]. discriminate.
Qed.

Lemma post_basic_device_info (info : pyval) :
  post (basic_device_info lib info)
    (fun l => map fst l = ["manufacturer"; "model"; "serial"; "version"; "sdk"]).
Proof.
  unfold basic_device_info. repeat (apply post_bind; intros ?).
  now apply post_ret.
Qed.

(** X16: connect_device and get_device_info answer in one of two shapes.
    With success = True, error is None and device_info has a fixed list of
    keys (seven for connect_device, ten for get_device_info); with success
    = False, device_info is empty, error is a non-empty string and
    device_id is the one the tool was given. *)
Theorem device_responses_shapes (st : state World) (device_id : option string) :
  (exists resp,
     fst (connect_device lib device_id st) = Returned resp /\
     (device_success connect_info_keys resp \/ device_failure device_id resp)) /\
  (exists resp,
     fst (get_device_info lib py_str device_id st) = Returned resp /\
     (device_success device_info_keys resp \/ device_failure device_id resp)).
Proof.
  split.
  - apply total_post; [apply total_try; intros e; apply total_ret|].
    unfold connect_device. apply post_try.
    + apply post_bind. intros adb_path. apply post_bind. intros found.
      apply post_if.
      * apply post_ret. right. eexists. split; [|reflexivity]. discriminate.
      * apply post_then
          with (Q := fun r => forall resp, r = Some resp ->
                                           device_failure device_id resp).
        -- apply post_try.
           ++ apply post_bind. intros devices. apply post_if.
              ** apply post_ret. intros resp [= <-].
                 eexists. split; [|reflexivity]. discriminate.
              ** apply post_ret. discriminate.
           ++ intros e. apply post_ret. intros resp [= <-].
              eexists. split; [|reflexivity]. discriminate.
        -- intros [resp|] Hr.
           ++ apply post_ret. right. now apply Hr.
           ++ apply post_bind. intros d. apply post_bind. intros info.
              apply post_then with (1 := post_basic_device_info info).
              intros basic Hbasic.
              repeat (apply post_bind; intros ?).
              apply post_ret. left. eexists _, _. split; [reflexivity|].
              rewrite map_app, Hbasic. reflexivity.
    + intros e. apply post_ret. right. eexists. split; [|reflexivity]. discriminate.
  - apply total_post; [apply total_try; intros e; apply total_ret|].
    unfold get_device_info. apply post_try.
    + repeat (apply post_bind; intros ?).
      apply post_ret. left. eexists _, _. split; reflexivity.
    + intros e. apply post_ret. right. eexists. split; [|reflexivity]. discriminate.
Qed.

Lemma parse_devices_tokens (stdout : string) :
  Forall (fun serial => is_token serial = true) (parse_devices stdout).
Proof.
  apply Forall_forall. intros serial Hin.
  destruct (parse_devices_from_row _ _ Hin) as (_ & _ & _ & _ & Ht). exact Ht.
Qed.

Lemma post_list_devices (adb_path : pyval) :
  post (list_devices lib adb_path)
    (fun devices => Forall (fun serial => is_token serial = true) devices).
Proof.
  unfold list_devices. repeat (apply post_bind; intros ?).
  apply post_ret. apply parse_devices_tokens.
Qed.

(** X17: whenever check_adb_and_list_devices returns, its response is one
    of three: the bridge was not found (adb_exists False, no device, a fixed
    error); the list came through (adb_exists True, error None, and every
    device identifier a non-empty word without white space); or the list
    command raised (adb_exists True, no device, the text of the
    exception).  So a response with a device in it has error None. *)
Theorem check_adb_and_list_devices_shapes (st : state World) (resp : pyval) :
  fst (check_adb_and_list_devices lib st) = Returned resp ->
  adb_listing_response resp.
Proof.
  revert st resp. change (post (check_adb_and_list_devices lib) adb_listing_response).
  unfold check_adb_and_list_devices.
  apply post_bind. intros adb_path. apply post_bind. intros found.
  apply post_if.
  - apply post_ret. now left.
  - apply post_try.
    + apply post_then with (1 := post_list_devices adb_path).
      intros devices Hd. apply post_ret. right. left. eauto.
    + intros e. apply post_ret. right. right. eauto.
Qed.

(** X18: connect_device stops before the connection when the bridge is
    missing, when its list holds no ready device, and when its list command
    raises, in which case the cause is not reported; when the list holds a
    ready device, the next call is the connection to the identifier it was
    given, whether the list names it or not. *)
Theorem connect_device_before_connecting (st st0 st1 : state World)
  (device_id : option string) (adb_path : pyval) (found : bool) :
  shutil_which lib "adb" st = (Returned adb_path, st0) ->
  truthy lib adb_path st0 = (Returned found, st1) ->
  (found = false ->
   connect_device lib device_id st
   = (Returned (device_response false [] (PStr "ADB is not available in PATH")
                  (of_option device_id)), st1)) /\
  (found = true ->
   forall st2,
     list_devices lib adb_path st1 = (Returned [], st2) ->
     connect_device lib device_id st
     = (Returned
          (device_response false []
             (PStr "No Android devices connected. Please connect a device and ensure USB debugging is enabled.")
             (of_option device_id)), st2)) /\
  (found = true ->
   forall e st2,
     list_devices lib adb_path st1 = (Raised e, st2) ->
     connect_device lib device_id st
     = (Returned
          (device_response false []
             (PStr "Failed to check connected devices via ADB")
             (of_option device_id)), st2)) /\
  (found = true ->
   forall serial devices st2,
     list_devices lib adb_path st1 = (Returned (serial :: devices), st2) ->
     exists o evs,
       trace (snd (connect_device lib device_id st))
       = trace st2 ++ (connect_call device_id, o) :: evs).
Proof.
  intros Hw Ht.
  split; [|split; [|split]]; intros ->;
    unfold connect_device; unfold try_except at 1;
    rewrite (bind_returned World _ _ _ _ _ Hw); cbv beta;
    rewrite (bind_returned World _ _ _ _ _ Ht); cbv beta; cbn [negb];
    [reflexivity| | |].
  - intros st2 Hl.
    erewrite bind_returned;
      [| apply try_returned; erewrite bind_returned; [|exact Hl]; reflexivity].
    reflexivity.
  - intros e st2 Hl.
    erewrite bind_returned;
      [| erewrite try_raised; [|apply bind_raised; exact Hl]; reflexivity].
    reflexivity.
  - intros serial devices st2 Hl.
    erewrite bind_returned;
      [| apply try_returned; erewrite bind_returned; [|exact Hl]; reflexivity].
    cbv beta iota.
    match goal with
    | |- context [bind (u2_connect lib device_id) ?k st2] =>
        assert (Hk : forall d, asks_only (fun _ => true) (k d))
          by (intros d; footprint);
        unfold bind at 1; unfold u2_connect; rewrite lib_call_run;
        destruct (lib (CallFn "u2.connect" [of_option device_id] []) (world st2))
          as [[d|e] w]; cbn [fst snd]
    end.
    + match goal with
      | |- context [let (_, _) := ?m ?s in _] =>
          destruct (Hk d s) as (evs & Hevs & _); cbv beta in Hevs;
          destruct (m s) as [[a|e'] st4]
      end;
        cbn in Hevs |- *; exists (Returned d), evs;
        rewrite Hevs, <- app_assoc; reflexivity.
    + cbn. eexists _, []. reflexivity.
Qed.

End Responses.

(** ** The response of get_device_status *)

Section StatusResponse.

Variable World : Type.
Variable lib : call -> World -> outcome pyval * World.

Lemma try_bind_returned {A B} (m : M World A) (k : A -> M World B)
  (h : exn -> M World B) st a st1 :
  m st = (Returned a, st1) ->
  try_except (bind m k) h st = try_except (k a) h st1.
Proof. intros H. unfold try_except, bind. now rewrite H. Qed.

Lemma try_bind_raised {A B} (m : M World A) (k : A -> M World B)
  (h : exn -> M World B) st e st1 :
  m st = (Raised e, st1) ->
  try_except (bind m k) h st = h e st1.
Proof. intros H. unfold try_except, bind. now rewrite H. Qed.

(** A response that is not ready and says why. *)
Ltac unready :=
  split; [reflexivity|]; right;
  split; [reflexivity|]; eexists; split; [|reflexivity]; discriminate.

Ltac unready_response :=
  cbn; eexists; split; [reflexivity | unready].

(** One step of a [try] block that leaves [status] alone. *)
Ltac try_step K :=
  match goal with
  | |- context [try_except (bind ?m ?k) ?h ?s] =>
      let E := fresh "E" in
      let Hk := fresh "Hk" in
      pose proof (K s) as Hk;
      destruct (m s) as [[?a|?e] ?s'] eqn:E; simpl in Hk;
      [ rewrite (try_bind_returned m k h s _ _ E)
      | rewrite (try_bind_raised m k h s _ _ E) ]
  end.

(** One assignment to [status] inside a [try] block. *)
Ltac try_set :=
  match goal with
  | |- context [try_except (bind (status_setitem ?k ?v) ?K) ?h ?s] =>
      rewrite (try_bind_returned (status_setitem k v) K h s tt _ eq_refl)
  end.

Lemma probe_device_shape (serial : string) (serials : list string)
  (st : state World) :
  status st = initial_status (serial :: serials) ->
  status_shape (status (snd (probe_device lib st))).
Proof.
  intros Hs. unfold probe_device, probe_device_try, u2_connect_default.
  try_step (keeps_status_lib_call World lib (CallFn "u2.connect" [] [])).
  - try_step (keeps_status_py_getattr World lib a "info").
    + try_step (keeps_status_basic_device_info World lib a0).
      * do 2 try_set.
        try_step (keeps_status_py_method World lib a "screen_on" [] []).
        -- try_set.
           cbn. rewrite Hk2, Hk1, Hk0, Hk, Hs.
           split; [reflexivity|]. left. cbn.
           repeat split; try reflexivity. eauto.
        -- cbn. rewrite Hk2, Hk1, Hk0, Hk, Hs.
           unready.
      * cbn. rewrite Hk1, Hk0, Hk, Hs.
        unready.
    + cbn. rewrite Hk0, Hk, Hs.
      unready.
  - cbn. rewrite Hk, Hs.
    unready.
Qed.

Lemma probe_device_returns (st : state World) :
  fst (probe_device lib st) = Returned tt.
Proof.
  unfold probe_device, try_except.
  destruct (probe_device_try lib st) as [[[]|e] st1]; reflexivity.
Qed.

Lemma report_status_shape (devices : list string) (st : state World) :
  exists kv,
    fst (report_status lib devices st) = Returned (PDict kv) /\
    status_shape kv.
Proof.
  unfold report_status, bind, put_status. cbn [fst snd].
  destruct devices as [|serial serials]; cbn [list_is_empty].
  - unready_response.
  - match goal with
    | |- context [probe_device lib ?s] =>
        pose proof (probe_device_shape serial serials s eq_refl) as Hshape;
        pose proof (probe_device_returns s) as Hret;
        destruct (probe_device lib s) as [[[]|e] st1]; simpl in Hret;
        [|discriminate]
    end.
    cbn. eexists. split; [reflexivity | exact Hshape].
Qed.

(** X19: get_device_status always answers with the same seven keys, and
    ready_for_automation is True only together with device_connected True,
    error None, adb_available True and a non-empty list of connected
    devices; in every other response ready_for_automation is False and
    error is a non-empty string. *)
Theorem get_device_status_shape (st : state World) :
  exists kv,
    fst (get_device_status lib st) = Returned (PDict kv) /\
    status_shape kv.
Proof.
  unfold get_device_status.
  destruct (shutil_which lib "adb" st) as [[adb_path|e] st0] eqn:E0;
    [ rewrite (try_bind_returned _ _ _ _ _ _ E0)
    | rewrite (try_bind_raised _ _ _ _ _ _ E0); unready_response ].
  destruct (truthy lib adb_path st0) as [[found|e] st1] eqn:E1;
    [ rewrite (try_bind_returned _ _ _ _ _ _ E1)
    | rewrite (try_bind_raised _ _ _ _ _ _ E1); unready_response ].
  destruct found; cbn [negb]; [|unready_response].
  destruct (list_devices lib adb_path st1) as [[devices|e] st2] eqn:E2.
  - erewrite try_bind_returned;
      [| apply try_returned; erewrite bind_returned; [|exact E2]; reflexivity].
    cbv beta iota. unfold try_except.
    destruct (report_status_shape devices st2) as (kv & Hkv & Hshape).
    destruct (report_status lib devices st2) as [[resp|e] st3]; simpl in Hkv;
      [|discriminate].
    injection Hkv as ->. exists kv. auto.
  - erewrite try_bind_returned;
      [| erewrite try_raised; [|apply bind_raised; exact E2]; reflexivity].
    unready_response.
Qed.

End StatusResponse.

(** ** Errors while waiting for the screen *)

Section WaitErrors.

Variable World : Type.
Variable lib : call -> World -> outcome pyval * World.

Lemma wait_loop_poll_raises (d : pyval) (n : nat) (st stn st' : state World)
  (e : exn) :
  before_poll lib d n st = Some stn ->
  poll_screen lib d stn = (Raised e, st') ->
  wait_loop lib (S n) d st = Some (Raised e, st').
Proof.
  revert st. induction n as [|n IH]; intros st Hb Hp.
  - injection Hb as <-. simpl. now rewrite Hp.
  - simpl in Hb. cbn [wait_loop].
    destruct (poll_screen lib d st) as [[[|]|e0] st1]; try discriminate.
    destruct (asyncio_sleep lib 1 st1) as [[v|e1] st2]; try discriminate.
    now apply IH.
Qed.

Lemma wait_loop_sleep_raises (d : pyval) (n : nat)
  (st stn st1 st' : state World) (e : exn) :
  before_poll lib d n st = Some stn ->
  poll_screen lib d stn = (Returned false, st1) ->
  asyncio_sleep lib 1 st1 = (Raised e, st') ->
  wait_loop lib (S n) d st = Some (Raised e, st').
Proof.
  revert st. induction n as [|n IH]; intros st Hb Hp Hs.
  - injection Hb as <-. simpl. now rewrite Hp, Hs.
  - simpl in Hb. cbn [wait_loop].
    destruct (poll_screen lib d st) as [[[|]|e0] st0]; try discriminate.
    destruct (asyncio_sleep lib 1 st0) as [[v|e1] st2]; try discriminate.
    now apply IH.
Qed.

Lemma wait_loop_raised (d : pyval) (fuel : nat) (st st' : state World)
  (e : exn) :
  wait_loop lib fuel d st = Some (Raised e, st') ->
  exists n stn,
    (n < fuel)%nat /\
    before_poll lib d n st = Some stn /\
    (poll_screen lib d stn = (Raised e, st') \/
     exists st1,
       poll_screen lib d stn = (Returned false, st1) /\
       asyncio_sleep lib 1 st1 = (Raised e, st')).
Proof.
  revert st. induction fuel as [|fuel IH]; intros st H; [discriminate|].
  simpl in H.
  destruct (poll_screen lib d st) as [[[|]|e0] st1] eqn:Hp.
  - discriminate.
  - destruct (asyncio_sleep lib 1 st1) as [[v|e1] st2] eqn:Hs.
    + apply IH in H as (n & stn & Hn & Hb & Hr).
      exists (S n), stn. split; [lia|]. split; [|exact Hr].
      simpl. now rewrite Hp, Hs.
    + injection H as -> ->. exists 0%nat, st. split; [lia|].
      split; [reflexivity|]. right. now exists st1.
  - injection H as -> ->. exists 0%nat, st. split; [lia|].
    split; [reflexivity|]. now left.
Qed.

(** X20: once connected, wait_for_screen_on ends with an exception exactly
    when, after some number of polls that saw the screen off and were each
    followed by a sleep that returned, the next poll raises it or sees the
    screen off and the sleep after it raises it; the exception and the state
    it leaves are those of that call. *)
Theorem wait_for_screen_on_raises (device_id : string) (d : pyval)
  (st st0 st' : state World) (e : exn) :
  u2_connect lib (Some device_id) st = (Returned d, st0) ->
  (exists fuel,
     wait_for_screen_on lib fuel device_id st = Some (Raised e, st'))
  <->
  (exists n stn,
     before_poll lib d n st0 = Some stn /\
     (poll_screen lib d stn = (Raised e, st') \/
      exists st1,
        poll_screen lib d stn = (Returned false, st1) /\
        asyncio_sleep lib 1 st1 = (Raised e, st'))).
Proof.
  intros Hc. unfold wait_for_screen_on. rewrite Hc. split.
  - intros (fuel & H).
    apply wait_loop_raised in H as (n & stn & _ & Hb & Hr). eauto.
  - intros (n & stn & Hb & [Hp|(st1 & Hp & Hs)]); exists (S n).
    + now apply (wait_loop_poll_raises d n st0 stn).
    + now apply (wait_loop_sleep_raises d n st0 stn st1).
Qed.

End WaitErrors.

(** On the waking phone with the library that loses the device, the fourth
    poll raises and the tool ends with that exception. *)
Lemma wait_for_screen_on_raises_witness :
  exists fuel,
    wait_for_screen_on dropping_lib fuel "emulator-5554" (boot waking_phone)
    = Some (Raised device_offline,
            snd (poll_screen dropping_lib device (dropping_polls 3))).
Proof.
  apply (proj2 (wait_for_screen_on_raises phone dropping_lib "emulator-5554"
                  device (boot waking_phone) (dropping_polls 0)
                  (snd (poll_screen dropping_lib device (dropping_polls 3)))
                  device_offline eq_refl)).
  exists 3%nat, (dropping_polls 3). split; [reflexivity|]. left. reflexivity.
Defined.

(** ** What the lookups hand back *)

Section Answers.

Variable World : Type.
Variable lib : call -> World -> outcome pyval * World.

(** X21: wait_activity, and wait_for_element and scroll_to for the kinds
    text and resourceId, hand back the answer of the library as it is,
    whatever value it is, in the state the library left and with nothing
    printed. *)
Theorem answers_returned_as_is (device_id : option string) (d : pyval)
  (st st0 : state World) :
  u2_connect lib device_id st = (Returned d, st0) ->
  (forall activity timeout v st1,
     py_method lib d "wait_activity" [PStr activity]
       [("timeout", PFloat timeout)] st0 = (Returned v, st1) ->
     wait_activity lib activity timeout device_id st = (Returned v, st1)) /\
  (forall selector selector_type timeout el st1,
     selector_type = "text" \/ selector_type = "resourceId" ->
     wait_for_selector lib d selector selector_type timeout st0
     = (Returned el, st1) ->
     wait_for_element lib selector selector_type timeout device_id st
     = (Returned el, st1)) /\
  (forall selector selector_type el st1,
     selector_type = "text" \/ selector_type = "resourceId" ->
     scroll_search lib d selector_type selector st0 = (Returned el, st1) ->
     scroll_to lib selector selector_type device_id st = (Returned el, st1)).
Proof.
  intros Hc. repeat split.
  - intros activity timeout v st1 H.
    unfold wait_activity, try_except, bind. now rewrite Hc, H.
  - intros selector selector_type timeout el st1 Hk H.
    unfold wait_for_element, try_except, bind. rewrite Hc.
    unfold wait_for_selector, select_by, bind in H.
    destruct Hk as [ -> | -> ]; cbn [String.eqb Ascii.eqb Bool.eqb] in *;
      now rewrite H.
  - intros selector selector_type el st1 Hk H.
    unfold scroll_to, try_except, bind. rewrite Hc.
    destruct Hk as [ -> | -> ]; cbn [String.eqb Ascii.eqb Bool.eqb] in *;
      now rewrite H.
Qed.

(** X22: for the kind description, wait_for_element and scroll_to answer
    False when the lookup gave None, without asking the element whether it
    exists; when the lookup gave anything else they ask for its attribute
    exists and hand that value back as it is. *)
Theorem description_lookups (device_id : option string) (d : pyval)
  (st st0 : state World) :
  u2_connect lib device_id st = (Returned d, st0) ->
  (forall selector timeout el st1,
     wait_for_selector lib d selector "description" timeout st0
     = (Returned el, st1) ->
     (el = PNone ->
      wait_for_element lib selector "description" timeout device_id st
      = (Returned (PBool false), st1)) /\
     (el <> PNone ->
      forall x st2,
        py_getattr lib el "exists" st1 = (Returned x, st2) ->
        wait_for_element lib selector "description" timeout device_id st
        = (Returned x, st2))) /\
  (forall selector el st1,
     scroll_search lib d "description" selector st0 = (Returned el, st1) ->
     (el = PNone ->
      scroll_to lib selector "description" device_id st
      = (Returned (PBool false), st1)) /\
     (el <> PNone ->
      forall x st2,
        py_getattr lib el "exists" st1 = (Returned x, st2) ->
        scroll_to lib selector "description" device_id st
        = (Returned x, st2))).
Proof.
  intros Hc. split.
  - intros selector timeout el st1 H.
    unfold wait_for_selector, select_by, bind in H.
    cbn [String.eqb Ascii.eqb Bool.eqb] in H.
    unfold wait_for_element, try_except, bind. rewrite Hc.
    cbn [String.eqb Ascii.eqb Bool.eqb].
    destruct (py_call lib d [("description", PStr selector)] st0)
      as [[sel|e] st'] eqn:Hs; [|discriminate].
    rewrite H. unfold not_none_and_exists. split.
    + intros ->. reflexivity.
    + intros Hn x st2 Hx. destruct el; try congruence; cbn [is_none negb];
        now rewrite Hx.
  - intros selector el st1 H.
    unfold scroll_to, try_except, bind. rewrite Hc.
    cbn [String.eqb Ascii.eqb Bool.eqb]. rewrite H.
    unfold not_none_and_exists. split.
    + intros ->. reflexivity.
    + intros Hn x st2 Hx. destruct el; try congruence; cbn [is_none negb];
        now rewrite Hx.
Qed.

End Answers.

(** ** The further properties on the small phone *)

(** The listing of the bridge has a row for SERIAL1 in state device. *)
Lemma parse_devices_sound_witness :
  In "SERIAL1" (parse_devices adb_listing) /\
  exists line rest,
    In line (PyStr.splitlines adb_listing) /\
    PyStr.split line = "SERIAL1" :: "device" :: rest /\
    is_token "SERIAL1" = true.
Proof.
  assert (H : In "SERIAL1" (parse_devices adb_listing))
    by (vm_compute; left; reflexivity).
  split; [exact H|].
  exact (parse_devices_sound adb_listing "SERIAL1" H).
Defined.

(** A table of two rows, one of them ready. *)
Lemma parse_devices_table_witness :
  parse_devices
    (unlines ("List of devices attached"
              :: map adb_row [("SERIAL1", "device"); ("SERIAL2", "offline")]))
  = ["SERIAL1"].
Proof.
  apply (parse_devices_table "List of devices attached"
           [("SERIAL1", "device"); ("SERIAL2", "offline")]).
  - reflexivity.
  - reflexivity.
  - repeat constructor.
Defined.

(** The same table with lines ended by CR LF. *)
Lemma parse_devices_crlf_witness :
  parse_devices
    (unlines_crlf ["List of devices attached"; adb_row ("SERIAL1", "device")])
  = parse_devices
      (unlines ["List of devices attached"; adb_row ("SERIAL1", "device")]).
Proof.
  apply (parse_devices_crlf
           ["List of devices attached"; adb_row ("SERIAL1", "device")]).
  repeat constructor.
Defined.

(** The listing between a blank line and trailing spaces. *)
Lemma parse_devices_surrounded_witness :
  parse_devices ((" " ++ LF) ++ adb_listing ++ (LF ++ "  "))%string
  = parse_devices adb_listing.
Proof.
  apply (parse_devices_surrounded (" " ++ LF) adb_listing (LF ++ "  "));
    reflexivity.
Defined.

(** On the ready phone the element is found, its click returns, and click
    answers True. *)
Lemma click_only_when_found_witness :
  el_and_exists phone_lib (PObj 4)
    (snd (wait_for_selector phone_lib device "OK" "text" 10
            (connected ready_phone)))
  = (Returned true,
     snd (el_and_exists phone_lib (PObj 4)
            (snd (wait_for_selector phone_lib device "OK" "text" 10
                    (connected ready_phone))))) /\
  fst (click phone_lib "OK" "text" 10 (Some "emulator-5554") (boot ready_phone))
  = Returned (PBool true).
Proof.
  split; [reflexivity|].
  apply (proj2 (proj2 (proj2
           (click_only_when_found phone phone_lib
              (boot ready_phone) (connected ready_phone)
              (snd (wait_for_selector phone_lib device "OK" "text" 10
                      (connected ready_phone)))
              (snd (el_and_exists phone_lib (PObj 4)
                      (snd (wait_for_selector phone_lib device "OK" "text" 10
                              (connected ready_phone)))))
              "OK" "text" 10 (Some "emulator-5554") device (PObj 4) true
              eq_refl eq_refl eq_refl) eq_refl))).
  exists PNone. reflexivity.
Defined.

(** On the ready phone the element is found and long_click answers True. *)
Lemma long_click_and_drag_only_when_found_witness :
  el_and_exists phone_lib (PObj 3)
    (snd (select_by phone_lib device "OK" "text" (connected ready_phone)))
  = (Returned true,
     snd (el_and_exists phone_lib (PObj 3)
            (snd (select_by phone_lib device "OK" "text"
                    (connected ready_phone))))) /\
  fst (long_click phone_lib "OK" "text" 1 (Some "emulator-5554")
         (boot ready_phone))
  = Returned (PBool true).
Proof.
  split; [reflexivity|].
  apply (proj2 (proj1 (proj2
           (long_click_and_drag_only_when_found phone phone_lib
              (boot ready_phone) (connected ready_phone)
              (snd (select_by phone_lib device "OK" "text"
                      (connected ready_phone)))
              (snd (el_and_exists phone_lib (PObj 3)
                      (snd (select_by phone_lib device "OK" "text"
                              (connected ready_phone)))))
              "OK" "text" 1 100 200 (Some "emulator-5554") device (PObj 3) true
              eq_refl eq_refl eq_refl) eq_refl))).
  exists PNone. reflexivity.
Defined.

(** With a library whose wait answers a plain True, wait_for_element by
    description answers False. *)
Lemma lookup_answering_plain_true_witness :
  py_method plain_wait_lib (PObj 3) "wait" [] [("timeout", PFloat 10)]
    (snd (py_call plain_wait_lib device [("description", PStr "OK")]
            (connected ready_phone)))
  = (Returned (PBool true),
     snd (py_method plain_wait_lib (PObj 3) "wait" [] [("timeout", PFloat 10)]
            (snd (py_call plain_wait_lib device [("description", PStr "OK")]
                    (connected ready_phone))))) /\
  fst (wait_for_element plain_wait_lib "OK" "description" 10
         (Some "emulator-5554") (boot ready_phone))
  = Returned (PBool false).
Proof.
  split; [reflexivity|].
  exact (proj2 (proj2 (proj2
           (lookup_answering_plain_true phone plain_wait_lib
              (boot ready_phone) (connected ready_phone)
              (snd (py_call plain_wait_lib device [("description", PStr "OK")]
                      (connected ready_phone)))
              (snd (py_method plain_wait_lib (PObj 3) "wait" []
                      [("timeout", PFloat 10)]
                      (snd (py_call plain_wait_lib device
                              [("description", PStr "OK")]
                              (connected ready_phone)))))
              "OK" "description" 10 (Some "emulator-5554") device (PObj 3)
              (or_intror (or_intror eq_refl)) eq_refl eq_refl eq_refl)))).
Defined.

(** Pressing a key on the ready phone. *)
Lemma bridge_and_sleep_footprint_witness :
  exists evs,
    trace (snd (press_key phone_lib "home" None (boot ready_phone)))
    = trace (boot ready_phone) ++ evs /\
    (looks_for_adb (Press_key "home" None) = false ->
     forallb (fun ev => not_adb (fst ev)) evs = true) /\
    (is_wait_for_screen_on (Press_key "home" None) = false ->
     forallb (fun ev => not_sleep (fst ev)) evs = true).
Proof.
  exact (bridge_and_sleep_footprint phone phone_lib phone_str 1
           (Press_key "home" None) (boot ready_phone)
           (press_key phone_lib "home" None (boot ready_phone)) eq_refl).
Defined.

(** Scrolling on the ready phone. *)
Lemma only_three_tools_wait_witness :
  exists evs,
    trace (snd (scroll_to phone_lib "OK" "text" None (boot ready_phone)))
    = trace (boot ready_phone) ++ evs /\
    forallb (fun ev => not_wait (fst ev)) evs = true.
Proof.
  exact (only_three_tools_wait phone phone_lib phone_str 1
           (Scroll_to "OK" "text" None) (boot ready_phone)
           (scroll_to phone_lib "OK" "text" None (boot ready_phone))
           eq_refl eq_refl).
Defined.

(** The listing of the ready phone. *)
Lemma check_adb_and_list_devices_shapes_witness :
  fst (check_adb_and_list_devices phone_lib (boot ready_phone))
  = Returned (adb_response true ["SERIAL1"] PNone) /\
  adb_listing_response (adb_response true ["SERIAL1"] PNone).
Proof.
  assert (H : fst (check_adb_and_list_devices phone_lib (boot ready_phone))
              = Returned (adb_response true ["SERIAL1"] PNone))
    by (vm_compute; reflexivity).
  split; [exact H|].
  exact (check_adb_and_list_devices_shapes phone phone_lib (boot ready_phone)
           (adb_response true ["SERIAL1"] PNone) H).
Defined.

(** With nothing plugged in, connect_device answers before it connects. *)
Lemma connect_device_before_connecting_witness :
  list_devices phone_lib (PStr "/usr/bin/adb")
    (snd (shutil_which phone_lib "adb" (boot unplugged)))
  = (Returned [],
     snd (list_devices phone_lib (PStr "/usr/bin/adb")
            (snd (shutil_which phone_lib "adb" (boot unplugged))))) /\
  connect_device phone_lib None (boot unplugged)
  = (Returned
       (device_response false []
          (PStr "No Android devices connected. Please connect a device and ensure USB debugging is enabled.")
          PNone),
     snd (list_devices phone_lib (PStr "/usr/bin/adb")
            (snd (shutil_which phone_lib "adb" (boot unplugged))))).
Proof.
  assert (H : list_devices phone_lib (PStr "/usr/bin/adb")
                (snd (shutil_which phone_lib "adb" (boot unplugged)))
              = (Returned [],
                 snd (list_devices phone_lib (PStr "/usr/bin/adb")
                        (snd (shutil_which phone_lib "adb" (boot unplugged))))))
    by (vm_compute; reflexivity).
  split; [exact H|].
  exact (proj1 (proj2
           (connect_device_before_connecting phone phone_lib
              (boot unplugged)
              (snd (shutil_which phone_lib "adb" (boot unplugged)))
              (snd (shutil_which phone_lib "adb" (boot unplugged)))
              None (PStr "/usr/bin/adb") true eq_refl eq_refl))
           eq_refl
           (snd (list_devices phone_lib (PStr "/usr/bin/adb")
                   (snd (shutil_which phone_lib "adb" (boot unplugged)))))
           H).
Defined.

(** On the ready phone wait_activity hands back the None of the library. *)
Lemma answers_returned_as_is_witness :
  wait_activity phone_lib ".MainActivity" 10 (Some "emulator-5554")
    (boot ready_phone)
  = (Returned PNone,
     snd (py_method phone_lib device "wait_activity" [PStr ".MainActivity"]
            [("timeout", PFloat 10)] (connected ready_phone))).
Proof.
  exact (proj1
           (answers_returned_as_is phone phone_lib (Some "emulator-5554")
              device (boot ready_phone) (connected ready_phone) eq_refl)
           ".MainActivity" 10 PNone
           (snd (py_method phone_lib device "wait_activity"
                   [PStr ".MainActivity"] [("timeout", PFloat 10)]
                   (connected ready_phone)))
           eq_refl).
Defined.

(** On the ready phone the lookup by description gives an element, and
    wait_for_element hands back what its attribute exists holds. *)
Lemma description_lookups_witness :
  wait_for_element phone_lib "OK" "description" 10 (Some "emulator-5554")
    (boot ready_phone)
  = (Returned (PBool true),
     snd (py_getattr phone_lib (PObj 4) "exists"
            (snd (wait_for_selector phone_lib device "OK" "description" 10
                    (connected ready_phone))))).
Proof.
  apply (proj2
           (proj1
              (description_lookups phone phone_lib (Some "emulator-5554")
                 device (boot ready_phone) (connected ready_phone) eq_refl)
              "OK" 10 (PObj 4)
              (snd (wait_for_selector phone_lib device "OK" "description" 10
                      (connected ready_phone)))
              eq_refl)).
  - discriminate.
  - reflexivity.
Defined.
